(** * Verification of the repository ingestion pipeline (utils/upload_repo)

    A shallow embedding of the parts of [repo_loader.py], [r2r_client.py],
    [file_filter.py] and [config.py] that the specification talks about:
    the document identity ([generate_document_id]), the retrying transport
    ([R2RClient._retry_request]), the file selection
    ([FileFilter.filter_files]) and the upload loop of
    [RepositoryLoader.load_repository]; and, beyond the specification,
    the collections, upload and monitoring calls of the client, the
    grouping and relative paths of the filter, the path and line
    functions of [metadata_extractor.py] and
    [GitManager._extract_repo_name] of [git_manager.py].

    Conventions.
    - A Python [str] is a Rocq [string]; every [ascii] stands for one
      character, the code point with the same number (0..255).
      [str.encode('utf-8')] is written out for that range.
    - Python integers are [Z]; bytes are [Z] in 0..255.
    - Effects (HTTP requests, [time.sleep], raised exceptions) are
      modelled by a state-and-exception monad over an explicit world:
      the number of HTTP calls made, a clock and the trace of requests
      and sleeps.  [time.time()] reads the clock, which [time.sleep]
      advances.
    - The filesystem is what a path answers ([is_dir], [is_symlink],
      its size) and what [rglob] yields under a repository root.
    - Logging is left out, except where evaluating the text of a log
      line can raise (a missing key, a value that cannot be sliced). *)

From Stdlib Require Import ZArith List String Ascii Bool Lia QArith Qround Lqa.
From Stdlib Require Import RelationClasses Sorted.
Import ListNotations.
Set Warnings "-register-all".
Open Scope string_scope.
Open Scope list_scope.
Open Scope Z_scope.

(** ** Python strings and bytes *)

Module PyStr.

(** [ord(c)] *)
Definition ord (c : ascii) : Z := Z.of_N (N_of_ascii c).

(** One character of [s.encode('utf-8')], for code points below 256. *)
Definition encode_char (c : ascii) : list Z :=
  let n := ord c in
  if n <? 128 then [n]
  else [Z.lor 192 (Z.shiftr n 6); Z.lor 128 (Z.land n 63)].

(** [s.encode('utf-8')] *)
Fixpoint encode_utf8 (s : string) : list Z :=
  match s with
  | EmptyString => []
  | String c s' => encode_char c ++ encode_utf8 s'
  end.

(** [s[:n]] for [n >= 0] *)
Fixpoint take (n : nat) (s : string) : string :=
  match n, s with
  | O, _ => EmptyString
  | S _, EmptyString => EmptyString
  | S n', String c s' => String c (take n' s')
  end.

(** [s.startswith(p)] *)
Fixpoint startswith (p s : string) : bool :=
  match p, s with
  | EmptyString, _ => true
  | String _ _, EmptyString => false
  | String a p', String b s' => Ascii.eqb a b && startswith p' s'
  end.

(** Decimal digits of a non-negative integer, most significant first;
    [fuel] bounds the number of digits. *)
Fixpoint digits10 (fuel : nat) (n : Z) (acc : string) : string :=
  match fuel with
  | O => acc
  | S fuel' =>
      let d := ascii_of_N (Z.to_N (48 + n mod 10)) in
      if n <? 10 then String d acc
      else digits10 fuel' (n / 10) (String d acc)
  end.

(** [str(n)] for an [int] *)
Definition str_of_int (n : Z) : string :=
  if n <? 0 then String "-" (digits10 (S (Z.to_nat (Z.log2 (- n)))) (- n) "")
  else digits10 (S (Z.to_nat (Z.log2 n))) n "".

(** [len(s)] *)
Definition len (s : string) : Z := Z.of_nat (String.length s).

(** [s[n:]] for [n >= 0] *)
Fixpoint drop (n : nat) (s : string) : string :=
  match n, s with
  | O, _ => s
  | S _, EmptyString => EmptyString
  | S n', String _ s' => drop n' s'
  end.

(** [str.isspace] on one character (code points below 256) *)
Definition isspace (c : ascii) : bool :=
  let n := ord c in
  ((9 <=? n) && (n <=? 13)) || ((28 <=? n) && (n <=? 32))
  || (n =? 133) || (n =? 160).

Fixpoint lstrip (s : string) : string :=
  match s with
  | EmptyString => EmptyString
  | String c s' => if isspace c then lstrip s' else s
  end.

Definition reverse (s : string) : string :=
  string_of_list_ascii (rev (list_ascii_of_string s)).

(** [s.strip()] *)
Definition strip (s : string) : string :=
  reverse (lstrip (reverse (lstrip s))).

(** [s.split(sep)] for a one-character separator *)
Fixpoint split (sep : ascii) (s : string) : list string :=
  match s with
  | EmptyString => [EmptyString]
  | String c s' =>
      let r := split sep s' in
      if Ascii.eqb c sep then EmptyString :: r
      else match r with
           | h :: t => String c h :: t
           | [] => [String c EmptyString]
           end
  end.

(** [sep.join(l)] *)
Fixpoint join (sep : string) (l : list string) : string :=
  match l with
  | [] => EmptyString
  | [x] => x
  | x :: rest => (x ++ sep ++ join sep rest)%string
  end.

End PyStr.

(** ** SHA-1 (hashlib.sha1), on byte lists *)

Module SHA1.

Definition w32 (x : Z) : Z := x mod 2 ^ 32.
Definition add32 (x y : Z) : Z := w32 (x + y).
Definition rotl32 (n x : Z) : Z :=
  Z.lor (w32 (Z.shiftl x n)) (Z.shiftr x (32 - n)).

(** [int.from_bytes(bs, 'big')] *)
Definition from_bytes_big (bs : list Z) : Z :=
  fold_left (fun acc b => acc * 256 + b) bs 0.

(** The [n] low bytes of [v], most significant first. *)
Fixpoint to_bytes_big (n : nat) (v : Z) : list Z :=
  match n with
  | O => []
  | S n' => (Z.shiftr v (8 * Z.of_nat n')) mod 256 :: to_bytes_big n' v
  end.

(** Message padding: a 1 bit, zeros up to 56 mod 64, the bit length on
    8 bytes. *)
Definition pad (msg : list Z) : list Z :=
  let len := Z.of_nat (List.length msg) in
  let zeros := Z.to_nat ((55 - len) mod 64) in
  msg ++ [128] ++ repeat 0 zeros ++ to_bytes_big 8 (8 * len).

Fixpoint blocks (n : nat) (bs : list Z) : list (list Z) :=
  match n with
  | O => []
  | S n' => firstn 64 bs :: blocks n' (skipn 64 bs)
  end.

Fixpoint words (n : nat) (bs : list Z) : list Z :=
  match n with
  | O => []
  | S n' => from_bytes_big (firstn 4 bs) :: words n' (skipn 4 bs)
  end.

(** The message schedule, newest word first: [extend k w] adds [k] words
    to the 16 taken from the block. *)
Fixpoint extend (k : nat) (rev_w : list Z) : list Z :=
  match k with
  | O => rev_w
  | S k' =>
      let x := Z.lxor (Z.lxor (nth 2 rev_w 0) (nth 7 rev_w 0))
                      (Z.lxor (nth 13 rev_w 0) (nth 15 rev_w 0)) in
      extend k' (rotl32 1 x :: rev_w)
  end.

Definition schedule (block : list Z) : list Z :=
  rev (extend 64 (rev (words 16 block))).

Definition state : Type := Z * Z * Z * Z * Z.

Definition f_k (t : nat) (b c d : Z) : Z * Z :=
  if (t <? 20)%nat then
    (Z.lor (Z.land b c) (Z.land (Z.lxor b (2 ^ 32 - 1)) d), 0x5A827999)
  else if (t <? 40)%nat then
    (Z.lxor (Z.lxor b c) d, 0x6ED9EBA1)
  else if (t <? 60)%nat then
    (Z.lor (Z.lor (Z.land b c) (Z.land b d)) (Z.land c d), 0x8F1BBCDC)
  else
    (Z.lxor (Z.lxor b c) d, 0xCA62C1D6).

Definition round (st : state * nat) (wt : Z) : state * nat :=
  let '((a, b, c, d, e), t) := st in
  let '(f, k) := f_k t b c d in
  let tmp := add32 (add32 (add32 (add32 (rotl32 5 a) f) e) k) wt in
  ((tmp, a, rotl32 30 b, c, d), S t).

Definition compress (h : state) (block : list Z) : state :=
  let '(h0, h1, h2, h3, h4) := h in
  let '((a, b, c, d, e), _) := fold_left round (schedule block) (h, O) in
  (add32 h0 a, add32 h1 b, add32 h2 c, add32 h3 d, add32 h4 e).

Definition init : state :=
  (0x67452301, 0xEFCDAB89, 0x98BADCFE, 0x10325476, 0xC3D2E1F0).

(** [hashlib.sha1(msg).digest()] : 20 bytes *)
Definition digest (msg : list Z) : list Z :=
  let p := pad msg in
  let '(h0, h1, h2, h3, h4) :=
    fold_left compress (blocks (List.length p / 64) p) init in
  to_bytes_big 4 h0 ++ to_bytes_big 4 h1 ++ to_bytes_big 4 h2
    ++ to_bytes_big 4 h3 ++ to_bytes_big 4 h4.

End SHA1.

(** ** uuid.uuid5 and str(UUID) *)

Module UUID.

(** [uuid.NAMESPACE_DNS.bytes], 6ba7b810-9dad-11d1-80b4-00c04fd430c8 *)
Definition NAMESPACE_DNS : list Z :=
  [0x6b; 0xa7; 0xb8; 0x10; 0x9d; 0xad; 0x11; 0xd1;
   0x80; 0xb4; 0x00; 0xc0; 0x4f; 0xd4; 0x30; 0xc8].

(** [UUID(bytes=..., version=v).int]: the variant and version bits are
    overwritten. *)
Definition with_version (int version : Z) : Z :=
  let int := Z.land int (Z.lnot (Z.shiftl 0xc000 48)) in
  let int := Z.lor int (Z.shiftl 0x8000 48) in
  let int := Z.land int (Z.lnot (Z.shiftl 0xf000 64)) in
  Z.lor int (Z.shiftl version 76).

(** The first 16 bytes of the SHA-1 of namespace and name. *)
Definition hash16 (namespace : list Z) (name : string) : list Z :=
  firstn 16 (SHA1.digest (namespace ++ PyStr.encode_utf8 name)).

(** [uuid.uuid5(namespace, name).int] *)
Definition uuid5 (namespace : list Z) (name : string) : Z :=
  with_version (SHA1.from_bytes_big (hash16 namespace name)) 5.

Definition hexdigit (d : Z) : ascii :=
  ascii_of_N (Z.to_N (if d <? 10 then 48 + d else 87 + d)).

(** ['%0nx' % v] for [0 <= v < 16^n] *)
Fixpoint hex (n : nat) (v : Z) : string :=
  match n with
  | O => EmptyString
  | S n' =>
      String (hexdigit ((Z.shiftr v (4 * Z.of_nat n')) mod 16)) (hex n' v)
  end.

(** [str(UUID(int=v))]: 8-4-4-4-12 hexadecimal digits *)
Definition to_str (v : Z) : string :=
  let h := hex 32 v in
  (substring 0 8 h ++ "-" ++ substring 8 4 h ++ "-" ++ substring 12 4 h
     ++ "-" ++ substring 16 4 h ++ "-" ++ substring 20 12 h)%string.

End UUID.

(** ** repo_loader.generate_document_id *)

Definition generate_document_id (repo_url file_path : string) : string :=
  let unique_key := (repo_url ++ ":" ++ file_path)%string in
  UUID.to_str (UUID.uuid5 UUID.NAMESPACE_DNS unique_key).

(** ** config.py *)

Definition UPLOAD_DELAY_MS : Z := 300.
Definition API_RETRY_ATTEMPTS : Z := 3.
Definition API_RETRY_BACKOFF : Z := 2.

(** ** Python values, exceptions and the world *)

(** JSON-like values: what [response.json()] returns. *)
Inductive pyval : Type :=
| PNone
| PBool (b : bool)
| PInt (n : Z)
| PStr (s : string)
| PList (l : list pyval)
| PDict (d : list (string * pyval)).

(** The exceptions the modelled code raises or catches. *)
Inductive exn : Type :=
| R2RClientError (msg : string)
| RequestException (msg : string)
| KeyError (key : string)
| TypeError (msg : string)
| ValueError (msg : string)
| OSError (msg : string)
| GitManagerError (msg : string)
| NonTermination.   (* not a Python exception: a loop bound of the model
                       was reached *)

(** [str(e)] *)
Definition exn_str (e : exn) : string :=
  match e with
  | R2RClientError m | RequestException m | TypeError m | ValueError m
  | OSError m | GitManagerError m => m
  | KeyError k => ("'" ++ k ++ "'")%string
  | NonTermination => ""
  end.

Record Response : Type := {
  status_code : Z;
  text : string;
  json : option pyval   (* None: the body is not JSON *)
}.

Record Request : Type := {
  method : string;
  url : string;
  kwargs : list (string * pyval)
}.

(** What one call of [requests.request] does: a response, or a
    transport-level failure ([requests.RequestException]). *)
Inductive http_outcome : Type :=
| Responds (r : Response)
| Fails (msg : string).

Inductive Event : Type :=
| EvRequest (r : Request)
| EvSleep (seconds : Q).

(** The world of the client: the number of HTTP calls made, the clock in
    seconds and the trace of effects. *)
Record World : Type := {
  calls : nat;
  now : Q;
  events : list Event
}.

Definition initial_world : World := {| calls := O; now := 0; events := [] |}.

(** The remote server: its answer to the n-th call. *)
Definition Server : Type := nat -> Request -> http_outcome.

(** ** A state-and-exception monad

    [M S A]: a computation over a state [S] that returns an [A] or raises.
    The state survives a raised exception, as the effects of Python code
    do. *)

Inductive result (A : Type) : Type :=
| Ok (a : A)
| Raise (e : exn).
Arguments Ok {A} a.
Arguments Raise {A} e.

Definition M (S A : Type) : Type := S -> result A * S.

Definition ret {S A} (a : A) : M S A := fun s => (Ok a, s).

Definition bind {S A B} (c : M S A) (k : A -> M S B) : M S B :=
  fun s =>
    match c s with
    | (Ok a, s') => k a s'
    | (Raise e, s') => (Raise e, s')
    end.

Definition raise {S A} (e : exn) : M S A := fun s => (Raise e, s).

Definition lift {S A} (r : result A) : M S A := fun s => (r, s).

(** [try: c  except <handles> as e: h e] *)
Definition try_except {S A} (c : M S A) (handles : exn -> bool)
    (h : exn -> M S A) : M S A :=
  fun s =>
    match c s with
    | (Ok a, s') => (Ok a, s')
    | (Raise e, s') => if handles e then h e s' else (Raise e, s')
    end.

(** [except Exception] *)
Definition any_Exception (e : exn) : bool :=
  match e with NonTermination => false | _ => true end.

Declare Scope monad_scope.
Delimit Scope monad_scope with monad.
Notation "x <- c ;; k" := (bind c (fun x => k))
  (at level 61, c at next level, right associativity) : monad_scope.
Notation "c ;;; k" := (bind c (fun _ => k))
  (at level 61, right associativity) : monad_scope.
Open Scope monad_scope.

(** [for x in xs: body x], where the body either goes on with the next
    element ([None]) or returns from the enclosing function ([Some]);
    [after] is the code that follows the loop. *)
Fixpoint for_returning {S A R} (xs : list A) (body : A -> M S (option R))
    (after : M S R) : M S R :=
  match xs with
  | [] => after
  | x :: xs' =>
      r <- body x ;;
      match r with
      | Some v => ret v
      | None => for_returning xs' body after
      end
  end.

(** [for x in xs: acc = body acc x] *)
Fixpoint fold_m {S A B} (body : B -> A -> M S B) (xs : list A) (acc : B)
    : M S B :=
  match xs with
  | [] => ret acc
  | x :: xs' => acc' <- body acc x ;; fold_m body xs' acc'
  end.

(** [for x in xs: body x] *)
Fixpoint for_each {S A} (xs : list A) (body : A -> M S unit) : M S unit :=
  match xs with
  | [] => ret tt
  | x :: xs' => body x ;;; for_each xs' body
  end.

(** [range(n)] *)
Definition range (n : Z) : list Z := map Z.of_nat (seq 0 (Z.to_nat n)).

(** The world after one more HTTP call *)
Definition sent (req : Request) (w : World) : World :=
  {| calls := S (calls w); now := now w;
     events := events w ++ [EvRequest req] |}.

(** The world after a sleep *)
Definition slept (seconds : Q) (w : World) : World :=
  {| calls := calls w; now := Qplus (now w) seconds;
     events := events w ++ [EvSleep seconds] |}.

(** [time.sleep(seconds)] *)
Definition time_sleep (seconds : Q) : M World unit :=
  fun w => (Ok tt, slept seconds w).

(** [time.time()] *)
Definition time_time : M World Q := fun w => (Ok (now w), w).

(** ** r2r_client.R2RClient *)

Record R2RClient : Type := {
  api_url : string;
  token : option string;
  headers : list (string * pyval)
}.

Definition is_RequestException (e : exn) : bool :=
  match e with RequestException _ => true | _ => false end.

Definition in_list (x : Z) (l : list Z) : bool := existsb (Z.eqb x) l.

Section Transport.

Variable server : Server.

(** [requests.request(method, url, **kwargs)] *)
Definition requests_request (req : Request) : M World Response :=
  fun w =>
    match server (calls w) req with
    | Responds r => (Ok r, sent req w)
    | Fails msg => (Raise (RequestException msg), sent req w)
    end.

(** The body of the [for attempt in range(API_RETRY_ATTEMPTS)] loop of
    [_retry_request]: [Some r] is [return r], [None] goes on with the next
    attempt. *)
Definition retry_attempt (req : Request) (attempt : Z)
    : M World (option Response) :=
  try_except
    (response <- requests_request req ;;
     (* Success codes *)
     if in_list (status_code response) [200; 201; 202] then
       ret (Some response)
     (* Rate limit - wait and retry *)
     else if status_code response =? 429 then
       let wait_time := 2 ^ attempt * API_RETRY_BACKOFF in
       time_sleep (inject_Z wait_time) ;;;
       ret None
     (* Client errors - don't retry *)
     else if (400 <=? status_code response)
             && (status_code response <? 500) then
       raise (R2RClientError
                ("HTTP " ++ PyStr.str_of_int (status_code response) ++ ": "
                 ++ PyStr.take 200 (text response))%string)
     (* Server errors - retry *)
     else if status_code response >=? 500 then
       time_sleep (inject_Z (2 ^ attempt)) ;;;
       ret None
     else ret None)
    is_RequestException
    (fun e =>
       if attempt =? API_RETRY_ATTEMPTS - 1 then
         raise (R2RClientError
                  ("Request failed after "
                   ++ PyStr.str_of_int API_RETRY_ATTEMPTS ++ " attempts: "
                   ++ exn_str e)%string)
       else
         time_sleep (inject_Z (2 ^ attempt)) ;;;
         ret None).

(** The loop of [_retry_request] over the attempts that are left. *)
Definition retry_loop (req : Request) (attempts : list Z)
    : M World Response :=
  for_returning attempts (retry_attempt req)
    (raise (R2RClientError
              ("Failed after " ++ PyStr.str_of_int API_RETRY_ATTEMPTS
               ++ " attempts")%string)).

Definition _retry_request (self : R2RClient) (method url : string)
    (kwargs : list (string * pyval)) : M World Response :=
  retry_loop {| method := method; url := url; kwargs := kwargs |}
    (range API_RETRY_ATTEMPTS).

End Transport.


(** ** fnmatch.fnmatch (POSIX: [normcase] is the identity)

    The pattern is translated as [fnmatch.translate] does: [*] matches
    any run of characters, [?] one character, [[seq]] and [[!seq]] a
    character class (a [[] without a closing bracket is literal), any
    other character itself.  The whole name must match. *)

Module Fnmatch.

Inductive item : Type :=
| Lit (c : ascii)
| Range (lo hi : ascii).

Inductive token : Type :=
| Star
| AnyChar
| Char (c : ascii)
| Class (negated : bool) (items : list item).

(** The text up to the first closing bracket, and what follows it. *)
Fixpoint split_at_close (s : string) : option (string * string) :=
  match s with
  | EmptyString => None
  | String c s' =>
      if Ascii.eqb c "]" then Some (EmptyString, s')
      else match split_at_close s' with
           | Some (stuff, rest) => Some (String c stuff, rest)
           | None => None
           end
  end.

(** [rest] is the pattern after an opening bracket: the negation flag,
    the members and the pattern after the closing bracket.  A closing
    bracket that comes first is a member. *)
Definition parse_bracket (rest : string)
    : option (bool * string * string) :=
  let '(neg, r1) :=
    match rest with
    | String "!" r => (true, r)
    | _ => (false, rest)
    end in
  match r1 with
  | String "]" r2 =>
      match split_at_close r2 with
      | Some (stuff, r) => Some (neg, String "]" stuff, r)
      | None => None
      end
  | _ =>
      match split_at_close r1 with
      | Some (stuff, r) => Some (neg, stuff, r)
      | None => None
      end
  end.

Fixpoint class_items (stuff : string) : list item :=
  match stuff with
  | EmptyString => []
  | String lo (String "-" (String hi r)) => Range lo hi :: class_items r
  | String c r => Lit c :: class_items r
  end.

Fixpoint translate (fuel : nat) (pat : string) : list token :=
  match fuel with
  | O => []
  | S fuel' =>
      match pat with
      | EmptyString => []
      | String c rest =>
          if Ascii.eqb c "*" then Star :: translate fuel' rest
          else if Ascii.eqb c "?" then AnyChar :: translate fuel' rest
          else if Ascii.eqb c "[" then
            match parse_bracket rest with
            | None => Char "[" :: translate fuel' rest
            | Some (neg, stuff, rest') =>
                Class neg (class_items stuff) :: translate fuel' rest'
            end
          else Char c :: translate fuel' rest
      end
  end.

Definition item_matches (c : ascii) (it : item) : bool :=
  match it with
  | Lit x => Ascii.eqb c x
  | Range lo hi => (PyStr.ord lo <=? PyStr.ord c) && (PyStr.ord c <=? PyStr.ord hi)
  end.

Definition token_matches (t : token) (c : ascii) : bool :=
  match t with
  | Star | AnyChar => true
  | Char x => Ascii.eqb c x
  | Class neg items => xorb neg (existsb (item_matches c) items)
  end.

Fixpoint tokens_match (ts : list token) (s : string) : bool :=
  match ts with
  | [] => match s with EmptyString => true | _ => false end
  | Star :: ts' =>
      (fix star (s : string) : bool :=
         tokens_match ts' s
         || match s with
            | EmptyString => false
            | String _ s' => star s'
            end) s
  | t :: ts' =>
      match s with
      | EmptyString => false
      | String c s' => token_matches t c && tokens_match ts' s'
      end
  end.

Definition fnmatch (name pat : string) : bool :=
  tokens_match (translate (S (String.length pat)) pat) name.

End Fnmatch.

(** ** pathlib.Path

    A path carries its components and what the filesystem answers about
    it: [is_dir()] and [is_symlink()], the size that
    [stat(follow_symlinks=False)] reports ([None] when it raises
    [OSError]) and whether [open(path, 'rb')] succeeds. *)

Record Path : Type := {
  parts : list string;
  is_dir : bool;
  is_symlink : bool;
  st_size : option Z;
  can_open : bool
}.

(** [path.name] *)
Definition name (p : Path) : string := last (parts p) "".

(** The name from its last dot on, when there is one. *)
Fixpoint from_last_dot (s : string) : option string :=
  match s with
  | EmptyString => None
  | String c s' =>
      match from_last_dot s' with
      | Some t => Some t
      | None => if Ascii.eqb c "." then Some s else None
      end
  end.

(** [PurePath.suffix] of a name: [i = name.rfind('.')], and [name[i:]]
    when [0 < i < len(name) - 1]. *)
Definition suffix_of (nm : string) : string :=
  match nm with
  | EmptyString => ""
  | String _ rest =>
      match from_last_dot rest with
      | Some t => if (1 <? String.length t)%nat then t else ""
      | None => ""
      end
  end.

(** [path.suffix] *)
Definition suffix (p : Path) : string := suffix_of (name p).

(** [path.stem] *)
Definition stem (p : Path) : string :=
  PyStr.take (String.length (name p) - String.length (suffix p)) (name p).

Fixpoint strip_prefix (root l : list string) : option (list string) :=
  match root, l with
  | [], _ => Some l
  | r :: root', x :: l' => if String.eqb r x then strip_prefix root' l' else None
  | _ :: _, [] => None
  end.

(** [path.relative_to(root)]: the components below [root], or [None]
    for [ValueError]. *)
Definition relative_to (p : Path) (root : list string)
    : option (list string) :=
  strip_prefix root (parts p).

(** [str(p)] for a relative path *)
Definition str_relative (l : list string) : string :=
  match l with
  | [] => "."
  | _ => PyStr.join "/" l
  end.

(** [str(p)] for an absolute path *)
Definition str_absolute (p : Path) : string :=
  ("/" ++ PyStr.join "/" (parts p))%string.

(** ** config.py: file filtering *)

Definition SUPPORTED_EXTENSIONS : list (string * string) :=
  [(".py", "python"); (".js", "javascript"); (".ts", "typescript");
   (".tsx", "typescript"); (".jsx", "javascript"); (".java", "java");
   (".cs", "csharp"); (".cpp", "cpp"); (".cc", "cpp"); (".c", "c");
   (".h", "c"); (".hpp", "cpp"); (".go", "go"); (".rs", "rust");
   (".rb", "ruby"); (".php", "php"); (".swift", "swift");
   (".kt", "kotlin"); (".scala", "scala"); (".r", "r");
   (".m", "objective-c"); (".html", "html"); (".css", "css");
   (".scss", "scss"); (".sass", "sass"); (".vue", "vue"); (".sh", "shell");
   (".bash", "shell"); (".zsh", "shell"); (".fish", "shell");
   (".yaml", "txt"); (".yml", "txt"); (".toml", "txt"); (".json", "json");
   (".xml", "txt"); (".md", "markdown"); (".rst", "restructuredtext");
   (".txt", "text"); (".png", "image"); (".jpg", "image");
   (".jpeg", "image"); (".gif", "image"); (".svg", "image");
   (".webp", "image"); (".puml", "plantuml"); (".plantuml", "plantuml")].

Definition MAX_FILE_SIZE_MB : Z := 20.
Definition MAX_FILE_SIZE_BYTES : Z := MAX_FILE_SIZE_MB * 1024 * 1024.

Definition IGNORE_PATTERNS : list string :=
  [".git"; ".svn"; ".hg"; ".bzr"; "__pycache__"; "*.pyc"; "*.pyo"; "*.pyd";
   ".pytest_cache"; ".mypy_cache"; ".tox"; ".coverage"; "htmlcov";
   "*.egg-info"; ".eggs"; "venv"; "env"; ".env"; ".venv"; "pip-log.txt";
   "poetry.lock"; "Pipfile.lock"; "pdm.lock"; "node_modules";
   "bower_components"; "package-lock.json"; "yarn.lock"; "pnpm-lock.yaml";
   "bun.lockb"; ".next"; ".nuxt"; ".parcel-cache"; ".cache";
   "npm-debug.log*"; "yarn-debug.log*"; "yarn-error.log*"; "target";
   ".gradle"; ".mvn"; "*.class"; "*.jar"; "*.war"; "*.ear"; "bin"; "obj";
   "packages"; "packages.lock.json"; ".vs"; "*.suo"; "*.user"; "vendor";
   "go.sum"; "go.work.sum"; "Cargo.lock"; ".bundle"; "vendor/bundle";
   "Gemfile.lock"; "vendor"; "composer.lock"; "composer.phar";
   "Package.resolved"; "pubspec.lock"; "mix.lock"; "dist"; "build"; "out";
   "release"; "Debug"; "Release"; "coverage"; ".nyc_output"; "logs";
   "*.log"; "tmp"; "temp"; "*.tmp"; "*.temp"; ".vscode"; ".idea"; "*.iml";
   ".sublime-workspace"; ".sublime-project"; "*.swp"; "*.swo"; "*~";
   ".project"; ".classpath"; ".settings"; ".DS_Store"; "Thumbs.db";
   "desktop.ini"].

(** ** file_filter.FileFilter *)

(** What the filesystem holds under a repository root: the lines of
    [.gitignore] when the file exists, and the paths that
    [repo_path.rglob('*')] yields, in its order. *)
Record Tree : Type := {
  gitignore : option (list string);
  rglob : list Path
}.

Record FileFilter : Type := {
  repo_path : list string;
  extensions : list (string * string);
  max_size_bytes : Z;
  ignore_patterns : list string
}.

(** One line of [.gitignore] in [_load_gitignore] *)
Definition load_gitignore_line (patterns : list string) (line : string)
    : list string :=
  let line := PyStr.strip line in
  (* Skip comments and empty lines *)
  if String.eqb line "" || PyStr.startswith "#" line then patterns
  else
    (* Remove leading slash *)
    let line := if PyStr.startswith "/" line then PyStr.drop 1 line
                else line in
    patterns ++ [line].

Definition _load_gitignore (tree : Tree) (patterns : list string)
    : list string :=
  match gitignore tree with
  | Some lines => fold_left load_gitignore_line lines patterns
  | None => patterns
  end.

(** [FileFilter.__init__]; an absent or empty [ignore_patterns] gives the
    default patterns. *)
Definition FileFilter_init (tree : Tree) (repo_path : list string)
    (extensions : list (string * string)) (max_size_bytes : Z)
    (ignore_patterns : option (list string)) : FileFilter :=
  let patterns :=
    match ignore_patterns with
    | None | Some [] => IGNORE_PATTERNS
    | Some l => l
    end in
  {| repo_path := repo_path;
     extensions := extensions;
     max_size_bytes := max_size_bytes;
     ignore_patterns := _load_gitignore tree patterns |}.

(** [FileFilter(repo_path)] with the default arguments *)
Definition FileFilter_default (tree : Tree) (repo_path : list string)
    : FileFilter :=
  FileFilter_init tree repo_path SUPPORTED_EXTENSIONS MAX_FILE_SIZE_BYTES
    None.

Definition pattern_ignores (path_str : string) (path_parts : list string)
    (pattern : string) : bool :=
  (* Match against full path *)
  Fnmatch.fnmatch path_str pattern
  || Fnmatch.fnmatch path_str ("**/" ++ pattern)
  (* Match against directory names *)
  || existsb (fun part => Fnmatch.fnmatch part pattern) path_parts.

Definition _is_ignored (self : FileFilter) (path : Path) : bool :=
  match relative_to path (repo_path self) with
  | None => true   (* Path is outside repo *)
  | Some rel_path =>
      let path_str := str_relative rel_path in
      let path_parts := PyStr.split "/" path_str in
      existsb (pattern_ignores path_str path_parts) (ignore_patterns self)
  end.

(** [key in d] for a dict *)
Definition dict_has {V} (k : string) (d : list (string * V)) : bool :=
  existsb (fun kv => String.eqb (fst kv) k) d.

(** [d.get(key, default)] *)
Fixpoint dict_get {V} (k : string) (d : list (string * V)) (default : V)
    : V :=
  match d with
  | [] => default
  | (k', v) :: d' => if String.eqb k' k then v else dict_get k d' default
  end.

Definition _is_supported_file (self : FileFilter) (path : Path) : bool :=
  dict_has (suffix path) (extensions self).

Definition _is_size_ok (self : FileFilter) (path : Path) : bool :=
  match st_size path with
  | None => false   (* Broken symlink or file not accessible *)
  | Some size =>
      (* Skip symlinks entirely *)
      if is_symlink path then false
      else size <=? max_size_bytes self
  end.

(** The local variables of [filter_files] *)
Record FilterState : Type := {
  valid_files : list Path;
  skipped_ignored : Z;
  skipped_extension : Z;
  skipped_size : Z
}.

Definition filter_start : FilterState :=
  {| valid_files := []; skipped_ignored := 0; skipped_extension := 0;
     skipped_size := 0 |}.

(** One round of the [for path in self.repo_path.rglob('*')] loop *)
Definition filter_step (self : FileFilter) (st : FilterState)
    (path : Path) : FilterState :=
  (* Skip directories *)
  if is_dir path then st
  (* Skip symlinks (broken or valid) *)
  else if is_symlink path then
    {| valid_files := valid_files st;
       skipped_ignored := skipped_ignored st + 1;
       skipped_extension := skipped_extension st;
       skipped_size := skipped_size st |}
  (* Skip ignored *)
  else if _is_ignored self path then
    {| valid_files := valid_files st;
       skipped_ignored := skipped_ignored st + 1;
       skipped_extension := skipped_extension st;
       skipped_size := skipped_size st |}
  (* Check extension *)
  else if negb (_is_supported_file self path) then
    {| valid_files := valid_files st;
       skipped_ignored := skipped_ignored st;
       skipped_extension := skipped_extension st + 1;
       skipped_size := skipped_size st |}
  (* Check size *)
  else if negb (_is_size_ok self path) then
    {| valid_files := valid_files st;
       skipped_ignored := skipped_ignored st;
       skipped_extension := skipped_extension st;
       skipped_size := skipped_size st + 1 |}
  else
    {| valid_files := valid_files st ++ [path];
       skipped_ignored := skipped_ignored st;
       skipped_extension := skipped_extension st;
       skipped_size := skipped_size st |}.

(** The loop of [filter_files], with its counters *)
Definition filter_loop (self : FileFilter) (tree : Tree) : FilterState :=
  fold_left (filter_step self) (rglob tree) filter_start.

Definition filter_files (self : FileFilter) (tree : Tree) (verbose : bool)
    : list Path :=
  valid_files (filter_loop self tree).

Definition get_file_language (self : FileFilter) (path : Path) : string :=
  dict_get (suffix path) (extensions self) "unknown".

Definition get_relative_path (self : FileFilter) (file_path : Path)
    : string :=
  match relative_to file_path (repo_path self) with
  | Some rel => str_relative rel
  | None => str_absolute file_path
  end.

(** ** Operations on Python values *)

Module Py.

(** [bool(v)] *)
Definition truthy (v : pyval) : bool :=
  match v with
  | PNone => false
  | PBool b => b
  | PInt n => negb (n =? 0)
  | PStr s => negb (String.eqb s "")
  | PList l => match l with [] => false | _ => true end
  | PDict d => match d with [] => false | _ => true end
  end.

Fixpoint lookup (k : string) (d : list (string * pyval)) : option pyval :=
  match d with
  | [] => None
  | (k', v) :: d' => if String.eqb k' k then Some v else lookup k d'
  end.

(** [v[key]] for a string key *)
Definition subscript (v : pyval) (key : string) : result pyval :=
  match v with
  | PDict d =>
      match lookup key d with
      | Some x => Ok x
      | None => Raise (KeyError key)
      end
  | PStr _ => Raise (TypeError "string indices must be integers")
  | PList _ => Raise (TypeError "list indices must be integers or slices")
  | _ => Raise (TypeError "object is not subscriptable")
  end.

(** [v.get(key, default)]; a value that is not a dict has no [get]
    ([AttributeError], here [TypeError]). *)
Definition get (v : pyval) (key : string) (default : pyval)
    : result pyval :=
  match v with
  | PDict d =>
      match lookup key d with
      | Some x => Ok x
      | None => Ok default
      end
  | _ => Raise (TypeError "object has no attribute 'get'")
  end.

(** [v[:n]] *)
Definition slice_to (n : nat) (v : pyval) : result pyval :=
  match v with
  | PStr s => Ok (PStr (PyStr.take n s))
  | PList l => Ok (PList (firstn n l))
  | _ => Raise (TypeError "object is not subscriptable")
  end.

(** [len(v)] *)
Definition len (v : pyval) : result Z :=
  match v with
  | PStr s => Ok (PyStr.len s)
  | PList l => Ok (Z.of_nat (List.length l))
  | PDict d => Ok (Z.of_nat (List.length d))
  | _ => Raise (TypeError "object has no len()")
  end.

(** The elements that [for x in v] runs over *)
Definition iterate (v : pyval) : result (list pyval) :=
  match v with
  | PList l => Ok l
  | PDict d => Ok (map (fun kv => PStr (fst kv)) d)
  | PStr s =>
      Ok (map (fun c => PStr (String c EmptyString))
              (list_ascii_of_string s))
  | _ => Raise (TypeError "object is not iterable")
  end.

(** [v == s] for a string [s] *)
Definition eq_str (v : pyval) (s : string) : bool :=
  match v with
  | PStr s' => String.eqb s' s
  | _ => false
  end.

(** Whether [v] can be a dict key *)
Definition hashable (v : pyval) : bool :=
  match v with
  | PList _ | PDict _ => false
  | _ => true
  end.

(** [k1 == k2] for hashable values ([True == 1]) *)
Definition key_eqb (k1 k2 : pyval) : bool :=
  match k1, k2 with
  | PNone, PNone => true
  | PStr a, PStr b => String.eqb a b
  | PInt a, PInt b => a =? b
  | PBool a, PBool b => Bool.eqb a b
  | PBool a, PInt b | PInt b, PBool a => (if a then 1 else 0) =? b
  | _, _ => false
  end.

(** [c in s] for a character [c] *)
Fixpoint has_char (c : ascii) (s : string) : bool :=
  match s with
  | EmptyString => false
  | String x s' => Ascii.eqb x c || has_char c s'
  end.

(** The double quote and the backslash *)
Definition double_quote : ascii := ascii_of_N 34.
Definition backslash : ascii := ascii_of_N 92.

(** [str.isprintable] on one character (code points below 256) *)
Definition isprintable (c : ascii) : bool :=
  let n := PyStr.ord c in
  ((32 <=? n) && (n <=? 126)) || ((161 <=? n) && (n <=? 172))
  || ((174 <=? n) && (n <=? 255)).

(** One character of [repr(s)] between the quotes [quote] *)
Definition repr_char (quote c : ascii) : string :=
  let n := PyStr.ord c in
  if Ascii.eqb c quote || Ascii.eqb c backslash then
    String backslash (String c EmptyString)
  else if n =? 9 then String backslash "t"
  else if n =? 10 then String backslash "n"
  else if n =? 13 then String backslash "r"
  else if isprintable c then String c EmptyString
  else String backslash (String "x" (UUID.hex 2 n)).

Fixpoint repr_chars (quote : ascii) (s : string) : string :=
  match s with
  | EmptyString => String quote EmptyString
  | String c s' => (repr_char quote c ++ repr_chars quote s')%string
  end.

(** [repr(s)] for a string: single quotes, unless the string holds a
    single quote and no double quote *)
Definition repr_str (s : string) : string :=
  let quote :=
    if has_char "'" s && negb (has_char double_quote s) then double_quote
    else "'"%char in
  String quote (repr_chars quote s).

(** [repr(v)] *)
Fixpoint repr (v : pyval) : string :=
  match v with
  | PNone => "None"
  | PBool true => "True"
  | PBool false => "False"
  | PInt n => PyStr.str_of_int n
  | PStr s => repr_str s
  | PList l => ("[" ++ PyStr.join ", " (map repr l) ++ "]")%string
  | PDict d =>
      ("{" ++ PyStr.join ", "
                (map (fun kv : string * pyval =>
                        let (k, x) := kv in
                        (repr_str k ++ ": " ++ repr x)%string) d)
       ++ "}")%string
  end.

(** [f"{v}"]: a string as it is, any other value by its [repr] *)
Definition format (v : pyval) : string :=
  match v with
  | PStr s => s
  | _ => repr v
  end.

(** [response.json()] *)
Definition response_json (response : Response) : result pyval :=
  match json response with
  | Some v => Ok v
  | None => Raise (ValueError "Expecting value")
  end.

(** [json.dumps(v)]: the text is represented by the value it encodes. *)
Definition json_dumps (v : pyval) : pyval := v.

End Py.

(** ** r2r_client.R2RClient: collections, documents, graph, monitoring *)

Section Client.

Variable server : Server.

(** [response.json()['results']] *)
Definition results_of (response : Response) : M World pyval :=
  lift (match Py.response_json response with
        | Ok v => Py.subscript v "results"
        | Raise e => Raise e
        end).

Definition list_collections (self : R2RClient) : M World pyval :=
  response <- _retry_request server self "GET"
                (api_url self ++ "/v3/collections")
                [("headers", PDict (headers self))] ;;
  results_of response.

Definition get_collection (self : R2RClient) (name : string)
    : M World pyval :=
  collections <- list_collections self ;;
  colls <- lift (Py.iterate collections) ;;
  for_returning colls
    (fun coll =>
       n <- lift (Py.subscript coll "name") ;;
       if Py.eq_str n name then ret (Some coll) else ret None)
    (ret PNone).

(** The value [v['id'][:8]] that the log lines print *)
Definition id_prefix (v : pyval) : M World pyval :=
  id <- lift (Py.subscript v "id") ;;
  lift (Py.slice_to 8 id).

Definition create_collection (self : R2RClient) (name description : string)
    : M World pyval :=
  existing <- get_collection self name ;;
  if Py.truthy existing then
    id_prefix existing ;;;
    ret existing
  else
    response <- _retry_request server self "POST"
                  (api_url self ++ "/v3/collections")
                  [("headers", PDict (headers self));
                   ("json", PDict [("name", PStr name);
                                   ("description", PStr description)])] ;;
    result <- results_of response ;;
    id_prefix result ;;;
    ret result.

Definition unsupported_extensions : list string :=
  [".yaml"; ".yml"; ".toml"; ".xml"; ".sh"; ".bash"; ".zsh"; ".fish"].

(** [open(file_path, 'rb')] *)
Definition open_rb (file_path : Path) : M World unit :=
  if can_open file_path then ret tt
  else raise (OSError "cannot open file").

Definition upload_document (self : R2RClient) (file_path : Path)
    (metadata : pyval) (collection_id document_id : pyval)
    : M World pyval :=
  open_rb file_path ;;;
  let original_name := name file_path in
  (* Map unsupported extensions to .txt *)
  let upload_name :=
    if existsb (String.eqb (suffix file_path)) unsupported_extensions
    then (stem file_path ++ ".txt")%string
    else original_name in
  let files := PDict [("file", PStr upload_name)] in
  let data := [("metadata", Py.json_dumps metadata)] in
  let data :=
    if Py.truthy collection_id
    then data ++ [("collection_ids", Py.json_dumps (PList [collection_id]))]
    else data in
  let data :=
    if Py.truthy document_id then data ++ [("id", document_id)]
    else data in
  response <- _retry_request server self "POST"
                (api_url self ++ "/v3/documents")
                [("headers", PDict (headers self));
                 ("files", files);
                 ("data", PDict data)] ;;
  results_of response.

Definition get_document (self : R2RClient) (document_id : string)
    : M World pyval :=
  response <- _retry_request server self "GET"
                (api_url self ++ "/v3/documents/" ++ document_id)
                [("headers", PDict (headers self))] ;;
  results_of response.

Definition pull_knowledge_graph (self : R2RClient) (collection_id : string)
    (force : bool) : M World pyval :=
  response <- _retry_request server self "POST"
                (api_url self ++ "/v3/graphs/" ++ collection_id ++ "/pull")
                [("headers", PDict (headers self));
                 ("json", PBool force)] ;;
  result <- results_of response ;;
  lift (Py.get result "task_id" (PStr "N/A")) ;;;
  ret result.

Definition get_graph_entities (self : R2RClient) (collection_id : string)
    (limit : Z) : M World pyval :=
  response <- _retry_request server self "GET"
                (api_url self ++ "/v3/graphs/" ++ collection_id
                 ++ "/entities")
                [("headers", PDict (headers self));
                 ("params", PDict [("limit", PInt limit)])] ;;
  results_of response.

Definition get_graph_relationships (self : R2RClient)
    (collection_id : string) (limit : Z) : M World pyval :=
  response <- _retry_request server self "GET"
                (api_url self ++ "/v3/graphs/" ++ collection_id
                 ++ "/relationships")
                [("headers", PDict (headers self));
                 ("params", PDict [("limit", PInt limit)])] ;;
  results_of response.

(** The [statuses] dict of [wait_for_ingestion], newest key last *)
Definition Statuses : Type := list (pyval * pyval).

Fixpoint statuses_get (k : pyval) (d : Statuses) : option pyval :=
  match d with
  | [] => None
  | (k', v) :: d' => if Py.key_eqb k' k then Some v else statuses_get k d'
  end.

Fixpoint statuses_set (k v : pyval) (d : Statuses) : Statuses :=
  match d with
  | [] => [(k, v)]
  | (k', v') :: d' =>
      if Py.key_eqb k' k then (k', v) :: d'
      else (k', v') :: statuses_set k v d'
  end.

(** [status in ['success', 'failed']] *)
Definition is_terminal (status : pyval) : bool :=
  Py.eq_str status "success" || Py.eq_str status "failed".

(** One round of [for doc_id in document_ids] in [wait_for_ingestion];
    the state is [(statuses, all_done)]. *)
Definition poll_document (self : R2RClient) (st : Statuses * bool)
    (doc_id : pyval) : M World (Statuses * bool) :=
  let '(statuses, all_done) := st in
  if negb (Py.hashable doc_id) then raise (TypeError "unhashable type")
  else if match statuses_get doc_id statuses with
          | Some status => is_terminal status
          | None => false
          end
  then ret st
  else
    try_except
      (doc <- get_document self (Py.format doc_id) ;;
       status <- lift (Py.get doc "ingestion_status" (PStr "pending")) ;;
       ret (statuses_set doc_id status statuses,
            if is_terminal status then all_done else false))
      any_Exception
      (fun e =>
         lift (Py.slice_to 8 doc_id) ;;;
         ret (statuses, false)).

(** [int(q)]: rounds towards zero *)
Definition Qint (q : Q) : Z :=
  if Qle_bool 0 q then Qfloor q else Qceiling q.

(** [a < b] on rationals *)
Definition Qlt_bool (a b : Q) : bool := negb (Qle_bool b a).

(** The [while time.time() - start_time < timeout] loop; [fuel] bounds
    the number of rounds. *)
Fixpoint wait_rounds (fuel : nat) (self : R2RClient)
    (document_ids : list pyval) (timeout poll_interval : Z)
    (start_time : Q) (statuses : Statuses) : M World Statuses :=
  t <- time_time ;;
  if Qlt_bool (t - start_time) (inject_Z timeout) then
    match fuel with
    | O => raise NonTermination
    | S fuel' =>
        st <- fold_m (poll_document self) document_ids (statuses, true) ;;
        let '(statuses, all_done) := st in
        if all_done then ret statuses
        else
          time_sleep (inject_Z poll_interval) ;;;
          wait_rounds fuel' self document_ids timeout poll_interval
            start_time statuses
    end
  else ret statuses.

(** Every round that does not return sleeps [poll_interval] seconds, so
    [timeout / poll_interval + 1] rounds reach the timeout. *)
Definition wait_for_ingestion (self : R2RClient)
    (document_ids : list pyval) (timeout poll_interval : Z)
    : M World Statuses :=
  start_time <- time_time ;;
  wait_rounds (S (Z.to_nat (timeout / poll_interval))) self document_ids
    timeout poll_interval start_time [].

End Client.

(** ** git_manager.GitManager, as the loader uses it *)

(** A local clone: its path and what the filesystem holds under it. *)
Record Checkout : Type := {
  checkout_path : list string;
  checkout_tree : Tree
}.

Record GitManager : Type := {
  clone : string -> option string -> M World Checkout;
  clone_or_update : string -> option string -> M World (Checkout * bool);
  get_commit_info : Checkout -> M World pyval
}.

(** ** repo_loader.RepositoryLoader *)

Record RepositoryLoader : Type := {
  client : R2RClient;
  git : GitManager
}.

(** The [stats] dict of [load_repository] *)
Record Stats : Type := {
  stats_repo_url : string;
  files_found : Z;
  files_uploaded : Z;
  files_failed : Z;
  stats_collection_id : pyval;
  kg_entities : Z;
  kg_relationships : Z;
  duration_seconds : Z
}.

(** The state of a run: the mutable locals of [load_repository] and the
    world. *)
Record Run : Type := {
  stats : Stats;
  document_ids : list pyval;
  world : World
}.

Definition in_world {A} (c : M World A) : M Run A :=
  fun r =>
    let '(x, w') := c (world r) in
    (x, {| stats := stats r; document_ids := document_ids r;
           world := w' |}).

Definition update_stats (f : Stats -> Stats) : M Run unit :=
  fun r =>
    (Ok tt, {| stats := f (stats r); document_ids := document_ids r;
               world := world r |}).

Definition get_stats : M Run Stats := fun r => (Ok (stats r), r).

Definition get_document_ids : M Run (list pyval) :=
  fun r => (Ok (document_ids r), r).

(** [document_ids.append(v)] *)
Definition append_document_id (v : pyval) : M Run unit :=
  fun r =>
    (Ok tt, {| stats := stats r; document_ids := document_ids r ++ [v];
               world := world r |}).

(** Runs [c] with fresh locals. *)
Definition with_locals {A} (init : Stats) (c : M Run A) : M World A :=
  fun w =>
    let '(x, r) := c {| stats := init; document_ids := []; world := w |} in
    (x, world r).

Definition set_files_found (n : Z) (st : Stats) : Stats :=
  {| stats_repo_url := stats_repo_url st; files_found := n;
     files_uploaded := files_uploaded st; files_failed := files_failed st;
     stats_collection_id := stats_collection_id st;
     kg_entities := kg_entities st;
     kg_relationships := kg_relationships st;
     duration_seconds := duration_seconds st |}.

Definition incr_files_uploaded (st : Stats) : Stats :=
  {| stats_repo_url := stats_repo_url st; files_found := files_found st;
     files_uploaded := files_uploaded st + 1;
     files_failed := files_failed st;
     stats_collection_id := stats_collection_id st;
     kg_entities := kg_entities st;
     kg_relationships := kg_relationships st;
     duration_seconds := duration_seconds st |}.

Definition incr_files_failed (st : Stats) : Stats :=
  {| stats_repo_url := stats_repo_url st; files_found := files_found st;
     files_uploaded := files_uploaded st;
     files_failed := files_failed st + 1;
     stats_collection_id := stats_collection_id st;
     kg_entities := kg_entities st;
     kg_relationships := kg_relationships st;
     duration_seconds := duration_seconds st |}.

Definition set_collection_id (v : pyval) (st : Stats) : Stats :=
  {| stats_repo_url := stats_repo_url st; files_found := files_found st;
     files_uploaded := files_uploaded st; files_failed := files_failed st;
     stats_collection_id := v;
     kg_entities := kg_entities st;
     kg_relationships := kg_relationships st;
     duration_seconds := duration_seconds st |}.

Definition set_kg (entities relationships : Z) (st : Stats) : Stats :=
  {| stats_repo_url := stats_repo_url st; files_found := files_found st;
     files_uploaded := files_uploaded st; files_failed := files_failed st;
     stats_collection_id := stats_collection_id st;
     kg_entities := entities;
     kg_relationships := relationships;
     duration_seconds := duration_seconds st |}.

Definition set_kg_entities (n : Z) (st : Stats) : Stats :=
  set_kg n (kg_relationships st) st.

Definition set_kg_relationships (n : Z) (st : Stats) : Stats :=
  set_kg (kg_entities st) n st.

Definition set_duration_seconds (n : Z) (st : Stats) : Stats :=
  {| stats_repo_url := stats_repo_url st; files_found := files_found st;
     files_uploaded := files_uploaded st; files_failed := files_failed st;
     stats_collection_id := stats_collection_id st;
     kg_entities := kg_entities st;
     kg_relationships := kg_relationships st;
     duration_seconds := n |}.

(** STEP 1 of [load_repository]: clone or update the repository *)
Definition clone_repository (git : GitManager) (repo_url : string)
    (branch : option string) (update_if_exists : bool) : M World Checkout :=
  if update_if_exists then
    r <- clone_or_update git repo_url branch ;;
    ret (fst r)
  else clone git repo_url branch.

(** [if not collection_name: collection_name = f"repo-{repo_name}"] *)
Definition default_collection_name (collection_name : option string)
    (repo_name : string) : string :=
  match collection_name with
  | None | Some EmptyString => ("repo-" ++ repo_name)%string
  | Some n => n
  end.

Section Loader.

Variable server : Server.

(** [MetadataExtractor(repo_path).build_metadata(file_path, language,
    repo_url, repo_name, commit_info)]: the metadata dict, or the
    exception it raises.  It reads the file and has no other effect. *)
Variable build_metadata :
  list string -> Path -> string -> string -> string -> pyval -> result pyval.

(** The body of the [try] in the upload loop, for one file. *)
Definition upload_file (self : RepositoryLoader) (file_filter : FileFilter)
    (repo_url repo_name : string) (commit_info collection_id : pyval)
    (file_path : Path) : M Run unit :=
  (* Get relative path for ID generation and logging *)
  let rel_path := get_relative_path file_filter file_path in
  (* Generate unique document ID based on repo URL + file path *)
  let doc_id := generate_document_id repo_url rel_path in
  (* Extract metadata *)
  let language := get_file_language file_filter file_path in
  metadata <- lift (build_metadata (repo_path file_filter) file_path
                      language repo_url repo_name commit_info) ;;
  (* Upload *)
  result <- in_world (upload_document server (client self) file_path
                        metadata collection_id (PStr doc_id)) ;;
  document_id <- lift (Py.subscript result "document_id") ;;
  append_document_id document_id ;;;
  update_stats incr_files_uploaded ;;;
  (* Progress *)
  lift (Py.slice_to 8 document_id) ;;;
  (* Rate limiting *)
  in_world (time_sleep (UPLOAD_DELAY_MS # 1000)).

(** One round of the upload loop: the [try] and its [except Exception]. *)
Definition upload_iteration (self : RepositoryLoader)
    (file_filter : FileFilter) (repo_url repo_name : string)
    (commit_info collection_id : pyval) (file_path : Path) : M Run unit :=
  try_except
    (upload_file self file_filter repo_url repo_name commit_info
       collection_id file_path)
    any_Exception
    (fun e => update_stats incr_files_failed).

(** STEP 6 of [load_repository], the body of its [try] *)
Definition extract_knowledge_graph (self : RepositoryLoader)
    (collection_id : pyval) : M Run unit :=
  in_world (pull_knowledge_graph server (client self)
              (Py.format collection_id) false) ;;;
  in_world (time_sleep 30) ;;;
  entities <- in_world (get_graph_entities server (client self)
                          (Py.format collection_id) 1000) ;;
  relationships <- in_world (get_graph_relationships server (client self)
                               (Py.format collection_id) 1000) ;;
  n_entities <- lift (Py.len entities) ;;
  update_stats (set_kg_entities n_entities) ;;;
  n_relationships <- lift (Py.len relationships) ;;
  update_stats (set_kg_relationships n_relationships).

Definition load_repository (self : RepositoryLoader) (repo_url : string)
    (collection_name branch : option string)
    (update_if_exists extract_kg : bool) (quality_mode : string)
    (verbose : bool) : M World Stats :=
  start_time <- time_time ;;
  with_locals
    {| stats_repo_url := repo_url; files_found := 0; files_uploaded := 0;
       files_failed := 0; stats_collection_id := PNone; kg_entities := 0;
       kg_relationships := 0; duration_seconds := 0 |}
    ((* STEP 1: Clone/Update Repository *)
     checkout <- in_world
       (clone_repository (git self) repo_url branch update_if_exists) ;;
     let repo_name := last (checkout_path checkout) "" in
     commit_info <- in_world (get_commit_info (git self) checkout) ;;
     lift (Py.subscript commit_info "hash_short") ;;;
     lift (Py.subscript commit_info "message") ;;;
     (* STEP 2: Filter Code Files *)
     let file_filter :=
       FileFilter_default (checkout_tree checkout)
         (checkout_path checkout) in
     let files := filter_files file_filter (checkout_tree checkout)
                    verbose in
     update_stats (set_files_found (Z.of_nat (List.length files))) ;;;
     match files with
     | [] => get_stats
     | _ :: _ =>
         (* STEP 3: Create/Get Collection *)
         let collection_name :=
           default_collection_name collection_name repo_name in
         collection <- in_world
           (create_collection server (client self) collection_name
              ("Code repository: " ++ repo_url)) ;;
         collection_id <- lift (Py.subscript collection "id") ;;
         update_stats (set_collection_id collection_id) ;;;
         lift (Py.slice_to 8 collection_id) ;;;
         (* STEP 4: Upload Files *)
         for_each files
           (upload_iteration self file_filter repo_url repo_name
              commit_info collection_id) ;;;
         (* STEP 5: Wait for Ingestion *)
         ids <- get_document_ids ;;
         in_world (wait_for_ingestion server (client self) ids 300 5) ;;;
         (* STEP 6: Knowledge Graph Extraction (Optional) *)
         (if extract_kg then
            try_except (extract_knowledge_graph self collection_id)
              any_Exception (fun e => ret tt)
          else ret tt) ;;;
         (* SUMMARY *)
         now <- in_world time_time ;;
         update_stats
           (set_duration_seconds (Qint (now - start_time))) ;;;
         get_stats
     end).

End Loader.

(** ** Vocabulary of the statements *)

(** The message of the client error that [_retry_request] raises for a
    4xx response. *)
Definition client_error_message (status : Z) (body : string) : string :=
  ("HTTP " ++ PyStr.str_of_int status ++ ": " ++ PyStr.take 200 body)%string.

(** An outcome after which [_retry_request] goes on with the next attempt:
    neither a success code nor a 4xx other than 429. *)
Definition is_retryable (o : http_outcome) : bool :=
  match o with
  | Fails _ => true
  | Responds r =>
      negb (in_list (status_code r) [200; 201; 202])
      && ((status_code r =? 429)
          || negb ((400 <=? status_code r) && (status_code r <? 500)))
  end.

(** The durations of the sleeps of a trace, in order *)
Fixpoint sleeps (evs : list Event) : list Q :=
  match evs with
  | [] => []
  | EvSleep s :: evs' => s :: sleeps evs'
  | EvRequest _ :: evs' => sleeps evs'
  end.

(** The upload of a file raises, whatever the metadata and the state of
    the world. *)
Definition upload_raises (server : Server) (self : R2RClient)
    (collection_id : pyval) (document_id : Path -> pyval) (f : Path)
    : Prop :=
  forall (metadata : pyval) (w : World),
    exists (e : exn) (w' : World),
      upload_document server self f metadata collection_id (document_id f) w
      = (Raise e, w').

(** The upload of a file returns a result that holds a document
    identifier, a string. *)
Definition upload_succeeds (server : Server) (self : R2RClient)
    (collection_id : pyval) (document_id : Path -> pyval) (f : Path)
    : Prop :=
  forall (metadata : pyval) (w : World),
    exists (result : pyval) (id : string) (w' : World),
      upload_document server self f metadata collection_id (document_id f) w
      = (Ok result, w')
      /\ Py.subscript result "document_id" = Ok (PStr id).

(** Whether a request is the POST that [upload_document] sends. *)
Definition is_upload_request (self : R2RClient) (req : Request) : bool :=
  String.eqb (method req) "POST"
  && String.eqb (url req) (api_url self ++ "/v3/documents").

(** For every upload request of a trace but the first, the seconds
    slept since the upload request before it. *)
Fixpoint upload_gaps (self : R2RClient) (since_last : option Q)
    (evs : list Event) : list Q :=
  match evs with
  | [] => []
  | EvSleep s :: evs' =>
      upload_gaps self (option_map (fun a => Qplus a s) since_last) evs'
  | EvRequest req :: evs' =>
      if is_upload_request self req then
        match since_last with
        | Some a => a :: upload_gaps self (Some 0%Q) evs'
        | None => upload_gaps self (Some 0%Q) evs'
        end
      else upload_gaps self since_last evs'
  end.

(** ** A test double for the remote store and the version control

    A store that knows one collection, rejects the upload of the listed
    document identifiers with 404, accepts every other upload and reports
    every document as ingested; a clone that holds a given tree. *)

Module Demo.

Definition self : R2RClient :=
  {| api_url := "http://localhost:7272"; token := None; headers := [] |}.

Definition repo_url : string := "https://github.com/user/demo".

Definition json_ok (v : pyval) : http_outcome :=
  Responds {| status_code := 200; text := "";
              json := Some (PDict [("results", v)]) |}.

(** The [id] field of the form data of an upload request *)
Definition upload_id (req : Request) : pyval :=
  match Py.lookup "data" (kwargs req) with
  | Some (PDict d) =>
      match Py.lookup "id" d with
      | Some v => v
      | None => PNone
      end
  | _ => PNone
  end.

Definition store (rejected : list string) : Server :=
  fun _ req =>
    if String.eqb (url req) (api_url self ++ "/v3/collections") then
      json_ok (PList [PDict [("name", PStr "repo-demo");
                             ("id", PStr "c0ffee00-0000-4000-8000-000000000000")]])
    else if is_upload_request self req then
      if existsb (Py.eq_str (upload_id req)) rejected then
        Responds {| status_code := 404; text := "rejected"; json := None |}
      else json_ok (PDict [("document_id", upload_id req)])
    else json_ok (PDict [("ingestion_status", PStr "success")]).

Definition file (name : string) : Path :=
  {| parts := ["repos"; "demo"; name]; is_dir := false;
     is_symlink := false; st_size := Some 100; can_open := true |}.

Definition checkout (names : list string) : Checkout :=
  {| checkout_path := ["repos"; "demo"];
     checkout_tree := {| gitignore := None; rglob := map file names |} |}.

Definition commit_info : pyval :=
  PDict [("hash", PStr "0123456789abcdef0123456789abcdef01234567");
         ("hash_short", PStr "01234567");
         ("message", PStr "initial");
         ("author_name", PStr "dev");
         ("date", PStr "2024-01-01")].

Definition git_manager (names : list string) : GitManager :=
  {| clone := fun _ _ => ret (checkout names);
     clone_or_update := fun _ _ => ret (checkout names, false);
     get_commit_info := fun _ => ret commit_info |}.

Definition build_metadata (repo_path : list string) (file_path : Path)
    (language repo_url repo_name : string) (commit_info : pyval)
    : result pyval :=
  Ok (PDict [("source", PStr "codebase"); ("language", PStr language);
             ("repo_name", PStr repo_name); ("repo_url", PStr repo_url)]).

Definition loader (names : list string) : RepositoryLoader :=
  {| client := self; git := git_manager names |}.

(** [load_repository(repo_url)] against the store *)
Definition run (names : list string) (rejected : list string)
    : result Stats * World :=
  load_repository (store rejected) build_metadata (loader names) repo_url
    None None false false "high" false initial_world.

End Demo.

(** What [filter_files] requires of a path it keeps. *)
Definition is_candidate (self : FileFilter) (p : Path) : Prop :=
  is_dir p = false
  /\ is_symlink p = false
  /\ _is_ignored self p = false
  /\ _is_supported_file self p = true
  /\ _is_size_ok self p = true.

(** [preserves I c]: whatever [c] returns or raises, the states before
    and after are related by [I], and [c] does not run into a loop bound
    of the model. *)
Definition preserves {S : Type} (I : S -> S -> Prop) {A : Type}
    (c : M S A) : Prop :=
  forall s x s', c s = (x, s') -> I s s' /\ x <> Raise NonTermination.

(** The clock never runs backwards. *)
Definition clock_le (w w' : World) : Prop := (now w <= now w')%Q.

Definition steady {A} (c : M World A) : Prop := preserves clock_le c.

Definition is_str (v : pyval) : Prop := exists s : string, v = PStr s.

(** The three counters of a run *)
Definition counts (r : Run) : Z * Z * Z :=
  (files_found (stats r), files_uploaded (stats r), files_failed (stats r)).

Definition same_counts (r r' : Run) : Prop := counts r' = counts r.

(** [build_metadata] returns a metadata dict for the file. *)
Definition metadata_built
    (build_metadata :
       list string -> Path -> string -> string -> string -> pyval ->
       result pyval)
    (file_filter : FileFilter) (repo_url repo_name : string)
    (commit_info : pyval) (f : Path) : Prop :=
  exists metadata : pyval,
    build_metadata (repo_path file_filter) f
      (get_file_language file_filter f) repo_url repo_name commit_info
    = Ok metadata.

Arguments generate_document_id : simpl never.

(** ** Further code of the same files *)

(** More of Python's [str] *)
Module PyText.

(** [c in s] for a one-character string [c] *)
Fixpoint contains (c : ascii) (s : string) : bool :=
  match s with
  | EmptyString => false
  | String x s' => Ascii.eqb x c || contains c s'
  end.

(** [s.replace(a, b)] for one-character strings [a] and [b] *)
Fixpoint replace_char (a b : ascii) (s : string) : string :=
  match s with
  | EmptyString => EmptyString
  | String x s' =>
      String (if Ascii.eqb x a then b else x) (replace_char a b s')
  end.

(** [s.lstrip(c)] for a one-character string [c] *)
Fixpoint lstrip_char (c : ascii) (s : string) : string :=
  match s with
  | EmptyString => EmptyString
  | String x s' => if Ascii.eqb x c then lstrip_char c s' else s
  end.

(** [s.strip(c)] for a one-character string [c] *)
Definition strip_char (c : ascii) (s : string) : string :=
  PyStr.reverse (lstrip_char c (PyStr.reverse (lstrip_char c s))).

(** [s.replace(old, '')] for a non-empty [old]: the occurrences of [old]
    are removed, leftmost first; [fuel] bounds the length of [s]. *)
Fixpoint remove_all (fuel : nat) (old s : string) : string :=
  match fuel with
  | O => s
  | S fuel' =>
      match s with
      | EmptyString => EmptyString
      | String x s' =>
          if PyStr.startswith old s
          then remove_all fuel' old (PyStr.drop (String.length old) s)
          else String x (remove_all fuel' old s')
      end
  end.

(** Insertion into a sorted list without duplicates; strings compare by
    code points. *)
Fixpoint insert_sorted (x : string) (l : list string) : list string :=
  match l with
  | [] => [x]
  | y :: l' =>
      match String.compare x y with
      | Lt => x :: l
      | Eq => l
      | Gt => y :: insert_sorted x l'
      end
  end.

(** [sorted(list(set(l)))] *)
Definition sorted_set (l : list string) : list string :=
  fold_right insert_sorted [] l.

End PyText.

(** *** file_filter.FileFilter.group_by_language *)

(** [groups[lang].append(f)], with [groups[lang] = []] first for a new
    key; a dict keeps its keys in insertion order. *)
Fixpoint groups_append (lang : string) (f : Path)
    (groups : list (string * list Path)) : list (string * list Path) :=
  match groups with
  | [] => [(lang, [f])]
  | (k, fs) :: rest =>
      if String.eqb k lang then (k, fs ++ [f]) :: rest
      else (k, fs) :: groups_append lang f rest
  end.

Definition group_by_language (self : FileFilter) (files : list Path)
    : list (string * list Path) :=
  fold_left
    (fun groups file_path =>
       groups_append (get_file_language self file_path) file_path groups)
    files [].

(** *** metadata_extractor.MetadataExtractor *)

(** [PurePath.stem] of a name *)
Definition stem_of (nm : string) : string :=
  PyStr.take (String.length nm - String.length (suffix_of nm)) nm.

(** The components of [path.with_suffix('')]; a path without a name
    raises [ValueError]. *)
Definition with_suffix_empty (l : list string) : result (list string) :=
  let nm := last l "" in
  if String.eqb nm "" then Raise (ValueError "path has an empty name")
  else Ok (removelast l ++ [stem_of nm]).

Definition extract_module_name (file_path : Path)
    (repo_path : list string) : result string :=
  let '(rel_path, absolute) :=
    match relative_to file_path repo_path with
    | Some rel => (rel, false)
    | None => (parts file_path, true)
    end in
  (* Remove extension *)
  match with_suffix_empty rel_path with
  | Raise e => Raise e
  | Ok module_path =>
      (* Convert to dot notation *)
      let module_name :=
        PyText.replace_char "/" "."
          (if absolute then ("/" ++ PyStr.join "/" module_path)%string
           else str_relative module_path) in
      (* Remove leading dots *)
      Ok (PyText.lstrip_char "." module_name)
  end.

(** The [stats] dict of [extract_file_stats] *)
Record FileStats : Type := {
  lines_total : Z;
  lines_code : Z;
  lines_comment : Z;
  lines_blank : Z
}.

(** One round of [for line in f] in [extract_file_stats] *)
Definition count_line (st : FileStats) (line : string) : FileStats :=
  let stripped := PyStr.strip line in
  if String.eqb stripped "" then
    {| lines_total := lines_total st + 1; lines_code := lines_code st;
       lines_comment := lines_comment st;
       lines_blank := lines_blank st + 1 |}
  else if PyStr.startswith "#" stripped || PyStr.startswith "//" stripped
  then
    {| lines_total := lines_total st + 1; lines_code := lines_code st;
       lines_comment := lines_comment st + 1;
       lines_blank := lines_blank st |}
  else
    {| lines_total := lines_total st + 1; lines_code := lines_code st + 1;
       lines_comment := lines_comment st;
       lines_blank := lines_blank st |}.

(** [extract_file_stats]; [content] is the lines of the file, [None]
    when [open] raises (the exception is caught and logged). *)
Definition extract_file_stats (content : option (list string))
    : FileStats :=
  let stats := {| lines_total := 0; lines_code := 0; lines_comment := 0;
                  lines_blank := 0 |} in
  match content with
  | Some lines => fold_left count_line lines stats
  | None => stats
  end.

(** The package of one import in [extract_package_name] *)
Definition package_of (import_name : string) : string :=
  if PyText.contains "." import_name
  then hd "" (PyStr.split "." import_name)
  else import_name.

Definition extract_package_name (imports : list string) : list string :=
  PyText.sorted_set (map package_of imports).

(** *** git_manager.GitManager._extract_repo_name *)

Section RepoName.

(** [urlparse(repo_url).path] *)
Variable urlparse_path : string -> string.

(** [None] stands for the [IndexError] of [repo_url.split(':')[1]]. *)
Definition _extract_repo_name (repo_url : string) : option string :=
  match
    (if PyStr.startswith "git@" repo_url
     then nth_error (PyStr.split ":" repo_url) 1
     else Some (urlparse_path repo_url))
  with
  | None => None
  | Some path =>
      (* Remove leading slash and .git extension *)
      let stripped := PyText.strip_char "/" path in
      let repo_name :=
        PyText.remove_all (String.length stripped) ".git" stripped in
      (* Get last component (repo name) *)
      Some (if PyText.contains "/" repo_name
            then last (PyStr.split "/" repo_name) ""
            else repo_name)
  end.

End RepoName.

(** *** Vocabulary of the further statements *)

(** Whether [filter_files] keeps a path. *)
Definition selects (self : FileFilter) (p : Path) : bool :=
  negb (is_dir p) && negb (is_symlink p) && negb (_is_ignored self p)
  && _is_supported_file self p && _is_size_ok self p.

(** A pattern without the special characters of [fnmatch] *)
Fixpoint plain (pat : string) : bool :=
  match pat with
  | EmptyString => true
  | String c pat' =>
      negb (Ascii.eqb c "*") && negb (Ascii.eqb c "?")
      && negb (Ascii.eqb c "[") && plain pat'
  end.

(** No component holds the separator. *)
Definition components (l : list string) : Prop :=
  Forall (fun s => PyText.contains "/" s = false) l.

(** Whether a collection of the listing has the given name. *)
Definition collection_named (name : string) (coll : pyval) : bool :=
  match Py.subscript coll "name" with
  | Ok n => Py.eq_str n name
  | Raise _ => false
  end.

(** A response with a success code whose JSON body holds [results]. *)
Definition succeeds_with (r : Response) (results : pyval) : Prop :=
  In (status_code r) [200; 201; 202]
  /\ exists body : pyval,
       json r = Some body /\ Py.subscript body "results" = Ok results.

(** The request of [list_collections] *)
Definition list_collections_request (self : R2RClient) : Request :=
  {| method := "GET"; url := (api_url self ++ "/v3/collections")%string;
     kwargs := [("headers", PDict (headers self))] |}.

(** The POST of [create_collection] *)
Definition create_collection_request (self : R2RClient)
    (name description : string) : Request :=
  {| method := "POST"; url := (api_url self ++ "/v3/collections")%string;
     kwargs := [("headers", PDict (headers self));
                ("json", PDict [("name", PStr name);
                                ("description", PStr description)])] |}.

(** The file name in the multipart body of a request *)
Definition file_name_sent (req : Request) : option string :=
  match Py.lookup "files" (kwargs req) with
  | Some (PDict [("file", PStr n)]) => Some n
  | _ => None
  end.

(** [w'] continues the trace of [w] with sleeps and with requests that
    satisfy [P]. *)
Definition extends_with (P : Request -> Prop) (w w' : World) : Prop :=
  exists new : list Event,
    events w' = events w ++ new
    /\ Forall (fun ev => match ev with
                         | EvRequest req => P req
                         | EvSleep _ => True
                         end) new.

(** The request of [get_document] *)
Definition get_document_request (self : R2RClient) (id : string)
    : Request :=
  {| method := "GET"; url := (api_url self ++ "/v3/documents/" ++ id)%string;
     kwargs := [("headers", PDict (headers self))] |}.

(** The server answers every status request at once, and the document
    [id] always has the ingestion status [status id] (a document without
    the field counts as pending). *)
Definition reports (server : Server) (self : R2RClient)
    (status : string -> pyval) : Prop :=
  forall (n : nat) (id : string),
    exists (r : Response) (doc : pyval),
      server n (get_document_request self id) = Responds r
      /\ succeeds_with r doc
      /\ Py.get doc "ingestion_status" (PStr "pending") = Ok (status id).

(** Every entry of the dict is the status of the identifier it is
    filed under. *)
Definition records (status : string -> pyval) (statuses : Statuses)
    : Prop :=
  Forall (fun kv => exists id : string,
                      fst kv = PStr id /\ snd kv = status id) statuses.

(** [v[:8]] does not raise. *)
Definition sliceable (v : pyval) : bool :=
  match Py.slice_to 8 v with
  | Ok _ => true
  | Raise _ => false
  end.

(** Building the metadata of a file ends: it returns the metadata or
    raises one of Python's exceptions. *)
Definition metadata_ends
    (build_metadata :
       list string -> Path -> string -> string -> string -> pyval ->
       result pyval)
    (file_filter : FileFilter) (repo_url repo_name : string)
    (commit_info : pyval) (f : Path) : Prop :=
  build_metadata (repo_path file_filter) f
    (get_file_language file_filter f) repo_url repo_name commit_info
  <> Raise NonTermination.

(** Every document identifier that an upload of the file returns
    satisfies [P]. *)
Definition returns_ids_in (P : pyval -> Prop) (server : Server)
    (self : R2RClient) (collection_id : pyval)
    (document_id : Path -> pyval) (f : Path) : Prop :=
  forall (metadata : pyval) (w w' : World) (result id : pyval),
    upload_document server self f metadata collection_id (document_id f) w
    = (Ok result, w') ->
    Py.subscript result "document_id" = Ok id ->
    P id.

(** The digits of a lowercase hexadecimal number *)
Definition hex_alphabet : list ascii :=
  list_ascii_of_string "0123456789abcdef".

(** * Properties *)

(** ** Document identity *)

(** C10: the identifier depends only on the string
    [repo_url + ":" + file_path]: two pairs with the same concatenation
    have the same identifier. *)
Theorem generate_document_id_depends_on_key :
  forall repo_url1 file_path1 repo_url2 file_path2 : string,
    (repo_url1 ++ ":" ++ file_path1)%string
    = (repo_url2 ++ ":" ++ file_path2)%string ->
    generate_document_id repo_url1 file_path1
    = generate_document_id repo_url2 file_path2.
Proof.
  intros u1 p1 u2 p2 Hkey. unfold generate_document_id.
  now rewrite Hkey.
Qed.

(** The pairs ('a:b', 'c') and ('a', 'b:c') differ and share their
    identifier. *)
Lemma generate_document_id_depends_on_key_witness :
  ("a:b", "c") <> ("a", "b:c")
  /\ generate_document_id "a:b" "c" = generate_document_id "a" "b:c".
Proof.
  split.
  - discriminate.
  - apply (generate_document_id_depends_on_key "a:b" "c" "a" "b:c").
    reflexivity.
Defined.

(** ** Resilient transport *)

Section TransportProperties.

Variable server : Server.

Lemma retry_loop_cons (req : Request) (k : Z) (rest : list Z) (w : World) :
  retry_loop server req (k :: rest) w
  = match retry_attempt server req k w with
    | (Ok (Some r), w') => (Ok r, w')
    | (Ok None, w') => retry_loop server req rest w'
    | (Raise e, w') => (Raise e, w')
    end.
Proof.
  unfold retry_loop. simpl. unfold bind.
  destruct (retry_attempt server req k w) as [[[r|]|e] w']; reflexivity.
Qed.

(** What one attempt does with a response, by status code. *)
Lemma retry_attempt_responds (req : Request) (k : Z) (w : World)
    (r : Response) :
  server (calls w) req = Responds r ->
  retry_attempt server req k w
  = if in_list (status_code r) [200; 201; 202] then
      (Ok (Some r), sent req w)
    else if status_code r =? 429 then
      (Ok None, slept (inject_Z (2 ^ k * API_RETRY_BACKOFF)) (sent req w))
    else if (400 <=? status_code r) && (status_code r <? 500) then
      (Raise (R2RClientError
                (client_error_message (status_code r) (text r))),
       sent req w)
    else if status_code r >=? 500 then
      (Ok None, slept (inject_Z (2 ^ k)) (sent req w))
    else (Ok None, sent req w).
Proof.
  intros H.
  unfold retry_attempt, try_except, bind, requests_request.
  rewrite H.
  destruct (in_list (status_code r) [200; 201; 202]); [reflexivity |].
  destruct (status_code r =? 429); [reflexivity |].
  destruct ((400 <=? status_code r) && (status_code r <? 500));
    [reflexivity |].
  destruct (status_code r >=? 500); reflexivity.
Qed.

(** What one attempt does with a transport-level failure. *)
Lemma retry_attempt_fails (req : Request) (k : Z) (w : World)
    (msg : string) :
  server (calls w) req = Fails msg ->
  retry_attempt server req k w
  = if k =? API_RETRY_ATTEMPTS - 1 then
      (Raise (R2RClientError
                ("Request failed after "
                 ++ PyStr.str_of_int API_RETRY_ATTEMPTS ++ " attempts: "
                 ++ msg)%string),
       sent req w)
    else (Ok None, slept (inject_Z (2 ^ k)) (sent req w)).
Proof.
  intros H.
  unfold retry_attempt, try_except, bind, requests_request.
  rewrite H. cbv beta iota. unfold is_RequestException, exn_str.
  destruct (k =? API_RETRY_ATTEMPTS - 1); reflexivity.
Qed.

Lemma in_list_spec (x : Z) (l : list Z) : in_list x l = true <-> In x l.
Proof.
  unfold in_list. rewrite existsb_exists. split.
  - intros [y [Hy E]]. apply Z.eqb_eq in E. now subst.
  - intros H. exists x. split; [exact H | apply Z.eqb_refl].
Qed.

End TransportProperties.

Lemma success_returns_immediately_aux (server : Server) (req : Request)
    (k : Z) (rest : list Z) (w : World) (r : Response) :
  server (calls w) req = Responds r ->
  In (status_code r) [200; 201; 202] ->
  retry_loop server req (k :: rest) w = (Ok r, sent req w).
Proof.
  intros Hr Hs.
  rewrite retry_loop_cons, (retry_attempt_responds server req k w r Hr).
  apply in_list_spec in Hs. now rewrite Hs.
Qed.

(** C5, as amended: a response whose status code is 200, 201 or 202 is
    returned by the attempt that received it, with no further request and
    no sleep: the world changes by that one request only.
    [_retry_request] is the loop over [range(API_RETRY_ATTEMPTS)]; the
    statement holds at whatever attempt [k] the loop has reached. *)
Theorem success_returns_immediately :
  forall (server : Server) (req : Request) (k : Z) (rest : list Z)
         (w : World) (r : Response),
    server (calls w) req = Responds r ->
    In (status_code r) [200; 201; 202] ->
    retry_loop server req (k :: rest) w = (Ok r, sent req w).
Proof.
  intros server req k rest w r Hr Hs.
  rewrite retry_loop_cons, (retry_attempt_responds server req k w r Hr).
  apply in_list_spec in Hs. now rewrite Hs.
Qed.

Lemma success_returns_immediately_witness :
  let server : Server :=
    fun _ _ => Responds {| status_code := 201; text := "ok"; json := None |} in
  let req := {| method := "GET"; url := "u"; kwargs := [] |} in
  retry_loop server req [0; 1; 2] initial_world
  = (Ok {| status_code := 201; text := "ok"; json := None |},
     sent req initial_world).
Proof.
  intros server req.
  apply (success_returns_immediately server req 0 [1; 2] initial_world).
  - reflexivity.
  - simpl. tauto.
Defined.

(** C5, as stated, fails: 204 is in the 2xx range, and a server that
    answers 204 is asked three times before [_retry_request] raises. *)
Lemma status_204_is_not_returned :
  let r204 := {| status_code := 204; text := ""; json := None |} in
  let server : Server := fun _ _ => Responds r204 in
  let self := {| api_url := "http://localhost:7272"; token := None;
                 headers := [] |} in
  let req := {| method := "GET"; url := "u"; kwargs := [] |} in
  200 <= status_code r204 < 300
  /\ server (calls initial_world) req = Responds r204
  /\ _retry_request server self "GET" "u" [] initial_world
     = (Raise (R2RClientError "Failed after 3 attempts"),
        sent req (sent req (sent req initial_world))).
Proof.
  cbv zeta. split; [simpl; lia |]. split; reflexivity.
Qed.

Lemma sleeps_app (a b : list Event) :
  sleeps (a ++ b) = sleeps a ++ sleeps b.
Proof.
  induction a as [|[q|q] a IH]; simpl; rewrite ?IH; reflexivity.
Qed.

Lemma range_attempts : range API_RETRY_ATTEMPTS = [0; 1; 2].
Proof. reflexivity. Qed.

Lemma client_status_not_success (s : Z) :
  400 <= s < 500 -> in_list s [200; 201; 202] = false.
Proof.
  intros H. unfold in_list. simpl.
  destruct (Z.eqb_spec s 200); [lia |].
  destruct (Z.eqb_spec s 201); [lia |].
  destruct (Z.eqb_spec s 202); [lia | reflexivity].
Qed.

Lemma retry_loop_rate_limited (server : Server) (req : Request) (k : Z)
    (rest : list Z) (w : World) (r : Response) :
  server (calls w) req = Responds r ->
  status_code r = 429 ->
  retry_loop server req (k :: rest) w
  = retry_loop server req rest
      (slept (inject_Z (2 ^ k * API_RETRY_BACKOFF)) (sent req w)).
Proof.
  intros Hr Hs.
  rewrite retry_loop_cons, (retry_attempt_responds server req k w r Hr).
  rewrite Hs. reflexivity.
Qed.

(** C6: an attempt [k] that is answered 429 sleeps
    [2 ^ k * API_RETRY_BACKOFF] seconds and the loop goes on with the
    attempts that are left.  For a server that answers 429 to the first
    two calls and 200 to the third, [_retry_request] returns the third
    response after three requests, and it has slept
    [API_RETRY_BACKOFF * 2 ^ 0] and then [API_RETRY_BACKOFF * 2 ^ 1]
    seconds.  A server that answers 429 to every call is asked
    [API_RETRY_ATTEMPTS] times. *)
Theorem rate_limit_backoff_schedule :
  (forall (server : Server) (req : Request) (k : Z) (rest : list Z)
          (w : World) (r : Response),
      server (calls w) req = Responds r ->
      status_code r = 429 ->
      retry_loop server req (k :: rest) w
      = retry_loop server req rest
          (slept (inject_Z (2 ^ k * API_RETRY_BACKOFF)) (sent req w)))
  /\ (forall (server : Server) (self : R2RClient) (method url : string)
             (kwargs : list (string * pyval)) (w : World)
             (r1 r2 r3 : Response),
        let req := {| method := method; url := url; kwargs := kwargs |} in
        server (calls w) req = Responds r1 -> status_code r1 = 429 ->
        server (S (calls w)) req = Responds r2 -> status_code r2 = 429 ->
        server (S (S (calls w))) req = Responds r3 ->
        status_code r3 = 200 ->
        exists w' : World,
          _retry_request server self method url kwargs w = (Ok r3, w')
          /\ calls w' = (calls w + 3)%nat
          /\ events w'
             = events w
               ++ [EvRequest req;
                   EvSleep (inject_Z (API_RETRY_BACKOFF * 2 ^ 0));
                   EvRequest req;
                   EvSleep (inject_Z (API_RETRY_BACKOFF * 2 ^ 1));
                   EvRequest req]
          /\ now w'
             = (now w + inject_Z (API_RETRY_BACKOFF * 2 ^ 0)
                + inject_Z (API_RETRY_BACKOFF * 2 ^ 1))%Q)
  /\ (forall (server : Server) (self : R2RClient) (method url : string)
             (kwargs : list (string * pyval)) (w : World),
        let req := {| method := method; url := url; kwargs := kwargs |} in
        (forall i : nat,
            exists r, server i req = Responds r /\ status_code r = 429) ->
        exists w' : World,
          _retry_request server self method url kwargs w
          = (Raise (R2RClientError "Failed after 3 attempts"), w')
          /\ calls w' = (calls w + Z.to_nat API_RETRY_ATTEMPTS)%nat
          /\ sleeps (events w')
             = sleeps (events w)
               ++ map (fun k => inject_Z (2 ^ k * API_RETRY_BACKOFF))
                      (range API_RETRY_ATTEMPTS)).
Proof.
  split; [exact retry_loop_rate_limited | split].
  - intros server self method url kwargs w r1 r2 r3 req
           H1 S1 H2 S2 H3 S3.
    unfold _retry_request. fold req. rewrite range_attempts.
    rewrite (retry_loop_rate_limited server req 0 _ w r1 H1 S1).
    set (w1 := slept _ (sent req w)).
    rewrite (retry_loop_rate_limited server req 1 _ w1 r2 H2 S2).
    set (w2 := slept _ (sent req w1)).
    rewrite (success_returns_immediately_aux server req 2 [] w2 r3).
    + subst w2 w1. eexists. split; [reflexivity |].
      split; [simpl; lia |].
      split; [| reflexivity].
      simpl. rewrite <- !app_assoc. reflexivity.
    + exact H3.
    + rewrite S3. simpl. tauto.
  - intros server self method url kwargs w req Hall.
    unfold _retry_request. fold req. rewrite range_attempts.
    destruct (Hall (calls w)) as [r1 [H1 S1]].
    rewrite (retry_loop_rate_limited server req 0 _ w r1 H1 S1).
    set (w1 := slept _ (sent req w)).
    destruct (Hall (S (calls w))) as [r2 [H2 S2]].
    rewrite (retry_loop_rate_limited server req 1 _ w1 r2 H2 S2).
    set (w2 := slept _ (sent req w1)).
    destruct (Hall (S (S (calls w)))) as [r3 [H3 S3]].
    rewrite (retry_loop_rate_limited server req 2 _ w2 r3 H3 S3).
    subst w2 w1. eexists. split; [reflexivity |].
    split; [simpl; lia |].
    simpl events. rewrite !sleeps_app, <- !app_assoc. reflexivity.
Qed.

Lemma rate_limit_backoff_schedule_witness :
  let server : Server :=
    fun n _ =>
      if (n <? 2)%nat
      then Responds {| status_code := 429; text := "slow down"; json := None |}
      else Responds {| status_code := 200; text := "ok"; json := None |} in
  let self := {| api_url := "http://localhost:7272"; token := None;
                 headers := [] |} in
  let req := {| method := "POST"; url := "u"; kwargs := [] |} in
  exists w' : World,
    _retry_request server self "POST" "u" [] initial_world
    = (Ok {| status_code := 200; text := "ok"; json := None |}, w')
    /\ calls w' = 3%nat
    /\ events w'
       = [EvRequest req; EvSleep (inject_Z 2); EvRequest req;
          EvSleep (inject_Z 4); EvRequest req]
    /\ now w' = (0 + inject_Z 2 + inject_Z 4)%Q.
Proof.
  intros server self req.
  exact (proj1 (proj2 rate_limit_backoff_schedule) server self "POST" "u"
           [] initial_world
           {| status_code := 429; text := "slow down"; json := None |}
           {| status_code := 429; text := "slow down"; json := None |}
           {| status_code := 200; text := "ok"; json := None |}
           eq_refl eq_refl eq_refl eq_refl eq_refl eq_refl).
Defined.

Lemma take_length (n : nat) (s : string) :
  (String.length (PyStr.take n s) <= n)%nat.
Proof.
  revert s. induction n as [|n IH]; intros [|c s]; simpl; try lia.
  specialize (IH s). lia.
Qed.

Lemma retry_loop_client_error (server : Server) (req : Request) (k : Z)
    (rest : list Z) (w : World) (r : Response) :
  server (calls w) req = Responds r ->
  400 <= status_code r < 500 ->
  status_code r <> 429 ->
  retry_loop server req (k :: rest) w
  = (Raise (R2RClientError
              (client_error_message (status_code r) (text r))),
     sent req w).
Proof.
  intros Hr Hs Hn.
  rewrite retry_loop_cons, (retry_attempt_responds server req k w r Hr).
  rewrite (client_status_not_success _ Hs).
  destruct (Z.eqb_spec (status_code r) 429) as [E | _]; [contradiction |].
  replace ((400 <=? status_code r) && (status_code r <? 500)) with true.
  - reflexivity.
  - symmetry. apply andb_true_iff. split.
    + apply Z.leb_le. lia.
    + apply Z.ltb_lt. lia.
Qed.

(** C7: a response with a 4xx status other than 429 makes the attempt
    that received it raise [R2RClientError] at once; the message carries
    the status code and the first 200 characters of the body; the world
    changes by that one request only, so nothing is retried and nothing
    sleeps.  When it is the first response, [_retry_request] has made
    exactly one call. *)
Theorem client_error_not_retried :
  forall (server : Server) (self : R2RClient) (method url : string)
         (kwargs : list (string * pyval)) (k : Z) (rest : list Z)
         (w : World) (r : Response),
    let req := {| method := method; url := url; kwargs := kwargs |} in
    server (calls w) req = Responds r ->
    400 <= status_code r < 500 ->
    status_code r <> 429 ->
    let msg := ("HTTP " ++ PyStr.str_of_int (status_code r) ++ ": "
                ++ PyStr.take 200 (text r))%string in
    retry_loop server req (k :: rest) w
    = (Raise (R2RClientError msg), sent req w)
    /\ _retry_request server self method url kwargs w
       = (Raise (R2RClientError msg), sent req w)
    /\ (String.length (PyStr.take 200 (text r)) <= 200)%nat
    /\ calls (sent req w) = S (calls w)
    /\ sleeps (events (sent req w)) = sleeps (events w).
Proof.
  intros server self method url kwargs k rest w r req Hr Hs Hn msg.
  split; [| split; [| split; [| split]]].
  - now apply retry_loop_client_error.
  - unfold _retry_request. fold req. rewrite range_attempts.
    now apply retry_loop_client_error.
  - apply take_length.
  - reflexivity.
  - simpl. rewrite sleeps_app. simpl. apply app_nil_r.
Qed.

Lemma client_error_not_retried_witness :
  let r404 := {| status_code := 404; text := "not found"; json := None |} in
  let server : Server := fun _ _ => Responds r404 in
  let self := {| api_url := "http://localhost:7272"; token := None;
                 headers := [] |} in
  let req := {| method := "GET"; url := "u"; kwargs := [] |} in
  _retry_request server self "GET" "u" [] initial_world
  = (Raise (R2RClientError "HTTP 404: not found"), sent req initial_world).
Proof.
  intros r404 server self req.
  refine (proj1 (proj2 (client_error_not_retried server self "GET" "u" []
                          0 [] initial_world r404 eq_refl _ _))).
  - simpl. lia.
  - simpl. lia.
Defined.

(** An attempt with a retryable outcome makes one call and goes on, or,
    when it is the last one and the transport failed, raises. *)
Lemma retry_attempt_retryable (server : Server) (req : Request) (k : Z)
    (w : World) :
  is_retryable (server (calls w) req) = true ->
  exists w1 : World,
    calls w1 = S (calls w)
    /\ (retry_attempt server req k w = (Ok None, w1)
        \/ (k = API_RETRY_ATTEMPTS - 1
            /\ exists e : string,
                 retry_attempt server req k w
                 = (Raise (R2RClientError
                             ("Request failed after 3 attempts: " ++ e)),
                    w1))).
Proof.
  intros H. destruct (server (calls w) req) as [r | msg] eqn:E.
  - rewrite (retry_attempt_responds server req k w r E).
    unfold is_retryable in H.
    apply andb_true_iff in H. destruct H as [H1 H2].
    apply negb_true_iff in H1. rewrite H1.
    revert H2. destruct (status_code r =? 429); intros H2.
    + eexists. split; [| left; reflexivity]. reflexivity.
    + rewrite orb_false_l in H2. apply negb_true_iff in H2. rewrite H2.
      destruct (status_code r >=? 500);
        (eexists; split; [| left; reflexivity]; reflexivity).
  - rewrite (retry_attempt_fails server req k w msg E).
    destruct (Z.eqb_spec k (API_RETRY_ATTEMPTS - 1)) as [Hk | Hk].
    + exists (sent req w). split; [reflexivity |].
      right. split; [exact Hk |]. exists msg. reflexivity.
    + eexists. split; [| left; reflexivity]. reflexivity.
Qed.

Lemma client_error_message_prefix (status : Z) (body : string) :
  PyStr.startswith "HTTP " (client_error_message status body) = true.
Proof. reflexivity. Qed.

(** C2: when every one of the [API_RETRY_ATTEMPTS] calls has a retryable
    outcome (no success code, no 4xx other than 429), [_retry_request]
    raises after exactly that many calls, with the message
    "Failed after 3 attempts" or "Request failed after 3 attempts: ...".
    That error is never the error of the client-error case, whose message
    is "HTTP <status>: <body>": a caller tells them apart by the "HTTP "
    prefix.  Both are instances of the one class [R2RClientError]. *)
Theorem exhaustion_differs_from_client_error :
  forall (server : Server) (self : R2RClient) (method url : string)
         (kwargs : list (string * pyval)) (w : World),
    let req := {| method := method; url := url; kwargs := kwargs |} in
    (forall i : nat,
        (i < Z.to_nat API_RETRY_ATTEMPTS)%nat ->
        is_retryable (server (calls w + i)%nat req) = true) ->
    exists (msg : string) (w' : World),
      _retry_request server self method url kwargs w
      = (Raise (R2RClientError msg), w')
      /\ calls w' = (calls w + Z.to_nat API_RETRY_ATTEMPTS)%nat
      /\ (msg = "Failed after 3 attempts"
          \/ exists e : string,
               msg = ("Request failed after 3 attempts: " ++ e)%string)
      /\ PyStr.startswith "HTTP " msg = false
      /\ (forall (status : Z) (body : string),
             PyStr.startswith "HTTP " (client_error_message status body)
             = true)
      /\ (forall (status : Z) (body : string),
             R2RClientError msg
             <> R2RClientError (client_error_message status body)).
Proof.
  intros server self method url kwargs w req Hall.
  assert (Hgoal :
    exists (msg : string) (w' : World),
      _retry_request server self method url kwargs w
      = (Raise (R2RClientError msg), w')
      /\ calls w' = (calls w + Z.to_nat API_RETRY_ATTEMPTS)%nat
      /\ (msg = "Failed after 3 attempts"
          \/ exists e : string,
               msg = ("Request failed after 3 attempts: " ++ e)%string)).
  { unfold _retry_request. fold req. rewrite range_attempts.
    change (Z.to_nat API_RETRY_ATTEMPTS) with 3%nat in *.
    pose proof (Hall 0%nat ltac:(lia)) as H0.
    rewrite Nat.add_0_r in H0.
    destruct (retry_attempt_retryable server req 0 w H0)
      as [w1 [C1 [E1 | [K1 _]]]]; [| discriminate K1].
    rewrite retry_loop_cons, E1.
    pose proof (Hall 1%nat ltac:(lia)) as H1.
    replace (calls w + 1)%nat with (calls w1) in H1 by lia.
    destruct (retry_attempt_retryable server req 1 w1 H1)
      as [w2 [C2 [E2 | [K2 _]]]]; [| discriminate K2].
    rewrite retry_loop_cons, E2.
    pose proof (Hall 2%nat ltac:(lia)) as H2.
    replace (calls w + 2)%nat with (calls w2) in H2 by lia.
    destruct (retry_attempt_retryable server req 2 w2 H2)
      as [w3 [C3 [E3 | [_ [e E3]]]]];
      rewrite retry_loop_cons, E3.
    - exists "Failed after 3 attempts", w3.
      split; [reflexivity | split; [lia | now left]].
    - eexists _, w3.
      split; [reflexivity | split; [lia | right; now exists e]]. }
  destruct Hgoal as [msg [w' [Hrun [Hcalls Hmsg]]]].
  assert (Hprefix : PyStr.startswith "HTTP " msg = false).
  { destruct Hmsg as [-> | [e ->]]; reflexivity. }
  exists msg, w'.
  split; [exact Hrun |]. split; [exact Hcalls |]. split; [exact Hmsg |].
  split; [exact Hprefix |]. split; [exact client_error_message_prefix |].
  intros status body Heq. injection Heq as Heq.
  rewrite Heq, client_error_message_prefix in Hprefix. discriminate.
Qed.

Lemma exhaustion_differs_from_client_error_witness :
  let server : Server :=
    fun n _ =>
      if (n <? 2)%nat
      then Responds {| status_code := 503; text := "down"; json := None |}
      else Fails "connection reset" in
  let self := {| api_url := "http://localhost:7272"; token := None;
                 headers := [] |} in
  exists (msg : string) (w' : World),
    _retry_request server self "GET" "u" [] initial_world
    = (Raise (R2RClientError msg), w')
    /\ calls w' = 3%nat
    /\ PyStr.startswith "HTTP " msg = false.
Proof.
  intros server self.
  destruct (exhaustion_differs_from_client_error server self "GET" "u" []
              initial_world) as [msg [w' [H1 [H2 [_ [H3 _]]]]]].
  - intros i Hi.
    destruct i as [|[|[|i]]]; reflexivity.
  - exists msg, w'. split; [exact H1 | split; [exact H2 | exact H3]].
Defined.

(** ** File selection *)

Lemma filter_step_valid_files (self : FileFilter) (st : FilterState)
    (p : Path) :
  valid_files (filter_step self st p) = valid_files st
  \/ (valid_files (filter_step self st p) = valid_files st ++ [p]
      /\ is_candidate self p).
Proof.
  unfold filter_step, is_candidate.
  destruct (is_dir p); [now left |].
  destruct (is_symlink p); [now left |].
  destruct (_is_ignored self p); [now left |].
  destruct (_is_supported_file self p); simpl; [| now left].
  destruct (_is_size_ok self p); simpl; [| now left].
  right. repeat split; reflexivity.
Qed.

Lemma fold_filter_step_sound (self : FileFilter) (paths : list Path) :
  forall st : FilterState,
    Forall (is_candidate self) (valid_files st) ->
    Forall (is_candidate self)
      (valid_files (fold_left (filter_step self) paths st)).
Proof.
  induction paths as [|p paths IH]; intros st Hst; simpl; [exact Hst |].
  apply IH.
  destruct (filter_step_valid_files self st p) as [-> | [-> Hp]].
  - exact Hst.
  - apply Forall_app. split; [exact Hst | now constructor].
Qed.

(** Every path that [filter_files] returns is a candidate. *)
Lemma filter_files_sound (self : FileFilter) (tree : Tree) (verbose : bool) :
  Forall (is_candidate self) (filter_files self tree verbose).
Proof.
  unfold filter_files, filter_loop.
  apply fold_filter_step_sound. constructor.
Qed.

(** C9: a path that is a symbolic link, whether [stat] succeeds on it or
    not and whatever its extension and size, is not in the list that
    [filter_files] returns. *)
Theorem symlinks_are_never_selected :
  forall (self : FileFilter) (tree : Tree) (verbose : bool) (p : Path),
    In p (rglob tree) ->
    is_symlink p = true ->
    ~ In p (filter_files self tree verbose).
Proof.
  intros self tree verbose p _ Hlink Hin.
  pose proof (filter_files_sound self tree verbose) as Hall.
  rewrite Forall_forall in Hall.
  destruct (Hall p Hin) as [_ [Hno _]]. congruence.
Qed.

Lemma symlinks_are_never_selected_witness :
  let link := {| parts := ["repo"; "src"; "main.py"]; is_dir := false;
                 is_symlink := true; st_size := Some 12;
                 can_open := true |} in
  let dangling := {| parts := ["repo"; "lost.py"]; is_dir := false;
                     is_symlink := true; st_size := None;
                     can_open := false |} in
  let linked_dir := {| parts := ["repo"; "vendored.py"]; is_dir := true;
                       is_symlink := true; st_size := Some 9;
                       can_open := false |} in
  let tree := {| gitignore := None;
                 rglob := [link; dangling; linked_dir] |} in
  ~ In link (filter_files (FileFilter_default tree ["repo"]) tree false)
  /\ ~ In dangling
         (filter_files (FileFilter_default tree ["repo"]) tree false)
  /\ ~ In linked_dir
         (filter_files (FileFilter_default tree ["repo"]) tree false).
Proof.
  intros link dangling linked_dir tree. split; [| split].
  - apply (symlinks_are_never_selected _ tree false link).
    + simpl. tauto.
    + reflexivity.
  - apply (symlinks_are_never_selected _ tree false dangling).
    + simpl. tauto.
    + reflexivity.
  - apply (symlinks_are_never_selected _ tree false linked_dir).
    + simpl. tauto.
    + reflexivity.
Defined.

(** C3, as amended: a regular file (no directory, no symbolic link)
    whose size exceeds the maximum is never selected, and its round of
    the loop increments exactly one counter: [skipped_ignored] when the
    path is ignored, otherwise [skipped_extension] when the extension is
    not supported, otherwise [skipped_size]. *)
Theorem oversize_file_is_skipped_once :
  forall (self : FileFilter) (tree : Tree) (verbose : bool)
         (st : FilterState) (p : Path) (size : Z),
    is_dir p = false ->
    is_symlink p = false ->
    st_size p = Some size ->
    size > max_size_bytes self ->
    let st' := filter_step self st p in
    ~ In p (filter_files self tree verbose)
    /\ valid_files st' = valid_files st
    /\ (skipped_ignored st', skipped_extension st', skipped_size st')
       = if _is_ignored self p then
           (skipped_ignored st + 1, skipped_extension st, skipped_size st)
         else if _is_supported_file self p then
           (skipped_ignored st, skipped_extension st, skipped_size st + 1)
         else
           (skipped_ignored st, skipped_extension st + 1, skipped_size st).
Proof.
  intros self tree verbose st p size Hdir Hlink Hsize Hbig st'.
  assert (Hno : _is_size_ok self p = false).
  { unfold _is_size_ok. rewrite Hsize, Hlink. apply Z.leb_gt. lia. }
  split; [| split].
  - intros Hin.
    pose proof (filter_files_sound self tree verbose) as Hall.
    rewrite Forall_forall in Hall.
    destruct (Hall p Hin) as [_ [_ [_ [_ Hok]]]]. congruence.
  - subst st'. unfold filter_step. rewrite Hdir, Hlink, Hno.
    destruct (_is_ignored self p); [reflexivity |].
    destruct (_is_supported_file self p); reflexivity.
  - subst st'. unfold filter_step. rewrite Hdir, Hlink, Hno.
    destruct (_is_ignored self p); [reflexivity |].
    destruct (_is_supported_file self p); reflexivity.
Qed.

Lemma oversize_file_is_skipped_once_witness :
  let big := {| parts := ["repo"; "src"; "big.py"]; is_dir := false;
                is_symlink := false; st_size := Some 20971521;
                can_open := true |} in
  let tree := {| gitignore := None; rglob := [big] |} in
  let self := FileFilter_default tree ["repo"] in
  let st' := filter_step self filter_start big in
  ~ In big (filter_files self tree false)
  /\ valid_files st' = []
  /\ (skipped_ignored st', skipped_extension st', skipped_size st')
     = (0, 0, 1).
Proof.
  intros big tree self st'.
  refine (oversize_file_is_skipped_once self tree false filter_start big
            20971521 eq_refl eq_refl eq_refl _).
  reflexivity.
Defined.

(** C3, as stated, fails: two regular files larger than the maximum, one
    under the ignored directory [build], one with the unsupported
    extension [.bin]; neither increments [skipped_size]. *)
Lemma oversize_file_counted_elsewhere :
  let ignored_big := {| parts := ["repo"; "build"; "bundle.js"];
                        is_dir := false; is_symlink := false;
                        st_size := Some 20971521; can_open := true |} in
  let binary_big := {| parts := ["repo"; "data.bin"]; is_dir := false;
                       is_symlink := false; st_size := Some 20971521;
                       can_open := true |} in
  let build := {| parts := ["repo"; "build"]; is_dir := true;
                  is_symlink := false; st_size := Some 4096;
                  can_open := false |} in
  let tree := {| gitignore := None;
                 rglob := [build; ignored_big; binary_big] |} in
  let self := FileFilter_default tree ["repo"] in
  let st := filter_loop self tree in
  20971521 > max_size_bytes self
  /\ valid_files st = []
  /\ skipped_ignored st = 1
  /\ skipped_extension st = 1
  /\ skipped_size st = 0.
Proof.
  cbv zeta. split; [reflexivity |]. vm_compute. repeat split.
Qed.


(** ** Invariants of monadic code *)

Section Preserves.

Context {S : Type} (I : S -> S -> Prop) `{!PreOrder I}.

Lemma preserves_ret {A} (a : A) : preserves I (ret a).
Proof.
  intros s x s' H. injection H as <- <-. split; [reflexivity | discriminate].
Qed.

Lemma preserves_lift {A} (r : result A) :
  r <> Raise NonTermination -> preserves I (lift r).
Proof.
  intros Hr s x s' H. injection H as <- <-. split; [reflexivity | exact Hr].
Qed.

Lemma preserves_raise {A} (e : exn) :
  e <> NonTermination -> preserves I (@raise S A e).
Proof.
  intros He s x s' H. injection H as <- <-.
  split; [reflexivity | congruence].
Qed.

Lemma preserves_bind {A B} (c : M S A) (k : A -> M S B) :
  preserves I c -> (forall a, preserves I (k a)) -> preserves I (bind c k).
Proof.
  intros Hc Hk s x s' H. unfold bind in H.
  destruct (c s) as [[a | e] s1] eqn:E.
  - destruct (Hc _ _ _ E) as [H1 _].
    destruct (Hk a _ _ _ H) as [H2 Hx].
    split; [etransitivity; eassumption | exact Hx].
  - injection H as <- <-.
    destruct (Hc _ _ _ E) as [H1 Hx].
    split; [assumption | intros Heq; apply Hx; congruence].
Qed.

Lemma preserves_try_except {A} (c : M S A) (handles : exn -> bool)
    (h : exn -> M S A) :
  preserves I c -> (forall e, preserves I (h e)) ->
  preserves I (try_except c handles h).
Proof.
  intros Hc Hh s x s' H. unfold try_except in H.
  destruct (c s) as [[a | e] s1] eqn:E.
  - injection H as <- <-. exact (Hc _ _ _ E).
  - destruct (Hc _ _ _ E) as [H1 He].
    destruct (handles e).
    + destruct (Hh e _ _ _ H) as [H2 Hx].
      split; [etransitivity; eassumption | exact Hx].
    + injection H as <- <-. split; assumption.
Qed.

Lemma preserves_for_returning {A R} (xs : list A)
    (body : A -> M S (option R)) (after : M S R) :
  (forall x, preserves I (body x)) -> preserves I after ->
  preserves I (for_returning xs body after).
Proof.
  intros Hb Ha. induction xs as [|x xs IH]; simpl; [exact Ha |].
  apply preserves_bind; [apply Hb |].
  intros [v |]; [apply preserves_ret | exact IH].
Qed.

Lemma preserves_fold_m {A B} (body : B -> A -> M S B) (xs : list A) :
  (forall b x, In x xs -> preserves I (body b x)) ->
  forall b, preserves I (fold_m body xs b).
Proof.
  induction xs as [|x xs IH]; intros Hb b; simpl; [apply preserves_ret |].
  apply preserves_bind; [apply Hb; now left |].
  intros b'. apply IH. intros b0 y Hy. apply Hb. now right.
Qed.

Lemma preserves_for_each {A} (xs : list A) (body : A -> M S unit) :
  (forall x, In x xs -> preserves I (body x)) ->
  preserves I (for_each xs body).
Proof.
  induction xs as [|x xs IH]; intros Hb; simpl; [apply preserves_ret |].
  apply preserves_bind; [apply Hb; now left |].
  intros _. apply IH. intros y Hy. apply Hb. now right.
Qed.

End Preserves.

#[export] Instance clock_le_preorder : PreOrder clock_le.
Proof.
  split.
  - intros w. apply Qle_refl.
  - intros w1 w2 w3. apply Qle_trans.
Qed.

Lemma steady_time_sleep (seconds : Q) :
  (0 <= seconds)%Q -> steady (time_sleep seconds).
Proof.
  intros Hs w x w' H. injection H as <- <-.
  split; [| discriminate]. unfold clock_le, slept. simpl. lra.
Qed.

Lemma steady_time_time : steady time_time.
Proof.
  intros w x w' H. injection H as <- <-.
  split; [reflexivity | discriminate].
Qed.

Lemma steady_requests_request (server : Server) (req : Request) :
  steady (requests_request server req).
Proof.
  intros w x w' H. unfold requests_request in H.
  destruct (server (calls w) req); injection H as <- <-;
    (split; [apply Qle_refl | discriminate]).
Qed.

Lemma pow2_seconds_nonneg (k : Z) : (0 <= inject_Z (2 ^ k))%Q.
Proof.
  change 0%Q with (inject_Z 0). rewrite <- Zle_Qle.
  apply Z.pow_nonneg. lia.
Qed.

Lemma backoff_seconds_nonneg (k : Z) :
  (0 <= inject_Z (2 ^ k * API_RETRY_BACKOFF))%Q.
Proof.
  change 0%Q with (inject_Z 0). rewrite <- Zle_Qle.
  apply Z.mul_nonneg_nonneg; [apply Z.pow_nonneg; lia | discriminate].
Qed.

(** Splits a goal [preserves I c] along the structure of [c]. *)
Ltac preserves_step :=
  lazymatch goal with
  | |- steady _ => unfold steady
  | |- preserves _ (ret _) => apply preserves_ret; try typeclasses eauto
  | |- preserves _ (raise _) =>
      apply preserves_raise; [typeclasses eauto | discriminate]
  | |- preserves _ (bind _ _) =>
      apply preserves_bind; [typeclasses eauto | | intros ? ]
  | |- preserves _ (try_except _ _ _) =>
      apply preserves_try_except; [typeclasses eauto | | intros ? ]
  | |- preserves _ (time_sleep _) => apply steady_time_sleep
  | |- preserves _ time_time => apply steady_time_time
  | |- preserves _ (requests_request _ _) => apply steady_requests_request
  | |- preserves _ (if ?b then _ else _) => destruct b
  | |- preserves _ (match ?x with _ => _ end) => destruct x
  end.

Lemma steady_retry_attempt (server : Server) (req : Request) (k : Z) :
  steady (retry_attempt server req k).
Proof.
  unfold retry_attempt.
  repeat preserves_step;
    first [apply backoff_seconds_nonneg | apply pow2_seconds_nonneg].
Qed.

Lemma steady_retry_request (server : Server) (self : R2RClient)
    (method url : string) (kwargs : list (string * pyval)) :
  steady (_retry_request server self method url kwargs).
Proof.
  unfold _retry_request, retry_loop.
  apply preserves_for_returning; [typeclasses eauto | |].
  - intros k. apply steady_retry_attempt.
  - repeat preserves_step.
Qed.

(** The operations on Python values raise Python exceptions only. *)
Ltac py_total :=
  let H := fresh in
  intros H;
  repeat match type of H with
         | context [match ?x with _ => _ end] => destruct x
         end;
  discriminate H.

Lemma subscript_total (v : pyval) (k : string) :
  Py.subscript v k <> Raise NonTermination.
Proof. unfold Py.subscript. py_total. Qed.

Lemma get_total (v : pyval) (k : string) (d : pyval) :
  Py.get v k d <> Raise NonTermination.
Proof. unfold Py.get. py_total. Qed.

Lemma slice_to_total (n : nat) (v : pyval) :
  Py.slice_to n v <> Raise NonTermination.
Proof. unfold Py.slice_to. py_total. Qed.

Lemma len_total (v : pyval) : Py.len v <> Raise NonTermination.
Proof. unfold Py.len. py_total. Qed.

Lemma iterate_total (v : pyval) : Py.iterate v <> Raise NonTermination.
Proof. unfold Py.iterate. py_total. Qed.

Lemma results_total (response : Response) :
  match Py.response_json response with
  | Ok v => Py.subscript v "results"
  | Raise e => Raise e
  end <> Raise NonTermination.
Proof.
  unfold Py.response_json. destruct (json response).
  - apply subscript_total.
  - discriminate.
Qed.

Ltac lift_total :=
  first [ apply subscript_total | apply get_total | apply slice_to_total
        | apply len_total | apply iterate_total | apply results_total ].

Ltac steady_step :=
  lazymatch goal with
  | |- preserves _ (_retry_request _ _ _ _ _) => apply steady_retry_request
  | |- preserves _ (lift _) =>
      apply preserves_lift; [typeclasses eauto | lift_total]
  | _ => preserves_step
  end.

Section ClientSteady.

Variable server : Server.
Variable self : R2RClient.

Lemma steady_results_of (response : Response) :
  steady (results_of response).
Proof. unfold results_of. repeat steady_step. Qed.

Lemma steady_get_collection (name : string) :
  steady (get_collection server self name).
Proof.
  unfold get_collection, list_collections, results_of.
  repeat steady_step.
  apply preserves_for_returning; [typeclasses eauto | |];
    intros; repeat steady_step.
Qed.

Lemma steady_create_collection (name description : string) :
  steady (create_collection server self name description).
Proof.
  unfold create_collection.
  apply preserves_bind;
    [typeclasses eauto | apply steady_get_collection |].
  intros existing. unfold id_prefix, results_of. repeat steady_step.
Qed.

Lemma steady_upload_document (file_path : Path)
    (metadata collection_id document_id : pyval) :
  steady (upload_document server self file_path metadata collection_id
            document_id).
Proof.
  unfold upload_document, open_rb, results_of. repeat steady_step.
Qed.

Lemma steady_get_document (document_id : string) :
  steady (get_document server self document_id).
Proof. unfold get_document, results_of. repeat steady_step. Qed.

Lemma steady_pull_knowledge_graph (collection_id : string) (force : bool) :
  steady (pull_knowledge_graph server self collection_id force).
Proof. unfold pull_knowledge_graph, results_of. repeat steady_step. Qed.

Lemma steady_get_graph_entities (collection_id : string) (limit : Z) :
  steady (get_graph_entities server self collection_id limit).
Proof. unfold get_graph_entities, results_of. repeat steady_step. Qed.

Lemma steady_get_graph_relationships (collection_id : string) (limit : Z) :
  steady (get_graph_relationships server self collection_id limit).
Proof. unfold get_graph_relationships, results_of. repeat steady_step. Qed.

End ClientSteady.

(** ** Monitoring returns *)

(** A [try] whose handler catches every exception and returns. *)
Lemma try_except_any_returns {S A} (c : M S A) (h : exn -> M S A) :
  (forall s x s', c s = (x, s') -> x <> Raise NonTermination) ->
  (forall e s, exists a s', h e s = (Ok a, s')) ->
  forall s, exists a s', try_except c any_Exception h s = (Ok a, s').
Proof.
  intros Hc Hh s. unfold try_except.
  destruct (c s) as [[a | e] s1] eqn:E.
  - exists a, s1. reflexivity.
  - assert (He : any_Exception e = true).
    { destruct e; try reflexivity. exfalso. now apply (Hc _ _ _ E). }
    rewrite He. apply Hh.
Qed.

Section Monitoring.

Variable server : Server.
Variable self : R2RClient.

Lemma steady_poll_document (st : Statuses * bool) (doc_id : pyval) :
  steady (poll_document server self st doc_id).
Proof.
  unfold poll_document. destruct st as [statuses all_done].
  repeat steady_step;
    try (apply steady_get_document); repeat steady_step.
Qed.

(** Polling a document whose identifier is a string does not raise. *)
Lemma poll_document_returns (st : Statuses * bool) (id : string)
    (w : World) :
  exists st' w',
    poll_document server self st (PStr id) w = (Ok st', w')
    /\ clock_le w w'.
Proof.
  assert (Hok : exists st' w',
             poll_document server self st (PStr id) w = (Ok st', w')).
  { unfold poll_document. destruct st as [statuses all_done]. simpl negb.
    destruct (match statuses_get (PStr id) statuses with
              | Some status => is_terminal status
              | None => false
              end); [eexists; eexists; reflexivity |].
    apply try_except_any_returns.
    - intros s x s' E.
      match type of E with
      | ?c s = _ => assert (Hs : steady c)
      end.
      { repeat steady_step; try (apply steady_get_document);
          repeat steady_step. }
      exact (proj2 (Hs _ _ _ E)).
    - intros e s. eexists. eexists. reflexivity. }
  destruct Hok as [st' [w' E]]. exists st', w'. split; [exact E |].
  exact (proj1 (steady_poll_document st (PStr id) _ _ _ E)).
Qed.

Lemma poll_all_returns (ids : list pyval) :
  Forall is_str ids ->
  forall (st : Statuses * bool) (w : World),
    exists st' w',
      fold_m (poll_document server self) ids st w = (Ok st', w')
      /\ clock_le w w'.
Proof.
  induction 1 as [|v ids [id ->] _ IH]; intros st w; simpl.
  - exists st, w. split; reflexivity.
  - unfold bind.
    destruct (poll_document_returns st id w) as [st1 [w1 [E1 L1]]].
    rewrite E1.
    destruct (IH st1 w1) as [st2 [w2 [E2 L2]]].
    exists st2, w2. split; [exact E2 | now transitivity w1].
Qed.

Lemma Qlt_bool_true (a b : Q) : Qlt_bool a b = true -> (a < b)%Q.
Proof.
  unfold Qlt_bool. intros H. apply negb_true_iff in H.
  apply Qnot_le_lt. intros Hle. apply Qle_bool_iff in Hle. congruence.
Qed.

(** With a positive polling interval the rounds left always cover the
    time left, so the loop ends by its own condition. *)
Lemma wait_rounds_returns (ids : list pyval) (timeout poll_interval : Z)
    (start_time : Q) :
  Forall is_str ids ->
  0 < poll_interval ->
  forall (fuel : nat) (statuses : Statuses) (w : World),
    (inject_Z timeout - (now w - start_time)
     <= inject_Z poll_interval * inject_Z (Z.of_nat fuel))%Q ->
    exists st w',
      wait_rounds server fuel self ids timeout poll_interval start_time
        statuses w = (Ok st, w').
Proof.
  intros Hids Hpoll.
  assert (Hp : (0 < inject_Z poll_interval)%Q).
  { change 0%Q with (inject_Z 0). now rewrite <- Zlt_Qlt. }
  induction fuel as [|fuel IH]; intros statuses w Hleft.
  - simpl. unfold bind, time_time.
    destruct (Qlt_bool (now w - start_time) (inject_Z timeout)) eqn:C.
    + apply Qlt_bool_true in C. exfalso.
      change (inject_Z (Z.of_nat 0)) with 0%Q in Hleft. lra.
    + eexists. eexists. reflexivity.
  - cbn [wait_rounds]. unfold bind at 1. unfold time_time at 1.
    destruct (Qlt_bool (now w - start_time) (inject_Z timeout)) eqn:C.
    + unfold bind at 1.
      destruct (poll_all_returns ids Hids (statuses, true) w)
        as [[st1 all_done] [w1 [E1 L1]]].
      rewrite E1.
      destruct all_done; [eexists; eexists; reflexivity |].
      unfold bind, time_sleep.
      apply IH. unfold clock_le in L1. simpl.
      rewrite Nat2Z.inj_succ in Hleft. unfold Z.succ in Hleft.
      rewrite inject_Z_plus in Hleft.
      set (P := (inject_Z poll_interval * inject_Z (Z.of_nat fuel))%Q) in *.
      assert (Hmul : (inject_Z poll_interval
                      * (inject_Z (Z.of_nat fuel) + inject_Z 1)
                      == P + inject_Z poll_interval)%Q).
      { unfold P. change (inject_Z 1) with 1%Q. ring. }
      rewrite Hmul in Hleft. lra.
    + eexists. eexists. reflexivity.
Qed.

Lemma wait_for_ingestion_returns (ids : list pyval)
    (timeout poll_interval : Z) (w : World) :
  Forall is_str ids ->
  0 < poll_interval ->
  exists st w',
    wait_for_ingestion server self ids timeout poll_interval w
    = (Ok st, w').
Proof.
  intros Hids Hpoll. unfold wait_for_ingestion, bind, time_time.
  apply wait_rounds_returns; try assumption.
  rewrite <- inject_Z_mult.
  assert (Hz : timeout
               <= poll_interval
                  * Z.of_nat (S (Z.to_nat (timeout / poll_interval)))).
  { pose proof (Z.mul_succ_div_gt timeout poll_interval Hpoll) as Hgt.
    destruct (Z.le_gt_cases 0 (timeout / poll_interval)) as [Hq | Hq].
    - rewrite Nat2Z.inj_succ, Z2Nat.id by exact Hq. lia.
    - replace (Z.to_nat (timeout / poll_interval)) with 0%nat by lia.
      assert (timeout < 0).
      { destruct (Z.lt_ge_cases timeout 0) as [Hn | Hn]; [exact Hn |].
        pose proof (Z.div_pos timeout poll_interval Hn Hpoll). lia. }
      lia. }
  rewrite Zle_Qle in Hz.
  assert (Hzero : (now w - now w == 0)%Q) by ring.
  rewrite Hzero. lra.
Qed.

End Monitoring.

(** ** The upload loop *)

#[export] Instance same_counts_preorder : PreOrder same_counts.
Proof.
  split.
  - intros r. reflexivity.
  - intros r1 r2 r3 H12 H23. unfold same_counts in *. congruence.
Qed.

Lemma preserves_in_world {A} (c : M World A) :
  steady c -> preserves same_counts (in_world c).
Proof.
  intros Hc r x r' H. unfold in_world in H.
  destruct (c (world r)) as [y w'] eqn:E. injection H as <- <-.
  split; [reflexivity | exact (proj2 (Hc _ _ _ E))].
Qed.

Lemma preserves_update_stats (f : Stats -> Stats) :
  (forall st, (files_found (f st), files_uploaded (f st),
               files_failed (f st))
              = (files_found st, files_uploaded st, files_failed st)) ->
  preserves same_counts (update_stats f).
Proof.
  intros Hf r x r' H. injection H as <- <-.
  split; [apply Hf | discriminate].
Qed.

Lemma bind_ok {S A B} (c : M S A) (k : A -> M S B) (s s' : S) (a : A) :
  c s = (Ok a, s') -> bind c k s = k a s'.
Proof. intros H. unfold bind. now rewrite H. Qed.

Lemma in_world_ok {A} (c : M World A) (r : Run) (a : result A)
    (w' : World) :
  c (world r) = (a, w') ->
  in_world c r
  = (a, {| stats := stats r; document_ids := document_ids r;
           world := w' |}).
Proof. intros H. unfold in_world. now rewrite H. Qed.

Lemma for_each_app {S A} (xs ys : list A) (body : A -> M S unit) (s : S) :
  for_each (xs ++ ys) body s
  = bind (for_each xs body) (fun _ => for_each ys body) s.
Proof.
  revert s. induction xs as [|x xs IH]; intros s; simpl.
  - reflexivity.
  - unfold bind. destruct (body x s) as [[[] | e] s1].
    + rewrite IH. reflexivity.
    + reflexivity.
Qed.

Section UploadLoop.

Variable server : Server.
Variable build_metadata :
  list string -> Path -> string -> string -> string -> pyval -> result pyval.
Variable self : RepositoryLoader.
Variable file_filter : FileFilter.
Variables repo_url repo_name : string.
Variables commit_info collection_id : pyval.

Let document_id (f : Path) : pyval :=
  PStr (generate_document_id repo_url (get_relative_path file_filter f)).

Let iteration : Path -> M Run unit :=
  upload_iteration server build_metadata self file_filter repo_url
    repo_name commit_info collection_id.

Let metadata_built : Path -> Prop :=
  metadata_built build_metadata file_filter repo_url repo_name commit_info.

(** A round whose upload succeeds counts the file as uploaded, records
    its document identifier and sleeps the delay. *)
Lemma upload_iteration_succeeds (f : Path) (r : Run) :
  metadata_built f ->
  upload_succeeds server (client self) collection_id document_id f ->
  exists (id : string) (w1 : World),
    iteration f r
    = (Ok tt,
       {| stats := incr_files_uploaded (stats r);
          document_ids := document_ids r ++ [PStr id];
          world := slept (UPLOAD_DELAY_MS # 1000) w1 |}).
Proof.
  intros [md Hmd] Hup.
  destruct (Hup md (world r)) as [res [id [w1 [E Hid]]]].
  exists id, w1.
  unfold iteration, upload_iteration, upload_file, try_except.
  unfold bind at 1. unfold lift at 1. rewrite Hmd.
  unfold bind at 1. unfold document_id in E.
  rewrite (in_world_ok _ r _ _ E).
  unfold bind at 1. unfold lift at 1. rewrite Hid.
  reflexivity.
Qed.

(** A round whose upload raises counts the file as failed, and nothing
    else: it records no identifier and does not sleep. *)
Lemma upload_iteration_raises (f : Path) (r : Run) :
  metadata_built f ->
  upload_raises server (client self) collection_id document_id f ->
  exists w1 : World,
    iteration f r
    = (Ok tt,
       {| stats := incr_files_failed (stats r);
          document_ids := document_ids r;
          world := w1 |}).
Proof.
  intros [md Hmd] Hup.
  destruct (Hup md (world r)) as [e [w1 E]].
  exists w1.
  assert (He : any_Exception e = true).
  { destruct e; try reflexivity. exfalso.
    exact (proj2 (steady_upload_document server (client self) f md
                    collection_id (document_id f) _ _ _ E) eq_refl). }
  unfold iteration, upload_iteration, upload_file, try_except.
  unfold bind at 1. unfold lift at 1. rewrite Hmd.
  unfold bind at 1. unfold document_id in E.
  rewrite (in_world_ok _ r _ _ E). rewrite He. reflexivity.
Qed.

(** A run of rounds whose uploads all succeed *)
Lemma uploads_succeed (files : list Path) :
  Forall metadata_built files ->
  Forall (upload_succeeds server (client self) collection_id document_id)
    files ->
  forall r : Run,
    Forall is_str (document_ids r) ->
    exists r' : Run,
      for_each files iteration r = (Ok tt, r')
      /\ files_found (stats r') = files_found (stats r)
      /\ files_uploaded (stats r')
         = files_uploaded (stats r) + Z.of_nat (List.length files)
      /\ files_failed (stats r') = files_failed (stats r)
      /\ Forall is_str (document_ids r').
Proof.
  induction files as [|f files IH]; intros Hmd Hup r Hids.
  - exists r. simpl. repeat split; try lia. exact Hids.
  - apply Forall_cons_iff in Hmd. destruct Hmd as [Hmd Hmds].
    apply Forall_cons_iff in Hup. destruct Hup as [Hup Hups].
    destruct (upload_iteration_succeeds f r Hmd Hup) as [id [w1 E]].
    cbn [for_each]. rewrite (bind_ok _ _ _ _ _ E).
    match goal with
    | |- context [for_each files iteration ?r1] =>
        destruct (IH Hmds Hups r1) as [r' [E' [H1 [H2 [H3 H4]]]]]
    end.
    { simpl. apply Forall_app. split; [exact Hids |].
      constructor; [now exists id | constructor]. }
    exists r'. split; [exact E' |]. simpl in H1, H2, H3.
    rewrite H1, H2, H3. cbn [List.length].
    repeat split; try lia. exact H4.
Qed.

End UploadLoop.

(** A collection that [create_collection] returns has an [id] that can
    be sliced. *)
Lemma create_collection_id (server : Server) (self : R2RClient)
    (name description : string) (w w' : World) (collection : pyval) :
  create_collection server self name description w = (Ok collection, w') ->
  exists id prefix : pyval,
    Py.subscript collection "id" = Ok id
    /\ Py.slice_to 8 id = Ok prefix.
Proof.
  unfold create_collection, id_prefix, bind, lift, ret.
  destruct (get_collection server self name w) as [[existing | e] w1];
    [| discriminate].
  destruct (Py.truthy existing).
  - destruct (Py.subscript existing "id") as [id |] eqn:E1; [| discriminate].
    destruct (Py.slice_to 8 id) as [prefix |] eqn:E2; [| discriminate].
    intros H. injection H as <- <-. now exists id, prefix.
  - destruct (_retry_request _ _ _ _ _ w1) as [[response | e] w2];
      [| discriminate].
    destruct (results_of response w2) as [[result | e] w3];
      [| discriminate].
    destruct (Py.subscript result "id") as [id |] eqn:E1; [| discriminate].
    destruct (Py.slice_to 8 id) as [prefix |] eqn:E2; [| discriminate].
    intros H. injection H as <- <-. now exists id, prefix.
Qed.

Ltac run_step :=
  lazymatch goal with
  | |- preserves _ (in_world _) => apply preserves_in_world
  | |- preserves _ (update_stats _) =>
      apply preserves_update_stats; intros; reflexivity
  | |- steady (pull_knowledge_graph _ _ _ _) =>
      apply steady_pull_knowledge_graph
  | |- steady (get_graph_entities _ _ _ _) =>
      apply steady_get_graph_entities
  | |- steady (get_graph_relationships _ _ _ _) =>
      apply steady_get_graph_relationships
  | |- steady (time_sleep _) => apply steady_time_sleep
  | _ => steady_step
  end.

(** STEP 6 returns and leaves the three counters alone, whether the
    extraction works or not. *)
Lemma knowledge_graph_step (server : Server) (self : RepositoryLoader)
    (collection_id : pyval) (extract_kg : bool) (r : Run) :
  exists r' : Run,
    (if extract_kg then
       try_except (extract_knowledge_graph server self collection_id)
         any_Exception (fun e => ret tt)
     else ret tt) r = (Ok tt, r')
    /\ counts r' = counts r.
Proof.
  destruct extract_kg.
  - assert (Hp : preserves same_counts
                   (extract_knowledge_graph server self collection_id)).
    { unfold extract_knowledge_graph. repeat run_step. lra. }
    destruct (try_except_any_returns
                (extract_knowledge_graph server self collection_id)
                (fun _ => ret tt)) with (s := r) as [[] [r' E]].
    + intros s x s' H. exact (proj2 (Hp _ _ _ H)).
    + intros e s. now exists tt, s.
    + exists r'. split; [exact E |].
      assert (Ht : preserves same_counts
                     (try_except
                        (extract_knowledge_graph server self collection_id)
                        any_Exception (fun _ => ret tt))).
      { apply preserves_try_except; [typeclasses eauto | exact Hp |].
        intros e. apply preserves_ret. typeclasses eauto. }
      exact (proj1 (Ht _ _ _ E)).
  - exists r. split; reflexivity.
Qed.

(** C8: a run over five candidate files, the upload of exactly one of
    which raises while the other four succeed, does not abort:
    [load_repository] returns its statistics, with [files_found = 5],
    [files_uploaded = 4] and [files_failed = 1].  The run is one whose
    first steps (clone, commit information, collection) succeed. *)
Theorem one_failed_upload_of_five :
  forall (server : Server)
         (build_metadata :
            list string -> Path -> string -> string -> string -> pyval ->
            result pyval)
         (self : RepositoryLoader) (repo_url : string)
         (collection_name branch : option string)
         (update_if_exists extract_kg : bool) (quality_mode : string)
         (verbose : bool) (w w1 w2 w3 : World) (checkout : Checkout)
         (commit_info hash_short message collection : pyval)
         (before after : list Path) (failed : Path),
    let file_filter :=
      FileFilter_default (checkout_tree checkout)
        (checkout_path checkout) in
    let repo_name := last (checkout_path checkout) "" in
    let document_id := fun f : Path =>
      PStr (generate_document_id repo_url
              (get_relative_path file_filter f)) in
    (* the first three steps succeed *)
    clone_repository (git self) repo_url branch update_if_exists w
    = (Ok checkout, w1) ->
    get_commit_info (git self) checkout w1 = (Ok commit_info, w2) ->
    Py.subscript commit_info "hash_short" = Ok hash_short ->
    Py.subscript commit_info "message" = Ok message ->
    create_collection server (client self)
      (default_collection_name collection_name repo_name)
      ("Code repository: " ++ repo_url) w2
    = (Ok collection, w3) ->
    (* five candidate files *)
    filter_files file_filter (checkout_tree checkout) verbose
    = before ++ failed :: after ->
    List.length (before ++ failed :: after) = 5%nat ->
    Forall (metadata_built build_metadata file_filter repo_url repo_name
              commit_info) (before ++ failed :: after) ->
    (* the upload of one raises, the other four succeed *)
    (forall collection_id : pyval,
        Py.subscript collection "id" = Ok collection_id ->
        upload_raises server (client self) collection_id document_id failed
        /\ Forall (upload_succeeds server (client self) collection_id
                     document_id) (before ++ after)) ->
    exists (stats : Stats) (w' : World),
      load_repository server build_metadata self repo_url collection_name
        branch update_if_exists extract_kg quality_mode verbose w
      = (Ok stats, w')
      /\ files_found stats = 5
      /\ files_uploaded stats = 4
      /\ files_failed stats = 1.
Proof.
  intros server build_metadata self repo_url collection_name branch
         update_if_exists extract_kg quality_mode verbose w w1 w2 w3
         checkout commit_info hash_short message collection before after
         failed file_filter repo_name document_id
         Hclone Hcommit Hhash Hmessage Hcollection Hfiles Hfive Hmd Hup.
  destruct (create_collection_id _ _ _ _ _ _ _ Hcollection)
    as [collection_id [prefix [Hid Hprefix]]].
  destruct (Hup collection_id Hid) as [Hraises Hsucceed]. clear Hup.
  apply Forall_app in Hsucceed. destruct Hsucceed as [Hbefore Hafter].
  apply Forall_app in Hmd. destruct Hmd as [Hmd_before Hmd_rest].
  apply Forall_cons_iff in Hmd_rest.
  destruct Hmd_rest as [Hmd_failed Hmd_after].
  unfold load_repository.
  rewrite (bind_ok time_time _ w w (now w) eq_refl).
  unfold with_locals.
  set (r0 := {| stats := _; document_ids := []; world := w |}).
  (* STEP 1 *)
  rewrite (bind_ok _ _ _ _ _ (in_world_ok _ r0 _ _ Hclone)).
  set (r1 := {| stats := stats r0; document_ids := document_ids r0;
                world := w1 |}).
  rewrite (bind_ok _ _ _ _ _ (in_world_ok _ r1 _ _ Hcommit)).
  unfold lift at 1 2. rewrite Hhash, Hmessage.
  unfold bind at 1 2.
  (* STEP 2 *)
  fold file_filter. rewrite Hfiles.
  unfold bind at 1. unfold update_stats at 1.
  assert (Hne : forall (X : Type) (a b : X),
             match before ++ failed :: after with
             | [] => a
             | _ :: _ => b
             end = b).
  { intros X a b. destruct before; reflexivity. }
  rewrite Hne. clear Hne.
  (* STEP 3 *)
  fold repo_name.
  match goal with
  | |- context [bind (in_world (create_collection _ _ _ _)) _ ?r] =>
      set (r2 := r)
  end.
  rewrite (bind_ok _ _ _ _ _ (in_world_ok _ r2 _ _ Hcollection)).
  unfold lift at 1. rewrite Hid. unfold bind at 1.
  unfold bind at 1. unfold update_stats at 1.
  unfold lift at 1. rewrite Hprefix. unfold bind at 1.
  (* STEP 4 *)
  match goal with
  | |- context [bind (for_each _ ?body) _ ?r] =>
      set (iteration := body); set (r3 := r)
  end.
  destruct (uploads_succeed server build_metadata self file_filter
              repo_url repo_name commit_info collection_id before
              Hmd_before Hbefore r3 (Forall_nil _))
    as [r4 [E4 [F4 [U4 [X4 I4]]]]].
  destruct (upload_iteration_raises server build_metadata self file_filter
              repo_url repo_name commit_info collection_id failed r4
              Hmd_failed Hraises) as [w5 E5].
  match type of E5 with _ = (_, ?r) => set (r5 := r) in * end.
  destruct (uploads_succeed server build_metadata self file_filter
              repo_url repo_name commit_info collection_id after
              Hmd_after Hafter r5 I4)
    as [r6 [E6 [F6 [U6 [X6 I6]]]]].
  assert (Eloop : for_each (before ++ failed :: after) iteration r3
                  = (Ok tt, r6)).
  { rewrite for_each_app. subst iteration.
    rewrite (bind_ok _ _ _ _ _ E4). cbn [for_each].
    rewrite (bind_ok _ _ _ _ _ E5). exact E6. }
  rewrite (bind_ok _ _ _ _ _ Eloop).
  (* STEP 5 *)
  unfold bind at 1. unfold get_document_ids at 1.
  destruct (wait_for_ingestion_returns server (client self)
              (document_ids r6) 300 5 (world r6) I6 eq_refl)
    as [statuses [w7 E7]].
  rewrite (bind_ok _ _ _ _ _ (in_world_ok _ r6 _ _ E7)).
  (* STEP 6 *)
  match goal with
  | |- context [bind (if extract_kg then _ else _) _ ?r] => set (r7 := r)
  end.
  destruct (knowledge_graph_step server self collection_id extract_kg r7)
    as [r8 [E8 C8]].
  rewrite (bind_ok _ _ _ _ _ E8).
  (* SUMMARY *)
  eexists. eexists. split; [reflexivity |].
  unfold counts in C8. injection C8 as C8found C8up C8failed.
  cbn [stats files_found files_uploaded files_failed
       set_duration_seconds].
  rewrite C8found, C8up, C8failed. subst r7. cbn [stats].
  rewrite F6, U6, X6. subst r5. cbn [stats incr_files_failed
    files_found files_uploaded files_failed].
  rewrite F4, U4, X4. subst r3 r2 r1 r0.
  cbn [stats set_collection_id set_files_found
       files_found files_uploaded files_failed].
  rewrite length_app. cbn [List.length].
  rewrite length_app in Hfive. cbn [List.length] in Hfive.
  repeat split; lia.
Qed.

Lemma one_failed_upload_of_five_witness :
  let names := ["a.py"; "b.py"; "c.py"; "d.py"; "e.py"] in
  let rejected := [generate_document_id Demo.repo_url "c.py"] in
  exists (stats : Stats) (w' : World),
    Demo.run names rejected = (Ok stats, w')
    /\ files_found stats = 5
    /\ files_uploaded stats = 4
    /\ files_failed stats = 1.
Proof.
  intros names rejected. unfold Demo.run.
  refine (one_failed_upload_of_five (Demo.store rejected)
            Demo.build_metadata (Demo.loader names) Demo.repo_url
            None None false false "high" false
            initial_world initial_world initial_world
            (sent {| method := "GET";
                     url := "http://localhost:7272/v3/collections";
                     kwargs := [("headers", PDict [])] |} initial_world)
            (Demo.checkout names) Demo.commit_info
            (PStr "01234567") (PStr "initial")
            (PDict [("name", PStr "repo-demo");
                    ("id", PStr "c0ffee00-0000-4000-8000-000000000000")])
            [Demo.file "a.py"; Demo.file "b.py"]
            [Demo.file "d.py"; Demo.file "e.py"]
            (Demo.file "c.py")
            eq_refl eq_refl eq_refl eq_refl _ _ eq_refl _ _).
  - vm_compute. reflexivity.
  - vm_compute. reflexivity.
  - repeat constructor; eexists; reflexivity.
  - intros collection_id Hid. injection Hid as <-.
    split; [| repeat constructor]; intros metadata w.
    + eexists. eexists.
      match goal with
      | |- ?lhs = _ => let v := eval vm_compute in lhs in change lhs with v
      end.
      reflexivity.
    + eexists. eexists. eexists.
      match goal with
      | |- ?lhs = _ /\ _ =>
          let v := eval vm_compute in lhs in change lhs with v
      end.
      split; reflexivity.
    + eexists. eexists. eexists.
      match goal with
      | |- ?lhs = _ /\ _ =>
          let v := eval vm_compute in lhs in change lhs with v
      end.
      split; reflexivity.
    + eexists. eexists. eexists.
      match goal with
      | |- ?lhs = _ /\ _ =>
          let v := eval vm_compute in lhs in change lhs with v
      end.
      split; reflexivity.
    + eexists. eexists. eexists.
      match goal with
      | |- ?lhs = _ /\ _ =>
          let v := eval vm_compute in lhs in change lhs with v
      end.
      split; reflexivity.
Defined.

(** ** The delay between uploads *)

(** C4 fails on the code: the delay is slept at the end of the [try],
    after a successful upload only.  In a run over [a.py] and [b.py] in
    which the store rejects the upload of [a.py] with 404, the run sends
    the two upload requests with no sleep between them: the seconds
    slept between the two are 0, less than [UPLOAD_DELAY_MS / 1000].
    The only sleep of the run follows the upload of [b.py]. *)
Theorem no_delay_after_failed_upload :
  let names := ["a.py"; "b.py"] in
  let rejected := [generate_document_id Demo.repo_url "a.py"] in
  exists (stats : Stats) (w' : World),
    Demo.run names rejected = (Ok stats, w')
    /\ files_uploaded stats = 1
    /\ files_failed stats = 1
    /\ List.length (filter
                      (fun ev => match ev with
                                 | EvRequest req =>
                                     is_upload_request Demo.self req
                                 | EvSleep _ => false
                                 end) (events w')) = 2%nat
    /\ upload_gaps Demo.self None (events w') = [0%Q]
    /\ sleeps (events w') = [UPLOAD_DELAY_MS # 1000]
    /\ (0 < UPLOAD_DELAY_MS # 1000)%Q.
Proof.
  intros names rejected.
  destruct (Demo.run names rejected) as [[stats | e] w'] eqn:E;
    vm_compute in E; [| discriminate E].
  injection E as <- <-.
  eexists. eexists. split; [reflexivity |].
  vm_compute. repeat split; intros; discriminate.
Qed.

(** * Further properties of the code *)

(** ** The transport, whatever the server does *)

(** One attempt makes exactly one call; it returns a success response,
    goes on, or raises [R2RClientError]; it sleeps at most
    [2 ^ k * API_RETRY_BACKOFF] seconds. *)
Lemma retry_attempt_effect (server : Server) (req : Request) (k : Z)
    (w : World) :
  0 <= k ->
  exists (x : result (option Response)) (w1 : World),
    retry_attempt server req k w = (x, w1)
    /\ calls w1 = S (calls w)
    /\ (now w <= now w1 <= now w + inject_Z (2 ^ k * API_RETRY_BACKOFF))%Q
    /\ match x with
       | Ok (Some r) => In (status_code r) [200; 201; 202]
       | Ok None => True
       | Raise e => exists msg : string, e = R2RClientError msg
       end.
Proof.
  intros Hk.
  assert (H1 : (0 <= inject_Z (2 ^ k))%Q) by apply pow2_seconds_nonneg.
  assert (H2 : (inject_Z (2 ^ k)
                <= inject_Z (2 ^ k * API_RETRY_BACKOFF))%Q).
  { rewrite <- Zle_Qle. unfold API_RETRY_BACKOFF.
    pose proof (Z.pow_nonneg 2 k ltac:(lia)). lia. }
  destruct (server (calls w) req) as [r | msg] eqn:E.
  - rewrite (retry_attempt_responds server req k w r E).
    destruct (in_list (status_code r) [200; 201; 202]) eqn:Es.
    { eexists. eexists. split; [reflexivity |]. split; [reflexivity |].
      split; [simpl; lra | now apply in_list_spec]. }
    destruct (status_code r =? 429).
    { eexists. eexists. split; [reflexivity |]. split; [reflexivity |].
      split; [simpl; lra | exact I]. }
    destruct ((400 <=? status_code r) && (status_code r <? 500)).
    { eexists. eexists. split; [reflexivity |]. split; [reflexivity |].
      split; [simpl; lra | eexists; reflexivity]. }
    destruct (status_code r >=? 500);
      (eexists; eexists; split; [reflexivity |]; split; [reflexivity |];
       split; [simpl; lra | exact I]).
  - rewrite (retry_attempt_fails server req k w msg E).
    destruct (k =? API_RETRY_ATTEMPTS - 1);
      (eexists; eexists; split; [reflexivity |]; split; [reflexivity |];
       split; [simpl; lra |]); [eexists; reflexivity | exact I].
Qed.

(** [_retry_request] is bounded, whatever the server answers: it makes
    at least one and at most [API_RETRY_ATTEMPTS] calls and sleeps at
    most 14 seconds (2 + 4 + 8) in all. *)
Theorem retry_request_is_bounded :
  forall (server : Server) (self : R2RClient) (method url : string)
         (kwargs : list (string * pyval)) (w : World),
    let w' := snd (_retry_request server self method url kwargs w) in
    (calls w < calls w' <= calls w + Z.to_nat API_RETRY_ATTEMPTS)%nat
    /\ (now w <= now w' <= now w + 14)%Q.
Proof.
  intros server self method url kwargs w. cbv zeta.
  unfold _retry_request. rewrite range_attempts.
  set (req := {| method := method; url := url; kwargs := kwargs |}).
  change (Z.to_nat API_RETRY_ATTEMPTS) with 3%nat.
  destruct (retry_attempt_effect server req 0 w ltac:(lia))
    as [x0 [w0 [E0 [C0 [T0 _]]]]].
  rewrite retry_loop_cons, E0.
  change (inject_Z (2 ^ 0 * API_RETRY_BACKOFF)) with 2%Q in T0.
  destruct x0 as [[r |] | e]; cbn [snd]; [split; [lia | lra] | |
    split; [lia | lra]].
  destruct (retry_attempt_effect server req 1 w0 ltac:(lia))
    as [x1 [w1 [E1 [C1 [T1 _]]]]].
  rewrite retry_loop_cons, E1.
  change (inject_Z (2 ^ 1 * API_RETRY_BACKOFF)) with 4%Q in T1.
  destruct x1 as [[r |] | e]; cbn [snd]; [split; [lia | lra] | |
    split; [lia | lra]].
  destruct (retry_attempt_effect server req 2 w1 ltac:(lia))
    as [x2 [w2 [E2 [C2 [T2 _]]]]].
  rewrite retry_loop_cons, E2.
  change (inject_Z (2 ^ 2 * API_RETRY_BACKOFF)) with 8%Q in T2.
  destruct x2 as [[r |] | e]; unfold retry_loop, for_returning, raise;
    cbn [snd]; split; try lia; lra.
Qed.

(** [_retry_request] returns a response only when its status code is
    200, 201 or 202; every exception it raises is an [R2RClientError]:
    a [requests.RequestException] never escapes. *)
Theorem retry_request_returns_success_or_client_error :
  forall (server : Server) (self : R2RClient) (method url : string)
         (kwargs : list (string * pyval)) (w : World),
    match fst (_retry_request server self method url kwargs w) with
    | Ok r => In (status_code r) [200; 201; 202]
    | Raise e => exists msg : string, e = R2RClientError msg
    end.
Proof.
  intros server self method url kwargs w.
  unfold _retry_request. rewrite range_attempts.
  set (req := {| method := method; url := url; kwargs := kwargs |}).
  destruct (retry_attempt_effect server req 0 w ltac:(lia))
    as [x0 [w0 [E0 [_ [_ R0]]]]].
  rewrite retry_loop_cons, E0.
  destruct x0 as [[r |] | e]; cbn [fst]; [exact R0 | | exact R0].
  destruct (retry_attempt_effect server req 1 w0 ltac:(lia))
    as [x1 [w1 [E1 [_ [_ R1]]]]].
  rewrite retry_loop_cons, E1.
  destruct x1 as [[r |] | e]; cbn [fst]; [exact R1 | | exact R1].
  destruct (retry_attempt_effect server req 2 w1 ltac:(lia))
    as [x2 [w2 [E2 [_ [_ R2]]]]].
  rewrite retry_loop_cons, E2.
  destruct x2 as [[r |] | e]; unfold retry_loop, for_returning, raise;
    cbn [fst]; [exact R2 | | exact R2].
  eexists. reflexivity.
Qed.

(** After fewer than [API_RETRY_ATTEMPTS] retryable outcomes (429, 5xx,
    transport failures, statuses that are no success and no 4xx) a
    success response is returned: [_retry_request] hides the failures
    from its caller. *)
Theorem retry_request_recovers :
  forall (server : Server) (self : R2RClient) (method url : string)
         (kwargs : list (string * pyval)) (w : World) (n : nat)
         (r : Response),
    let req := {| method := method; url := url; kwargs := kwargs |} in
    (n < Z.to_nat API_RETRY_ATTEMPTS)%nat ->
    (forall i : nat,
        (i < n)%nat -> is_retryable (server (calls w + i)%nat req) = true) ->
    server (calls w + n)%nat req = Responds r ->
    In (status_code r) [200; 201; 202] ->
    exists w' : World,
      _retry_request server self method url kwargs w = (Ok r, w')
      /\ calls w' = (calls w + n + 1)%nat.
Proof.
  intros server self method url kwargs w n r req Hn Hretry Hr Hs.
  change (Z.to_nat API_RETRY_ATTEMPTS) with 3%nat in Hn.
  unfold _retry_request. fold req. rewrite range_attempts.
  destruct n as [|n].
  { rewrite Nat.add_0_r in Hr.
    rewrite (success_returns_immediately_aux server req 0 _ w r Hr Hs).
    eexists. split; [reflexivity | simpl; lia]. }
  pose proof (Hretry 0%nat ltac:(lia)) as H0.
  rewrite Nat.add_0_r in H0.
  destruct (retry_attempt_retryable server req 0 w H0)
    as [w1 [C1 [E1 | [K1 _]]]]; [| discriminate K1].
  rewrite retry_loop_cons, E1.
  destruct n as [|n].
  { replace (calls w + 1)%nat with (calls w1) in Hr by lia.
    rewrite (success_returns_immediately_aux server req 1 _ w1 r Hr Hs).
    eexists. split; [reflexivity | simpl; lia]. }
  pose proof (Hretry 1%nat ltac:(lia)) as H1.
  replace (calls w + 1)%nat with (calls w1) in H1 by lia.
  destruct (retry_attempt_retryable server req 1 w1 H1)
    as [w2 [C2 [E2 | [K2 _]]]]; [| discriminate K2].
  rewrite retry_loop_cons, E2.
  destruct n as [|n]; [| lia].
  replace (calls w + 2)%nat with (calls w2) in Hr by lia.
  rewrite (success_returns_immediately_aux server req 2 _ w2 r Hr Hs).
  eexists. split; [reflexivity | simpl; lia].
Qed.

Lemma retry_request_recovers_witness :
  let server : Server :=
    fun n _ =>
      match n with
      | O => Fails "connection reset"
      | S O => Responds {| status_code := 503; text := "busy"; json := None |}
      | _ => Responds {| status_code := 201; text := "made"; json := None |}
      end in
  let self := {| api_url := "http://localhost:7272"; token := None;
                 headers := [] |} in
  exists w' : World,
    _retry_request server self "POST" "u" [] initial_world
    = (Ok {| status_code := 201; text := "made"; json := None |}, w')
    /\ calls w' = 3%nat.
Proof.
  intros server self.
  refine (retry_request_recovers server self "POST" "u" [] initial_world
            2%nat _ _ _ eq_refl _).
  - simpl. lia.
  - intros i Hi. destruct i as [|[|i]]; [reflexivity | reflexivity | lia].
  - simpl. tauto.
Defined.

Lemma retry_loop_server_error (server : Server) (req : Request) (k : Z)
    (rest : list Z) (w : World) (r : Response) :
  server (calls w) req = Responds r ->
  500 <= status_code r ->
  retry_loop server req (k :: rest) w
  = retry_loop server req rest (slept (inject_Z (2 ^ k)) (sent req w)).
Proof.
  intros Hr Hs.
  rewrite retry_loop_cons, (retry_attempt_responds server req k w r Hr).
  replace (in_list (status_code r) [200; 201; 202]) with false.
  2: { symmetry. unfold in_list. simpl.
       destruct (Z.eqb_spec (status_code r) 200); [lia |].
       destruct (Z.eqb_spec (status_code r) 201); [lia |].
       destruct (Z.eqb_spec (status_code r) 202); [lia | reflexivity]. }
  destruct (Z.eqb_spec (status_code r) 429); [lia |].
  replace ((400 <=? status_code r) && (status_code r <? 500)) with false.
  2: { symmetry. apply andb_false_iff. right. apply Z.ltb_ge. lia. }
  replace (status_code r >=? 500) with true; [reflexivity |].
  symmetry. apply Z.geb_le. lia.
Qed.

(** A 5xx response at attempt [k] sleeps [2 ^ k] seconds (the backoff
    multiplier is not applied) and the loop goes on.  A server that
    answers 5xx to every call is asked [API_RETRY_ATTEMPTS] times; the
    run sleeps 1, 2 and 4 seconds, the last sleep after the last
    attempt, and raises "Failed after 3 attempts". *)
Theorem server_error_backoff_schedule :
  (forall (server : Server) (req : Request) (k : Z) (rest : list Z)
          (w : World) (r : Response),
      server (calls w) req = Responds r ->
      500 <= status_code r ->
      retry_loop server req (k :: rest) w
      = retry_loop server req rest (slept (inject_Z (2 ^ k)) (sent req w)))
  /\ (forall (server : Server) (self : R2RClient) (method url : string)
             (kwargs : list (string * pyval)) (w : World),
        let req := {| method := method; url := url; kwargs := kwargs |} in
        (forall i : nat,
            exists r, server i req = Responds r /\ 500 <= status_code r) ->
        exists w' : World,
          _retry_request server self method url kwargs w
          = (Raise (R2RClientError "Failed after 3 attempts"), w')
          /\ calls w' = (calls w + 3)%nat
          /\ sleeps (events w')
             = sleeps (events w) ++ [inject_Z 1; inject_Z 2; inject_Z 4]).
Proof.
  split; [exact retry_loop_server_error |].
  intros server self method url kwargs w req Hall.
  unfold _retry_request. fold req. rewrite range_attempts.
  destruct (Hall (calls w)) as [r1 [H1 S1]].
  rewrite (retry_loop_server_error server req 0 _ w r1 H1 S1).
  set (w1 := slept _ (sent req w)).
  destruct (Hall (S (calls w))) as [r2 [H2 S2]].
  rewrite (retry_loop_server_error server req 1 _ w1 r2 H2 S2).
  set (w2 := slept _ (sent req w1)).
  destruct (Hall (S (S (calls w)))) as [r3 [H3 S3]].
  rewrite (retry_loop_server_error server req 2 _ w2 r3 H3 S3).
  subst w2 w1. eexists. split; [reflexivity |].
  split; [simpl; lia |].
  simpl events. rewrite !sleeps_app, <- !app_assoc. reflexivity.
Qed.

Lemma server_error_backoff_schedule_witness :
  let server : Server :=
    fun _ _ => Responds {| status_code := 500; text := "boom"; json := None |} in
  let self := {| api_url := "http://localhost:7272"; token := None;
                 headers := [] |} in
  exists w' : World,
    _retry_request server self "GET" "u" [] initial_world
    = (Raise (R2RClientError "Failed after 3 attempts"), w')
    /\ calls w' = 3%nat
    /\ sleeps (events w') = [inject_Z 1; inject_Z 2; inject_Z 4].
Proof.
  intros server self.
  refine (proj2 server_error_backoff_schedule server self "GET" "u" []
            initial_world _).
  intros i. eexists. split; [reflexivity | simpl; lia].
Defined.

Lemma retry_loop_transport_failure (server : Server) (req : Request)
    (k : Z) (rest : list Z) (w : World) (msg : string) :
  server (calls w) req = Fails msg ->
  retry_loop server req (k :: rest) w
  = if k =? API_RETRY_ATTEMPTS - 1 then
      (Raise (R2RClientError
                ("Request failed after 3 attempts: " ++ msg)%string),
       sent req w)
    else retry_loop server req rest (slept (inject_Z (2 ^ k)) (sent req w)).
Proof.
  intros H.
  rewrite retry_loop_cons, (retry_attempt_fails server req k w msg H).
  destruct (k =? API_RETRY_ATTEMPTS - 1); reflexivity.
Qed.

(** A transport-level failure ([requests.RequestException]) at an attempt
    that is not the last sleeps [2 ^ k] seconds and the loop goes on; at
    the last attempt it raises at once, without sleeping, and the message
    carries the text of that last failure.  When every call fails, the
    run makes three calls and sleeps 1 and 2 seconds. *)
Theorem transport_failure_schedule :
  forall (server : Server) (self : R2RClient) (method url : string)
         (kwargs : list (string * pyval)) (w : World) (m0 m1 m2 : string),
    let req := {| method := method; url := url; kwargs := kwargs |} in
    server (calls w) req = Fails m0 ->
    server (S (calls w)) req = Fails m1 ->
    server (S (S (calls w))) req = Fails m2 ->
    exists w' : World,
      _retry_request server self method url kwargs w
      = (Raise (R2RClientError
                  ("Request failed after 3 attempts: " ++ m2)%string), w')
      /\ calls w' = (calls w + 3)%nat
      /\ events w'
         = events w ++ [EvRequest req; EvSleep (inject_Z 1); EvRequest req;
                        EvSleep (inject_Z 2); EvRequest req].
Proof.
  intros server self method url kwargs w m0 m1 m2 req H0 H1 H2.
  unfold _retry_request. fold req. rewrite range_attempts.
  rewrite (retry_loop_transport_failure server req 0 _ w m0 H0).
  change (0 =? API_RETRY_ATTEMPTS - 1) with false. cbv iota.
  set (w1 := slept _ (sent req w)).
  rewrite (retry_loop_transport_failure server req 1 _ w1 m1 H1).
  change (1 =? API_RETRY_ATTEMPTS - 1) with false. cbv iota.
  set (w2 := slept _ (sent req w1)).
  rewrite (retry_loop_transport_failure server req 2 _ w2 m2 H2).
  change (2 =? API_RETRY_ATTEMPTS - 1) with true. cbv iota.
  subst w2 w1. eexists. split; [reflexivity |].
  split; [simpl; lia |].
  simpl. rewrite <- !app_assoc. reflexivity.
Qed.

Lemma transport_failure_schedule_witness :
  let server : Server :=
    fun n _ =>
      match n with
      | O => Fails "timeout"
      | S O => Fails "connection reset"
      | _ => Fails "name resolution failed"
      end in
  let self := {| api_url := "http://localhost:7272"; token := None;
                 headers := [] |} in
  exists w' : World,
    _retry_request server self "GET" "u" [] initial_world
    = (Raise (R2RClientError
                "Request failed after 3 attempts: name resolution failed"),
       w')
    /\ calls w' = 3%nat
    /\ events w'
       = [EvRequest {| method := "GET"; url := "u"; kwargs := [] |};
          EvSleep (inject_Z 1);
          EvRequest {| method := "GET"; url := "u"; kwargs := [] |};
          EvSleep (inject_Z 2);
          EvRequest {| method := "GET"; url := "u"; kwargs := [] |}].
Proof.
  intros server self.
  exact (transport_failure_schedule server self "GET" "u" [] initial_world
           "timeout" "connection reset" "name resolution failed"
           eq_refl eq_refl eq_refl).
Defined.

(** ** File selection, in full *)

Lemma filter_step_selects (self : FileFilter) (st : FilterState)
    (p : Path) :
  valid_files (filter_step self st p)
  = if selects self p then valid_files st ++ [p] else valid_files st.
Proof.
  unfold filter_step, selects.
  destruct (is_dir p); [reflexivity |].
  destruct (is_symlink p); [reflexivity |].
  destruct (_is_ignored self p); [reflexivity |].
  destruct (_is_supported_file self p); [| reflexivity].
  destruct (_is_size_ok self p); reflexivity.
Qed.

Lemma fold_filter_step_selects (self : FileFilter) (paths : list Path) :
  forall st : FilterState,
    valid_files (fold_left (filter_step self) paths st)
    = valid_files st ++ filter (selects self) paths.
Proof.
  induction paths as [|p paths IH]; intros st; simpl.
  - now rewrite app_nil_r.
  - rewrite IH, filter_step_selects.
    destruct (selects self p); [now rewrite <- app_assoc | reflexivity].
Qed.

Lemma filter_files_keeps_the_candidates_in_order_aux (self : FileFilter)
    (tree : Tree) (verbose : bool) :
  filter_files self tree verbose = filter (selects self) (rglob tree).
Proof.
  unfold filter_files, filter_loop. now rewrite fold_filter_step_selects.
Qed.

(** [filter_files] returns exactly the paths of the traversal that are
    no directory, no symbolic link, not ignored, of a supported extension
    and within the size limit, in the order of the traversal: nothing is
    reordered, repeated or lost. *)
Theorem filter_files_keeps_the_candidates_in_order :
  forall (self : FileFilter) (tree : Tree) (verbose : bool),
    filter_files self tree verbose = filter (selects self) (rglob tree).
Proof.
  intros self tree verbose. unfold filter_files, filter_loop.
  now rewrite fold_filter_step_selects.
Qed.

Lemma filter_step_accounts (self : FileFilter) (st : FilterState)
    (p : Path) :
  let st' := filter_step self st p in
  Z.of_nat (List.length (valid_files st')) + skipped_ignored st'
  + skipped_extension st' + skipped_size st'
  = Z.of_nat (List.length (valid_files st)) + skipped_ignored st
    + skipped_extension st + skipped_size st
    + (if is_dir p then 0 else 1).
Proof.
  unfold filter_step.
  destruct (is_dir p); [simpl; lia |].
  destruct (is_symlink p); [simpl; lia |].
  destruct (_is_ignored self p); [simpl; lia |].
  destruct (_is_supported_file self p); [| simpl; lia].
  destruct (_is_size_ok self p); simpl; [| lia].
  rewrite length_app. simpl. lia.
Qed.

(** The counters of [filter_files] account for every entry of the
    traversal that is no directory: it is kept, or counted as ignored
    (symbolic links too), unsupported or too large, and never twice. *)
Theorem filter_counters_account_for_every_file :
  forall (self : FileFilter) (tree : Tree),
    let st := filter_loop self tree in
    Z.of_nat (List.length (valid_files st)) + skipped_ignored st
    + skipped_extension st + skipped_size st
    = Z.of_nat (List.length
                  (filter (fun p => negb (is_dir p)) (rglob tree)))
    /\ 0 <= skipped_ignored st
    /\ 0 <= skipped_extension st
    /\ 0 <= skipped_size st.
Proof.
  intros self tree. cbv zeta. unfold filter_loop.
  assert (H : forall paths st,
             0 <= skipped_ignored st -> 0 <= skipped_extension st ->
             0 <= skipped_size st ->
             let st' := fold_left (filter_step self) paths st in
             Z.of_nat (List.length (valid_files st')) + skipped_ignored st'
             + skipped_extension st' + skipped_size st'
             = Z.of_nat (List.length (valid_files st)) + skipped_ignored st
               + skipped_extension st + skipped_size st
               + Z.of_nat (List.length
                             (filter (fun p => negb (is_dir p)) paths))
             /\ 0 <= skipped_ignored st'
             /\ 0 <= skipped_extension st'
             /\ 0 <= skipped_size st').
  { induction paths as [|p paths IH]; intros st Hi He Hs; cbv zeta.
    - simpl. repeat split; lia.
    - cbn [fold_left filter].
      pose proof (filter_step_accounts self st p) as Hstep.
      cbv zeta in Hstep.
      assert (Hnn : 0 <= skipped_ignored (filter_step self st p)
                    /\ 0 <= skipped_extension (filter_step self st p)
                    /\ 0 <= skipped_size (filter_step self st p)).
      { unfold filter_step.
        destruct (is_dir p); [simpl; lia |].
        destruct (is_symlink p); [simpl; lia |].
        destruct (_is_ignored self p); [simpl; lia |].
        destruct (_is_supported_file self p); [| simpl; lia].
        destruct (_is_size_ok self p); simpl; lia. }
      destruct Hnn as [Hi' [He' Hs']].
      destruct (IH (filter_step self st p) Hi' He' Hs') as [IH1 IH2].
      split; [| exact IH2].
      rewrite IH1, Hstep.
      destruct (is_dir p); cbn [negb List.length]; lia. }
  specialize (H (rglob tree) filter_start).
  cbv zeta in H. simpl (skipped_ignored filter_start) in H.
  destruct H as [H1 H2]; try (simpl; lia).
  split; [| exact H2]. rewrite H1. simpl. lia.
Qed.

(** *** Ignore patterns *)




(** A pattern without special characters matches its own text only. *)
Lemma translate_plain (pat : string) :
  forall fuel : nat,
    (String.length pat < fuel)%nat ->
    plain pat = true ->
    Fnmatch.translate fuel pat
    = map Fnmatch.Char (list_ascii_of_string pat).
Proof.
  induction pat as [|c pat IH]; intros fuel Hfuel Hplain.
  - destruct fuel; reflexivity.
  - destruct fuel as [|fuel]; [simpl in Hfuel; lia |].
    simpl in Hplain.
    apply andb_true_iff in Hplain. destruct Hplain as [Hc Hrest].
    apply andb_true_iff in Hc. destruct Hc as [Hc H3].
    apply andb_true_iff in Hc. destruct Hc as [H1 H2].
    apply negb_true_iff in H1, H2, H3.
    cbn [Fnmatch.translate list_ascii_of_string map].
    rewrite H1, H2, H3. f_equal. apply IH; [simpl in Hfuel; lia | exact Hrest].
Qed.

Lemma tokens_match_chars (l : list ascii) (s : string) :
  Fnmatch.tokens_match (map Fnmatch.Char l) s
  = String.eqb s (string_of_list_ascii l).
Proof.
  revert s. induction l as [|c l IH]; intros s; simpl.
  - destruct s; reflexivity.
  - destruct s as [|x s]; [reflexivity |].
    rewrite IH. simpl. reflexivity.
Qed.

Lemma fnmatch_plain (nm pat : string) :
  plain pat = true ->
  Fnmatch.fnmatch nm pat = String.eqb nm pat.
Proof.
  intros Hplain. unfold Fnmatch.fnmatch.
  rewrite translate_plain by (try lia; exact Hplain).
  rewrite tokens_match_chars.
  now rewrite string_of_list_ascii_of_string.
Qed.

(** *** Splitting and joining *)

Lemma split_no_separator (sep : ascii) (s : string) :
  PyText.contains sep s = false -> PyStr.split sep s = [s].
Proof.
  induction s as [|c s IH]; intros H; simpl; [reflexivity |].
  simpl in H. apply orb_false_iff in H. destruct H as [Hc Hs].
  rewrite Hc, (IH Hs). reflexivity.
Qed.

Lemma split_append_separator (sep : ascii) (x s : string) :
  PyText.contains sep x = false ->
  PyStr.split sep (x ++ String sep s) = x :: PyStr.split sep s.
Proof.
  induction x as [|c x IH]; intros H; simpl.
  - now rewrite Ascii.eqb_refl.
  - simpl in H. apply orb_false_iff in H. destruct H as [Hc Hx].
    rewrite Hc, (IH Hx). reflexivity.
Qed.

(** [sep.join(l).split(sep)] gives [l] back when no element holds the
    separator and [l] is not empty. *)
Lemma split_join (l : list string) :
  l <> [] -> components l -> PyStr.split "/" (PyStr.join "/" l) = l.
Proof.
  induction l as [|x l IH]; intros Hne Hl; [congruence |].
  apply Forall_cons_iff in Hl. destruct Hl as [Hx Hl].
  destruct l as [|y l].
  - simpl. now apply split_no_separator.
  - change (PyStr.join "/" (x :: y :: l))
      with (x ++ String "/" (PyStr.join "/" (y :: l)))%string.
    rewrite split_append_separator by exact Hx.
    f_equal. apply IH; [discriminate | exact Hl].
Qed.

Lemma strip_prefix_app (root l rel : list string) :
  strip_prefix root l = Some rel -> l = root ++ rel.
Proof.
  revert l. induction root as [|r root IH]; intros l H; simpl in H.
  - injection H as <-. reflexivity.
  - destruct l as [|x l]; [discriminate |].
    destruct (String.eqb_spec r x) as [-> | _]; [| discriminate].
    simpl. f_equal. now apply IH.
Qed.

(** [get_relative_path] loses nothing: for a path below the repository
    root, the root's components followed by the components of the
    relative path, split at the separator, are the path. *)
Theorem relative_path_round_trip :
  forall (self : FileFilter) (p : Path) (rel : list string),
    relative_to p (repo_path self) = Some rel ->
    rel <> [] ->
    components rel ->
    get_relative_path self p = PyStr.join "/" rel
    /\ repo_path self ++ PyStr.split "/" (get_relative_path self p)
       = parts p.
Proof.
  intros self p rel Hrel Hne Hc.
  unfold get_relative_path. rewrite Hrel.
  assert (Hs : str_relative rel = PyStr.join "/" rel).
  { destruct rel; [congruence | reflexivity]. }
  rewrite Hs. split; [reflexivity |].
  rewrite split_join by assumption.
  symmetry. now apply strip_prefix_app.
Qed.

Lemma relative_path_round_trip_witness :
  let p := {| parts := ["repos"; "demo"; "src"; "main.py"];
              is_dir := false; is_symlink := false; st_size := Some 10;
              can_open := true |} in
  let self := FileFilter_default {| gitignore := None; rglob := [p] |}
                ["repos"; "demo"] in
  get_relative_path self p = "src/main.py"
  /\ repo_path self ++ PyStr.split "/" (get_relative_path self p)
     = parts p.
Proof.
  intros p self.
  refine (relative_path_round_trip self p ["src"; "main.py"] eq_refl _ _).
  - discriminate.
  - repeat constructor.
Defined.

(** A path below the repository root is ignored as soon as one of its
    components (a directory on the way, or the file name) is equal to a
    pattern without special characters, even when its extension is
    supported. *)
Theorem path_with_an_excluded_component_is_ignored :
  forall (self : FileFilter) (p : Path) (rel : list string)
         (pattern : string),
    relative_to p (repo_path self) = Some rel ->
    components rel ->
    In pattern (ignore_patterns self) ->
    plain pattern = true ->
    In pattern rel ->
    _is_ignored self p = true
    /\ forall (tree : Tree) (verbose : bool),
         ~ In p (filter_files self tree verbose).
Proof.
  intros self p rel pattern Hrel Hc Hpat Hplain Hin.
  assert (Hig : _is_ignored self p = true).
  { unfold _is_ignored. rewrite Hrel.
    apply existsb_exists. exists pattern. split; [exact Hpat |].
    unfold pattern_ignores.
    assert (Hs : str_relative rel = PyStr.join "/" rel).
    { destruct rel; [contradiction | reflexivity]. }
    rewrite Hs, split_join; [| intros ->; contradiction | exact Hc].
    apply orb_true_iff. right.
    apply existsb_exists. exists pattern. split; [exact Hin |].
    rewrite fnmatch_plain by exact Hplain. apply String.eqb_refl. }
  split; [exact Hig |].
  intros tree verbose Hsel.
  rewrite filter_files_keeps_the_candidates_in_order_aux in Hsel.
  apply filter_In in Hsel. destruct Hsel as [_ Hsel].
  unfold selects in Hsel. rewrite Hig in Hsel.
  rewrite !andb_false_r in Hsel.
  destruct (negb (is_dir p) && negb (is_symlink p)); discriminate.
Qed.

Lemma path_with_an_excluded_component_is_ignored_witness :
  let p := {| parts := ["repo"; "build"; "output.js"]; is_dir := false;
              is_symlink := false; st_size := Some 10;
              can_open := true |} in
  let tree := {| gitignore := None; rglob := [p] |} in
  let self := FileFilter_default tree ["repo"] in
  _is_supported_file self p = true
  /\ _is_ignored self p = true
  /\ ~ In p (filter_files self tree false).
Proof.
  intros p tree self.
  split; [reflexivity |].
  destruct (path_with_an_excluded_component_is_ignored self p
              ["build"; "output.js"] "build") as [H1 H2].
  - reflexivity.
  - repeat constructor.
  - vm_compute. tauto.
  - reflexivity.
  - simpl. tauto.
  - split; [exact H1 | apply H2].
Defined.

(** *** Languages *)

Lemma dict_get_in {V} (k : string) (d : list (string * V)) (default : V) :
  dict_has k d = true -> In (k, dict_get k d default) d.
Proof.
  induction d as [|[k' v] d IH]; intros H; simpl in *; [discriminate |].
  destruct (String.eqb_spec k' k) as [-> | Hne].
  - now left.
  - right. apply IH. exact H.
Qed.

(** Every file that [filter_files] returns has a language: the one
    that the extension table holds for its suffix.  With the table of
    [config.py] it is never 'unknown'. *)
Theorem selected_files_have_a_language :
  (forall (self : FileFilter) (tree : Tree) (verbose : bool) (p : Path),
      In p (filter_files self tree verbose) ->
      In (suffix p, get_file_language self p) (extensions self))
  /\ (forall (tree : Tree) (root : list string) (verbose : bool)
             (p : Path),
        In p (filter_files (FileFilter_default tree root) tree verbose) ->
        get_file_language (FileFilter_default tree root) p <> "unknown").
Proof.
  assert (Hgen : forall self tree verbose p,
             In p (filter_files self tree verbose) ->
             In (suffix p, get_file_language self p) (extensions self)).
  { intros self tree verbose p Hin.
    pose proof (filter_files_sound self tree verbose) as Hall.
    rewrite Forall_forall in Hall.
    destruct (Hall p Hin) as [_ [_ [_ [Hsup _]]]].
    unfold get_file_language. now apply dict_get_in. }
  split; [exact Hgen |].
  intros tree root verbose p Hin Hunknown.
  specialize (Hgen _ _ _ _ Hin). rewrite Hunknown in Hgen.
  change (extensions (FileFilter_default tree root))
    with SUPPORTED_EXTENSIONS in Hgen.
  assert (Hvalues : Forall (fun kv : string * string =>
                              snd kv <> "unknown") SUPPORTED_EXTENSIONS).
  { unfold SUPPORTED_EXTENSIONS. repeat constructor; discriminate. }
  rewrite Forall_forall in Hvalues.
  exact (Hvalues _ Hgen eq_refl).
Qed.

Lemma selected_files_have_a_language_witness :
  let p := {| parts := ["repo"; "app"; "main.tsx"]; is_dir := false;
              is_symlink := false; st_size := Some 10;
              can_open := true |} in
  let tree := {| gitignore := None; rglob := [p] |} in
  In (".tsx", "typescript")
     (extensions (FileFilter_default tree ["repo"])).
Proof.
  intros p tree.
  apply (proj1 selected_files_have_a_language
           (FileFilter_default tree ["repo"]) tree false p).
  vm_compute. tauto.
Defined.

(** *** Grouping by language *)

Lemma groups_append_keys (lang : string) (f : Path)
    (groups : list (string * list Path)) :
  map fst (groups_append lang f groups)
  = if existsb (String.eqb lang) (map fst groups) then map fst groups
    else map fst groups ++ [lang].
Proof.
  induction groups as [|[k fs] groups IH]; simpl; [reflexivity |].
  rewrite (String.eqb_sym lang k).
  destruct (String.eqb k lang); simpl; [reflexivity |].
  rewrite IH. destruct (existsb (String.eqb lang) (map fst groups));
    reflexivity.
Qed.

Lemma groups_append_in (lang : string) (f : Path)
    (groups : list (string * list Path)) (k : string) (fs : list Path) :
  NoDup (map fst groups) ->
  In (k, fs) (groups_append lang f groups) ->
  (k <> lang /\ In (k, fs) groups)
  \/ (k = lang
      /\ ((exists fs0, In (lang, fs0) groups /\ fs = fs0 ++ [f])
          \/ (~ In lang (map fst groups) /\ fs = [f]))).
Proof.
  induction groups as [|[k0 fs0] groups IH]; intros Hnd Hin; simpl in *.
  - destruct Hin as [Hin | []]. injection Hin as <- <-.
    right. split; [reflexivity |]. right. split; [tauto | reflexivity].
  - apply NoDup_cons_iff in Hnd. destruct Hnd as [Hfresh Hnd].
    destruct (String.eqb_spec k0 lang) as [-> | Hne].
    + destruct Hin as [Hin | Hin].
      * injection Hin as <- <-. right. split; [reflexivity |].
        left. exists fs0. split; [now left | reflexivity].
      * left. split; [| now right].
        intros ->. apply Hfresh. apply (in_map fst) in Hin. exact Hin.
    + destruct Hin as [Hin | Hin].
      * injection Hin as <- <-. left. split; [exact Hne | now left].
      * destruct (IH Hnd Hin) as [[H1 H2] | [H1 [[fs1 [H2 H3]] | [H2 H3]]]].
        -- left. split; [exact H1 | now right].
        -- right. split; [exact H1 |]. left. exists fs1.
           split; [now right | exact H3].
        -- right. split; [exact H1 |]. right. split; [| exact H3].
           intros [Heq | Hin']; [congruence | contradiction].
Qed.

Lemma group_by_language_snoc (self : FileFilter) (files : list Path)
    (f : Path) :
  group_by_language self (files ++ [f])
  = groups_append (get_file_language self f) f
      (group_by_language self files).
Proof. unfold group_by_language. now rewrite fold_left_app. Qed.

Lemma existsb_eqb_in (x : string) (l : list string) :
  existsb (String.eqb x) l = true <-> In x l.
Proof.
  rewrite existsb_exists. split.
  - intros [y [Hy E]]. apply String.eqb_eq in E. now subst.
  - intros H. exists x. split; [exact H | apply String.eqb_refl].
Qed.

Lemma filter_none {A} (p : A -> bool) (l : list A) :
  (forall x, In x l -> p x = false) -> filter p l = [].
Proof.
  induction l as [|x l IH]; intros H; simpl; [reflexivity |].
  rewrite (H x (or_introl eq_refl)). apply IH.
  intros y Hy. apply H. now right.
Qed.

(** [group_by_language] partitions the files: the languages are
    distinct keys; the group of a language is never empty and holds
    exactly the files of that language, in their order; every file is in
    the group of its language. *)
Theorem group_by_language_partitions :
  forall (self : FileFilter) (files : list Path),
    let groups := group_by_language self files in
    NoDup (map fst groups)
    /\ (forall (lang : string) (fs : list Path),
           In (lang, fs) groups ->
           fs <> []
           /\ fs = filter
                     (fun f => String.eqb (get_file_language self f) lang)
                     files)
    /\ (forall f : Path,
           In f files ->
           exists fs : list Path,
             In (get_file_language self f, fs) groups /\ In f fs).
Proof.
  intros self files. cbv zeta.
  assert (Hinv :
    NoDup (map fst (group_by_language self files))
    /\ (forall lang fs,
           In (lang, fs) (group_by_language self files) ->
           fs <> []
           /\ fs = filter
                     (fun f => String.eqb (get_file_language self f) lang)
                     files)
    /\ (forall f, In f files ->
                  In (get_file_language self f)
                     (map fst (group_by_language self files)))).
  { induction files as [|f files IH] using rev_ind.
    - split; [constructor | split]; [intros lang fs [] | intros f []].
    - destruct IH as [Hnd [Hgroups Hkeys]].
      rewrite group_by_language_snoc.
      set (lang := get_file_language self f) in *.
      set (groups := group_by_language self files) in *.
      split; [| split].
      + rewrite groups_append_keys.
        destruct (existsb (String.eqb lang) (map fst groups)) eqn:E;
          [exact Hnd |].
        apply NoDup_app; [exact Hnd | repeat constructor; tauto |].
        intros x Hx [<- | []].
        apply existsb_eqb_in in Hx. congruence.
      + intros k fs Hin. rewrite filter_app. cbn [filter]. fold lang.
        destruct (groups_append_in lang f groups k fs Hnd Hin)
          as [[Hne Hold] | [-> [[fs0 [Hold ->]] | [Hnew ->]]]].
        * destruct (Hgroups k fs Hold) as [H1 H2].
          destruct (String.eqb_spec lang k) as [E | _]; [congruence |].
          rewrite app_nil_r. now split.
        * destruct (Hgroups lang fs0 Hold) as [H1 H2].
          rewrite String.eqb_refl. split; [| now rewrite <- H2].
          intros Habs. apply app_eq_nil in Habs. destruct Habs; discriminate.
        * rewrite String.eqb_refl. split; [discriminate |].
          replace (filter
                     (fun f0 => String.eqb (get_file_language self f0) lang)
                     files) with (@nil Path); [reflexivity |].
          symmetry. apply filter_none. intros g Hg.
          apply String.eqb_neq. intros Heq. apply Hnew.
          rewrite <- Heq. now apply Hkeys.
      + intros g Hg. rewrite groups_append_keys.
        apply in_app_or in Hg.
        destruct (existsb (String.eqb lang) (map fst groups)) eqn:E.
        * destruct Hg as [Hg | [<- | []]]; [now apply Hkeys |].
          now apply existsb_eqb_in.
        * apply in_or_app.
          destruct Hg as [Hg | [<- | []]]; [left; now apply Hkeys |].
          right. now left. }
  destruct Hinv as [Hnd [Hgroups Hkeys]].
  split; [exact Hnd | split; [exact Hgroups |]].
  intros f Hf. specialize (Hkeys f Hf).
  apply in_map_iff in Hkeys. destruct Hkeys as [[k fs] [Hk Hin]].
  simpl in Hk. subst k. exists fs. split; [exact Hin |].
  destruct (Hgroups _ _ Hin) as [_ ->].
  apply filter_In. split; [exact Hf | apply String.eqb_refl].
Qed.

Lemma group_by_language_partitions_witness :
  let a := {| parts := ["repo"; "a.py"]; is_dir := false;
              is_symlink := false; st_size := Some 1; can_open := true |} in
  let b := {| parts := ["repo"; "b.js"]; is_dir := false;
              is_symlink := false; st_size := Some 2; can_open := true |} in
  let c := {| parts := ["repo"; "c.py"]; is_dir := false;
              is_symlink := false; st_size := Some 3; can_open := true |} in
  let self := FileFilter_default {| gitignore := None; rglob := [a; b; c] |}
                ["repo"] in
  [a; c] <> []
  /\ [a; c]
     = filter (fun f => String.eqb (get_file_language self f) "python")
         [a; b; c].
Proof.
  intros a b c self.
  apply (proj1 (proj2 (group_by_language_partitions self [a; b; c]))
           "python" [a; c]).
  vm_compute. tauto.
Defined.

(** ** Collections *)

Section CollectionProperties.

Variable server : Server.
Variable self : R2RClient.

Lemma retry_request_success (method url : string)
    (kwargs : list (string * pyval)) (w : World) (r : Response) :
  let req := {| method := method; url := url; kwargs := kwargs |} in
  server (calls w) req = Responds r ->
  In (status_code r) [200; 201; 202] ->
  _retry_request server self method url kwargs w = (Ok r, sent req w).
Proof.
  intros req Hr Hs. unfold _retry_request. rewrite range_attempts.
  now apply success_returns_immediately_aux.
Qed.

Lemma results_of_success (r : Response) (results : pyval) (w : World) :
  succeeds_with r results -> results_of r w = (Ok results, w).
Proof.
  intros [_ [body [Hj Hr]]].
  unfold results_of, lift, Py.response_json. now rewrite Hj, Hr.
Qed.

Lemma list_collections_success (w : World) (r : Response)
    (results : pyval) :
  server (calls w) (list_collections_request self) = Responds r ->
  succeeds_with r results ->
  list_collections server self w
  = (Ok results, sent (list_collections_request self) w).
Proof.
  intros Hr Hs. unfold list_collections.
  rewrite (bind_ok _ _ _ _ _
             (retry_request_success "GET" _ _ w r Hr (proj1 Hs))).
  now apply results_of_success.
Qed.

Lemma find_collection (name : string) (colls : list pyval) (w : World) :
  Forall (fun coll => exists n, Py.subscript coll "name" = Ok n) colls ->
  for_returning colls
    (fun coll =>
       n <- lift (Py.subscript coll "name") ;;
       if Py.eq_str n name then ret (Some coll) else ret None)
    (ret PNone) w
  = (Ok match find (collection_named name) colls with
        | Some coll => coll
        | None => PNone
        end, w).
Proof.
  induction 1 as [|coll colls [n Hn] _ IH]; [reflexivity |].
  cbn [for_returning find]. unfold collection_named at 1.
  unfold bind at 1. unfold bind at 1. unfold lift at 1.
  rewrite Hn. destruct (Py.eq_str n name); [reflexivity | exact IH].
Qed.

Lemma get_collection_success (name : string) (w : World) (r : Response)
    (colls : list pyval) :
  server (calls w) (list_collections_request self) = Responds r ->
  succeeds_with r (PList colls) ->
  Forall (fun coll => exists n, Py.subscript coll "name" = Ok n) colls ->
  get_collection server self name w
  = (Ok match find (collection_named name) colls with
        | Some coll => coll
        | None => PNone
        end,
     sent (list_collections_request self) w).
Proof.
  intros Hr Hs Hnames. unfold get_collection.
  rewrite (bind_ok _ _ _ _ _ (list_collections_success w r _ Hr Hs)).
  unfold bind at 1. unfold lift at 1. cbn [Py.iterate].
  now apply find_collection.
Qed.

End CollectionProperties.

(** [get_collection] returns the first collection of the listing that
    has the name, and [None] when the listing has none; it makes the one
    request of the listing. *)
Theorem get_collection_finds_the_first_match :
  forall (server : Server) (self : R2RClient) (name : string) (w : World)
         (r : Response) (colls : list pyval),
    server (calls w) (list_collections_request self) = Responds r ->
    succeeds_with r (PList colls) ->
    Forall (fun coll => exists n, Py.subscript coll "name" = Ok n) colls ->
    get_collection server self name w
    = (Ok match find (collection_named name) colls with
          | Some coll => coll
          | None => PNone
          end,
       sent (list_collections_request self) w).
Proof.
  intros server self name w r colls Hr Hs Hnames.
  now apply get_collection_success with (r := r).
Qed.

Lemma get_collection_finds_the_first_match_witness :
  let listing :=
    [PDict [("name", PStr "Default"); ("id", PStr "11111111")];
     PDict [("name", PStr "repo-demo"); ("id", PStr "22222222")];
     PDict [("name", PStr "repo-demo"); ("id", PStr "33333333")]] in
  let server : Server := fun _ _ => Demo.json_ok (PList listing) in
  get_collection server Demo.self "repo-demo" initial_world
  = (Ok (PDict [("name", PStr "repo-demo"); ("id", PStr "22222222")]),
     sent (list_collections_request Demo.self) initial_world).
Proof.
  intros listing server.
  refine (get_collection_finds_the_first_match server Demo.self "repo-demo"
            initial_world _ listing eq_refl _ _).
  - split; [simpl; tauto |]. eexists. split; reflexivity.
  - repeat constructor; eexists; reflexivity.
Defined.

(** [create_collection] is idempotent: when the listing holds a
    collection of that name, it is returned after the one GET of the
    listing and no POST is sent; only when there is none does the POST
    follow, and its result is returned. *)
Theorem create_collection_is_idempotent :
  forall (server : Server) (self : R2RClient) (name description : string)
         (w : World) (r : Response) (colls : list pyval),
    server (calls w) (list_collections_request self) = Responds r ->
    succeeds_with r (PList colls) ->
    Forall (fun coll => exists n, Py.subscript coll "name" = Ok n) colls ->
    (forall (existing : pyval) (id : string),
        find (collection_named name) colls = Some existing ->
        Py.subscript existing "id" = Ok (PStr id) ->
        create_collection server self name description w
        = (Ok existing, sent (list_collections_request self) w))
    /\ (forall (r2 : Response) (created : pyval) (id : string),
          find (collection_named name) colls = None ->
          server (S (calls w))
            (create_collection_request self name description)
          = Responds r2 ->
          succeeds_with r2 created ->
          Py.subscript created "id" = Ok (PStr id) ->
          create_collection server self name description w
          = (Ok created,
             sent (create_collection_request self name description)
               (sent (list_collections_request self) w))).
Proof.
  intros server self name description w r colls Hr Hs Hnames.
  pose proof (get_collection_success server self name w r colls Hr Hs
                Hnames) as Hget.
  split.
  - intros existing id Hfind Hid. rewrite Hfind in Hget.
    unfold create_collection. rewrite (bind_ok _ _ _ _ _ Hget).
    assert (Ht : Py.truthy existing = true).
    { apply find_some in Hfind. destruct Hfind as [_ Hn].
      unfold collection_named, Py.subscript in Hn.
      destruct existing as [| | | | |d]; try discriminate.
      destruct d; [discriminate | reflexivity]. }
    rewrite Ht. unfold id_prefix, bind, lift. rewrite Hid. reflexivity.
  - intros r2 created id Hfind Hr2 Hs2 Hid. rewrite Hfind in Hget.
    unfold create_collection. rewrite (bind_ok _ _ _ _ _ Hget).
    cbn [Py.truthy].
    rewrite (bind_ok _ _ _ _ _
               (retry_request_success server self "POST" _ _
                  (sent (list_collections_request self) w) r2 Hr2
                  (proj1 Hs2))).
    rewrite (bind_ok _ _ _ _ _ (results_of_success r2 created _ Hs2)).
    unfold id_prefix, bind, lift. rewrite Hid. reflexivity.
Qed.

Lemma create_collection_is_idempotent_witness :
  let existing := PDict [("name", PStr "repo-demo");
                         ("id", PStr "c0ffee00-0000-4000-8000-000000000000")] in
  create_collection (Demo.store []) Demo.self "repo-demo"
    "Code repository: demo" initial_world
  = (Ok existing, sent (list_collections_request Demo.self) initial_world).
Proof.
  intros existing.
  refine (proj1 (create_collection_is_idempotent (Demo.store []) Demo.self
                   "repo-demo" "Code repository: demo" initial_world _
                   [existing] eq_refl _ _)
            existing "c0ffee00-0000-4000-8000-000000000000" eq_refl eq_refl).
  - split; [simpl; tauto |]. eexists. split; reflexivity.
  - repeat constructor; eexists; reflexivity.
Defined.

(** ** Uploading a document *)

Lemma extends_with_refl (P : Request -> Prop) (w : World) :
  extends_with P w w.
Proof. exists []. split; [now rewrite app_nil_r | constructor]. Qed.

Lemma extends_with_trans (P : Request -> Prop) (w1 w2 w3 : World) :
  extends_with P w1 w2 -> extends_with P w2 w3 -> extends_with P w1 w3.
Proof.
  intros [n1 [E1 F1]] [n2 [E2 F2]]. exists (n1 ++ n2). split.
  - rewrite E2, E1. now rewrite app_assoc.
  - apply Forall_app. now split.
Qed.

Lemma extends_with_sent (P : Request -> Prop) (req : Request) (w : World) :
  P req -> extends_with P w (sent req w).
Proof. intros H. exists [EvRequest req]. split; [reflexivity | now constructor]. Qed.

Lemma extends_with_slept (P : Request -> Prop) (s : Q) (w : World) :
  extends_with P w (slept s w).
Proof. exists [EvSleep s]. split; [reflexivity | now constructor]. Qed.

(** Every attempt sends the request it was given, and nothing else. *)
Lemma retry_attempt_events (server : Server) (P : Request -> Prop)
    (req : Request) (k : Z) (w : World) :
  P req -> extends_with P w (snd (retry_attempt server req k w)).
Proof.
  intros HP.
  pose proof (extends_with_sent P req w HP) as Hs.
  assert (Hsl : forall s, extends_with P w (slept s (sent req w))).
  { intros s. eapply extends_with_trans; [exact Hs |].
    apply extends_with_slept. }
  destruct (server (calls w) req) as [r | msg] eqn:E.
  - rewrite (retry_attempt_responds server req k w r E).
    destruct (in_list (status_code r) [200; 201; 202]); [exact Hs |].
    destruct (status_code r =? 429); [apply Hsl |].
    destruct ((400 <=? status_code r) && (status_code r <? 500));
      [exact Hs |].
    destruct (status_code r >=? 500); [apply Hsl | exact Hs].
  - rewrite (retry_attempt_fails server req k w msg E).
    destruct (k =? API_RETRY_ATTEMPTS - 1); [exact Hs | apply Hsl].
Qed.

Lemma retry_loop_events (server : Server) (P : Request -> Prop)
    (req : Request) (attempts : list Z) :
  P req ->
  forall w : World,
    extends_with P w (snd (retry_loop server req attempts w)).
Proof.
  intros HP. induction attempts as [|k rest IH]; intros w.
  - apply extends_with_refl.
  - rewrite retry_loop_cons.
    pose proof (retry_attempt_events server P req k w HP) as Hk.
    destruct (retry_attempt server req k w) as [[[r |] | e] w1];
      cbn [snd] in *; try exact Hk.
    eapply extends_with_trans; [exact Hk | apply IH].
Qed.

Lemma from_last_dot_length (s t : string) :
  from_last_dot s = Some t -> (String.length t <= String.length s)%nat.
Proof.
  revert t. induction s as [|c s IH]; intros t H; [discriminate |].
  cbn [from_last_dot] in H.
  destruct (from_last_dot s) as [t' |].
  - injection H as <-. specialize (IH t' eq_refl). simpl. lia.
  - destruct (Ascii.eqb c "."); [| discriminate].
    injection H as <-. reflexivity.
Qed.

Lemma from_last_dot_txt (x : string) :
  from_last_dot (x ++ ".txt") = Some ".txt"%string.
Proof.
  induction x as [|c x IH]; [reflexivity |].
  change (String c x ++ ".txt")%string with (String c (x ++ ".txt")).
  change (from_last_dot (String c (x ++ ".txt")))
    with (match from_last_dot (x ++ ".txt") with
          | Some t => Some t
          | None => if Ascii.eqb c "." then Some (String c (x ++ ".txt"))
                    else None
          end).
  now rewrite IH.
Qed.

(** Replacing a suffix by [.txt] gives a name whose suffix is [.txt]. *)
Lemma suffix_of_stem_txt (nm : string) :
  suffix_of nm <> ""%string ->
  suffix_of (PyStr.take (String.length nm - String.length (suffix_of nm)) nm
             ++ ".txt")
  = ".txt"%string.
Proof.
  destruct nm as [|c rest]; [intros H; now contradiction H |].
  cbn [suffix_of]. destruct (from_last_dot rest) as [t |] eqn:E;
    [| intros H; now contradiction H].
  destruct (1 <? String.length t)%nat; [| intros H; now contradiction H].
  intros _. apply from_last_dot_length in E.
  cbn [String.length].
  replace (S (String.length rest) - String.length t)%nat
    with (S (String.length rest - String.length t)) by lia.
  cbn [PyStr.take]. set (x := PyStr.take _ rest).
  change (String c x ++ ".txt")%string with (String c (x ++ ".txt")).
  unfold suffix_of. now rewrite from_last_dot_txt.
Qed.

(** [upload_document] sends nothing but its POST to [/v3/documents]
    (once per attempt), and the file name of that request never carries
    one of the extensions the store cannot classify: it is the file's own
    name, or its stem with [.txt] when the name had such an extension.  A
    file that cannot be opened raises [OSError] before any request. *)
Theorem upload_never_sends_an_unsupported_extension :
  forall (server : Server) (self : R2RClient) (file_path : Path)
         (metadata collection_id document_id : pyval) (w : World),
    extends_with
      (fun req =>
         is_upload_request self req = true
         /\ exists n : string,
              file_name_sent req = Some n
              /\ existsb (String.eqb (suffix_of n)) unsupported_extensions
                 = false
              /\ (n = name file_path
                  \/ n = (stem file_path ++ ".txt")%string))
      w
      (snd (upload_document server self file_path metadata collection_id
              document_id w))
    /\ (can_open file_path = false ->
        exists msg : string,
          upload_document server self file_path metadata collection_id
            document_id w
          = (Raise (OSError msg), w)).
Proof.
  intros server self file_path metadata collection_id document_id w.
  unfold upload_document, open_rb.
  destruct (can_open file_path); cycle 1.
  { split; [apply extends_with_refl |]. intros _. eexists. reflexivity. }
  split; [| discriminate].
  unfold bind at 1. unfold ret at 1. cbv zeta.
  match goal with
  | |- extends_with ?P _ (snd (bind (_retry_request _ _ ?m ?u ?kw) _ _)) =>
      pose proof (retry_loop_events server P
                    {| method := m; url := u; kwargs := kw |}
                    (range API_RETRY_ATTEMPTS)) as Hev
  end.
  unfold bind, _retry_request.
  match type of Hev with
  | ?H -> _ => assert (Hreq : H)
  end.
  { split.
    - unfold is_upload_request. cbn [method url].
      now rewrite !String.eqb_refl.
    - unfold file_name_sent. cbn [kwargs Py.lookup String.eqb Ascii.eqb
                                 Bool.eqb].
      eexists. split; [reflexivity |].
      unfold suffix, stem.
      destruct (existsb (String.eqb (suffix_of (name file_path)))
                  unsupported_extensions) eqn:Es.
      + split; [| now right].
        rewrite suffix_of_stem_txt; [reflexivity |].
        intros H0. rewrite H0 in Es. discriminate.
      + split; [exact Es | now left]. }
  specialize (Hev Hreq w).
  match goal with
  | |- context [retry_loop server ?r ?l w] =>
      destruct (retry_loop server r l w) as [[resp | e] w1]
  end; cbn [snd] in *; [| exact Hev].
  unfold results_of, lift. cbn [snd]. exact Hev.
Qed.

Lemma upload_never_sends_an_unsupported_extension_witness :
  let unreadable := {| parts := ["repo"; "deploy.yaml"]; is_dir := false;
                       is_symlink := false; st_size := Some 10;
                       can_open := false |} in
  exists msg : string,
    upload_document (Demo.store []) Demo.self unreadable (PDict []) PNone
      PNone initial_world
    = (Raise (OSError msg), initial_world).
Proof.
  intros unreadable.
  apply (proj2 (upload_never_sends_an_unsupported_extension (Demo.store [])
                  Demo.self unreadable (PDict []) PNone PNone
                  initial_world)).
  reflexivity.
Defined.

(** ** Monitoring against a server that reports a status *)

Lemma statuses_set_present (k v : pyval) (d : Statuses) :
  Py.key_eqb k k = true -> statuses_get k (statuses_set k v d) = Some v.
Proof.
  intros Hk. induction d as [|[k1 v1] d IH]; simpl.
  - now rewrite Hk.
  - destruct (Py.key_eqb k1 k) eqn:E; simpl; rewrite E; [reflexivity | exact IH].
Qed.

Lemma statuses_set_keeps (k k' v : pyval) (d : Statuses) :
  statuses_get k d <> None -> statuses_get k (statuses_set k' v d) <> None.
Proof.
  induction d as [|[k1 v1] d IH]; simpl; [intros H; now contradiction H |].
  destruct (Py.key_eqb k1 k') eqn:E'; simpl;
    destruct (Py.key_eqb k1 k) eqn:E; try discriminate; auto.
Qed.

Lemma records_get (status : string -> pyval) (statuses : Statuses)
    (id : string) (s : pyval) :
  records status statuses ->
  statuses_get (PStr id) statuses = Some s -> s = status id.
Proof.
  induction 1 as [|[k v] d [id' [Hk Hv]] _ IH]; simpl; [discriminate |].
  simpl in Hk, Hv. subst k v. cbn [Py.key_eqb].
  destruct (String.eqb id' id) eqn:E.
  - apply String.eqb_eq in E. subst id'. intros H. now injection H as <-.
  - exact IH.
Qed.

Lemma records_set (status : string -> pyval) (statuses : Statuses)
    (id : string) :
  records status statuses ->
  records status (statuses_set (PStr id) (status id) statuses).
Proof.
  induction 1 as [|[k v] d [id' [Hk Hv]] Hd IH]; simpl.
  - constructor; [| constructor]. now exists id.
  - simpl in Hk, Hv. subst k v. cbn [Py.key_eqb].
    destruct (String.eqb id' id) eqn:E.
    + apply String.eqb_eq in E. subst id'.
      constructor; [now exists id | exact Hd].
    + constructor; [now exists id' | exact IH].
Qed.

Lemma fuel_covers_timeout (timeout poll_interval : Z) :
  0 < poll_interval ->
  timeout
  <= poll_interval * Z.of_nat (S (Z.to_nat (timeout / poll_interval))).
Proof.
  intros Hpoll.
  pose proof (Z.mul_succ_div_gt timeout poll_interval Hpoll) as Hgt.
  destruct (Z.le_gt_cases 0 (timeout / poll_interval)) as [Hq | Hq].
  - rewrite Nat2Z.inj_succ, Z2Nat.id by exact Hq. lia.
  - replace (Z.to_nat (timeout / poll_interval)) with 0%nat by lia.
    assert (timeout < 0).
    { destruct (Z.lt_ge_cases timeout 0) as [Hn | Hn]; [exact Hn |].
      pose proof (Z.div_pos timeout poll_interval Hn Hpoll). lia. }
    lia.
Qed.

Section Reporting.

Variable server : Server.
Variable self : R2RClient.
Variable status : string -> pyval.
Hypothesis Hreports : reports server self status.

Let done (ids : list string) : bool :=
  forallb (fun id => is_terminal (status id)) ids.

Lemma get_document_reports (id : string) (w : World) :
  exists doc : pyval,
    get_document server self id w
    = (Ok doc, sent (get_document_request self id) w)
    /\ Py.get doc "ingestion_status" (PStr "pending") = Ok (status id).
Proof.
  destruct (Hreports (calls w) id) as [r [doc [Hr [Hs Hst]]]].
  exists doc. split; [| exact Hst].
  unfold get_document.
  rewrite (bind_ok _ _ _ _ _
             (retry_request_success server self "GET" _ _ w r Hr
                (proj1 Hs))).
  now apply results_of_success.
Qed.

Lemma poll_document_reports (statuses : Statuses) (all_done : bool)
    (id : string) (w : World) :
  records status statuses ->
  exists (statuses' : Statuses) (w' : World),
    poll_document server self (statuses, all_done) (PStr id) w
    = (Ok (statuses', all_done && is_terminal (status id)), w')
    /\ records status statuses'
    /\ now w' = now w
    /\ statuses_get (PStr id) statuses' <> None
    /\ (forall k, statuses_get k statuses <> None ->
                  statuses_get k statuses' <> None).
Proof.
  intros Hrec. unfold poll_document. cbn [Py.hashable negb].
  destruct (statuses_get (PStr id) statuses) as [s |] eqn:G.
  - pose proof (records_get status statuses id s Hrec G) as ->.
    destruct (is_terminal (status id)) eqn:T.
    + exists statuses, w. rewrite andb_true_r.
      repeat split; auto. rewrite G. discriminate.
    + destruct (get_document_reports id w) as [doc [E Hst]].
      cbn [Py.format]. unfold try_except.
      rewrite (bind_ok _ _ _ _ _ E). unfold bind, lift. rewrite Hst.
      unfold ret. rewrite T, andb_false_r.
      eexists. eexists. split; [reflexivity |].
      split; [now apply records_set |]. split; [reflexivity |].
      split; [rewrite statuses_set_present;
              [discriminate | apply String.eqb_refl] |].
      intros k. apply statuses_set_keeps.
  - destruct (get_document_reports id w) as [doc [E Hst]].
    cbn [Py.format]. unfold try_except.
    rewrite (bind_ok _ _ _ _ _ E). unfold bind, lift. rewrite Hst.
    unfold ret.
    assert (Hflag : (if is_terminal (status id) then all_done else false)
                    = all_done && is_terminal (status id)).
    { destruct (is_terminal (status id)), all_done; reflexivity. }
    rewrite Hflag.
    eexists. eexists. split; [reflexivity |].
    split; [now apply records_set |]. split; [reflexivity |].
    split; [rewrite statuses_set_present;
            [discriminate | apply String.eqb_refl] |].
    intros k. apply statuses_set_keeps.
Qed.

Lemma poll_round_reports (ids : list string) :
  forall (statuses : Statuses) (all_done : bool) (w : World),
    records status statuses ->
    exists (statuses' : Statuses) (w' : World),
      fold_m (poll_document server self) (map PStr ids)
        (statuses, all_done) w
      = (Ok (statuses', all_done && done ids), w')
      /\ records status statuses'
      /\ now w' = now w
      /\ (forall id, In id ids -> statuses_get (PStr id) statuses' <> None)
      /\ (forall k, statuses_get k statuses <> None ->
                    statuses_get k statuses' <> None).
Proof.
  induction ids as [|id ids IH]; intros statuses all_done w Hrec.
  - exists statuses, w. rewrite andb_true_r. simpl.
    repeat split; auto.
  - destruct (poll_document_reports statuses all_done id w Hrec)
      as [st1 [w1 [E1 [R1 [N1 [P1 K1]]]]]].
    destruct (IH st1 (all_done && is_terminal (status id)) w1 R1)
      as [st2 [w2 [E2 [R2 [N2 [P2 K2]]]]]].
    exists st2, w2. cbn [map fold_m].
    rewrite (bind_ok _ _ _ _ _ E1), E2.
    split; [unfold done; cbn [forallb]; now rewrite andb_assoc |].
    split; [exact R2 |]. split; [congruence |].
    split; [| auto].
    intros id' [<- | Hin]; auto.
Qed.

Lemma wait_rounds_reports (ids : list string) (timeout poll_interval : Z)
    (start_time : Q) :
  0 < poll_interval ->
  forall (fuel : nat) (statuses : Statuses) (w : World),
    records status statuses ->
    (inject_Z timeout - (now w - start_time)
     <= inject_Z poll_interval * inject_Z (Z.of_nat fuel))%Q ->
    (now w - start_time < inject_Z timeout + inject_Z poll_interval)%Q ->
    exists (statuses' : Statuses) (w' : World),
      wait_rounds server fuel self (map PStr ids) timeout poll_interval
        start_time statuses w = (Ok statuses', w')
      /\ ((now w - start_time < inject_Z timeout)%Q ->
          forall id, In id ids ->
                     statuses_get (PStr id) statuses'
                     = Some (status id))
      /\ (forall k, statuses_get k statuses <> None ->
                    statuses_get k statuses' <> None)
      /\ records status statuses'
      /\ if done ids
         then (now w - start_time < inject_Z timeout)%Q ->
              (now w' == now w)%Q
         else (inject_Z timeout <= now w' - start_time
               < inject_Z timeout + inject_Z poll_interval)%Q.
Proof.
  intros Hpoll.
  assert (Hp : (0 < inject_Z poll_interval)%Q).
  { change 0%Q with (inject_Z 0). now rewrite <- Zlt_Qlt. }
  assert (Hsome : forall st id, records status st ->
                    statuses_get (PStr id) st <> None ->
                    statuses_get (PStr id) st = Some (status id)).
  { intros st id Hrec Hne.
    destruct (statuses_get (PStr id) st) as [s |] eqn:G;
      [| now contradiction Hne].
    now rewrite (records_get status st id s Hrec G). }
  assert (Hexit : forall statuses w,
             records status statuses ->
             (now w - start_time
              < inject_Z timeout + inject_Z poll_interval)%Q ->
             Qlt_bool (now w - start_time) (inject_Z timeout) = false ->
             exists (statuses' : Statuses) (w' : World),
               (Ok statuses, w) = (Ok statuses', w')
               /\ ((now w - start_time < inject_Z timeout)%Q ->
                   forall id, In id ids ->
                              statuses_get (PStr id) statuses'
                              = Some (status id))
               /\ (forall k, statuses_get k statuses <> None ->
                             statuses_get k statuses' <> None)
               /\ records status statuses'
               /\ if done ids
                  then (now w - start_time < inject_Z timeout)%Q ->
                       (now w' == now w)%Q
                  else (inject_Z timeout <= now w' - start_time
                        < inject_Z timeout + inject_Z poll_interval)%Q).
  { intros statuses w Hrec Hinv C.
    assert (Hge : (inject_Z timeout <= now w - start_time)%Q).
    { unfold Qlt_bool in C. apply negb_false_iff in C.
      now apply Qle_bool_iff in C. }
    exists statuses, w. split; [reflexivity |].
    split; [intros Hlt; exfalso; lra |].
    split; [auto |]. split; [exact Hrec |].
    destruct (done ids); [intros Hlt; exfalso; lra | split; lra]. }
  induction fuel as [|fuel IH]; intros statuses w Hrec Hleft Hinv.
  - simpl. unfold bind, time_time.
    destruct (Qlt_bool (now w - start_time) (inject_Z timeout)) eqn:C.
    + apply Qlt_bool_true in C. exfalso.
      change (inject_Z (Z.of_nat 0)) with 0%Q in Hleft. lra.
    + now apply Hexit.
  - cbn [wait_rounds]. unfold bind at 1. unfold time_time at 1.
    destruct (Qlt_bool (now w - start_time) (inject_Z timeout)) eqn:C;
      [| now apply Hexit].
    apply Qlt_bool_true in C.
    destruct (poll_round_reports ids statuses true w Hrec)
      as [st1 [w1 [E1 [R1 [N1 [P1 K1]]]]]].
    rewrite (bind_ok _ _ _ _ _ E1). cbn [andb].
    destruct (done ids) eqn:D.
    + exists st1, w1. split; [reflexivity |].
      split; [intros _ id Hin; apply Hsome; auto |].
      split; [exact K1 |]. split; [exact R1 |].
      intros _. rewrite N1. reflexivity.
    + unfold bind, time_sleep.
      destruct (IH st1 (slept (inject_Z poll_interval) w1) R1)
        as [st2 [w2 [E2 [_ [K2 [R2 T2]]]]]].
      * simpl. rewrite N1.
        rewrite Nat2Z.inj_succ in Hleft. unfold Z.succ in Hleft.
        rewrite inject_Z_plus in Hleft.
        set (P := (inject_Z poll_interval * inject_Z (Z.of_nat fuel))%Q)
          in *.
        assert (Hmul : (inject_Z poll_interval
                        * (inject_Z (Z.of_nat fuel) + inject_Z 1)
                        == P + inject_Z poll_interval)%Q).
        { unfold P. change (inject_Z 1) with 1%Q. ring. }
        rewrite Hmul in Hleft. lra.
      * simpl. rewrite N1. lra.
      * exists st2, w2. split; [exact E2 |].
        split; [intros _ id Hin; apply Hsome; auto |].
        split; [auto |]. split; [exact R2 | exact T2].
Qed.

End Reporting.

(** When the server reports a status for every document and the
    timeout and the polling interval are positive, [wait_for_ingestion]
    returns the status of every requested document.  If all of them are
    terminal ([success] or [failed]) it returns after the first round
    without sleeping; otherwise it gives up once the timeout is reached,
    overshooting it by less than one polling interval. *)
Theorem wait_for_ingestion_reports_or_times_out :
  forall (server : Server) (self : R2RClient) (status : string -> pyval)
         (ids : list string) (timeout poll_interval : Z) (w : World),
    reports server self status ->
    0 < timeout ->
    0 < poll_interval ->
    exists (statuses : Statuses) (w' : World),
      wait_for_ingestion server self (map PStr ids) timeout poll_interval w
      = (Ok statuses, w')
      /\ (forall id, In id ids ->
                     statuses_get (PStr id) statuses = Some (status id))
      /\ if forallb (fun id => is_terminal (status id)) ids
         then (now w' == now w)%Q
         else (inject_Z timeout <= now w' - now w
               < inject_Z timeout + inject_Z poll_interval)%Q.
Proof.
  intros server self status ids timeout poll_interval w Hrep Ht Hp.
  assert (Htq : (0 < inject_Z timeout)%Q).
  { change 0%Q with (inject_Z 0). now rewrite <- Zlt_Qlt. }
  assert (Hpq : (0 < inject_Z poll_interval)%Q).
  { change 0%Q with (inject_Z 0). now rewrite <- Zlt_Qlt. }
  assert (Hzero : (now w - now w == 0)%Q) by ring.
  unfold wait_for_ingestion, bind, time_time.
  destruct (wait_rounds_reports server self status Hrep ids timeout
              poll_interval (now w) Hp
              (S (Z.to_nat (timeout / poll_interval))) [] w)
    as [st [w' [E [Hall [_ [_ Htime]]]]]].
  - constructor.
  - rewrite <- inject_Z_mult.
    pose proof (fuel_covers_timeout timeout poll_interval Hp) as Hz.
    rewrite Zle_Qle in Hz. rewrite Hzero. lra.
  - rewrite Hzero. lra.
  - exists st, w'. split; [exact E |].
    split; [apply Hall; rewrite Hzero; exact Htq |].
    destruct (forallb (fun id => is_terminal (status id)) ids);
      [apply Htime; rewrite Hzero; exact Htq | exact Htime].
Qed.

Lemma wait_for_ingestion_reports_or_times_out_witness :
  let server : Server :=
    fun _ _ => Demo.json_ok (PDict [("ingestion_status", PStr "parsing")]) in
  let status : string -> pyval := fun _ => PStr "parsing" in
  exists (statuses : Statuses) (w' : World),
    wait_for_ingestion server Demo.self (map PStr ["doc-a"; "doc-b"]) 300 5
      initial_world
    = (Ok statuses, w')
    /\ (forall id, In id ["doc-a"; "doc-b"] ->
                   statuses_get (PStr id) statuses = Some (status id))
    /\ if forallb (fun id => is_terminal (status id)) ["doc-a"; "doc-b"]
       then (now w' == now initial_world)%Q
       else (inject_Z 300 <= now w' - now initial_world
             < inject_Z 300 + inject_Z 5)%Q.
Proof.
  intros server status.
  apply (wait_for_ingestion_reports_or_times_out server Demo.self status
           ["doc-a"; "doc-b"] 300 5 initial_world).
  - intros n id. eexists.
    exists (PDict [("ingestion_status", PStr "parsing")]).
    split; [reflexivity |]. split; [| reflexivity].
    split; [simpl; tauto |]. eexists. split; reflexivity.
  - lia.
  - lia.
Defined.

(** ** Monitoring, whatever the server does *)

Lemma statuses_set_keys (k v : pyval) (d : Statuses) :
  incl (map fst (statuses_set k v d)) (k :: map fst d).
Proof.
  induction d as [|[k1 v1] d IH]; simpl.
  - apply incl_refl.
  - destruct (Py.key_eqb k1 k); simpl.
    + apply incl_tl, incl_refl.
    + intros x [<- | Hx]; [right; now left |].
      destruct (IH x Hx) as [<- | Hd]; [now left | right; now right].
Qed.

Section MonitoringKeys.

Variable server : Server.
Variable self : R2RClient.

Lemma poll_document_keys (st st' : Statuses * bool) (doc_id : pyval)
    (w w' : World) :
  poll_document server self st doc_id w = (Ok st', w') ->
  incl (map fst (fst st')) (doc_id :: map fst (fst st)).
Proof.
  unfold poll_document. destruct st as [statuses all_done].
  destruct (negb (Py.hashable doc_id)); [discriminate |].
  destruct (match statuses_get doc_id statuses with
            | Some status => is_terminal status
            | None => false
            end).
  { intros H. injection H as <- _. apply incl_tl, incl_refl. }
  unfold try_except, bind, lift, ret, raise.
  destruct (get_document server self (Py.format doc_id) w)
    as [[doc | e] w1].
  - destruct (Py.get doc "ingestion_status" (PStr "pending"))
      as [s | e].
    + intros H. injection H as <- _. apply statuses_set_keys.
    + destruct (any_Exception e); [| discriminate].
      destruct (Py.slice_to 8 doc_id); [| discriminate].
      intros H. injection H as <- _. apply incl_tl, incl_refl.
  - destruct (any_Exception e); [| discriminate].
    destruct (Py.slice_to 8 doc_id); [| discriminate].
    intros H. injection H as <- _. apply incl_tl, incl_refl.
Qed.

Lemma poll_round_keys (ids : list pyval) :
  forall (st st' : Statuses * bool) (w w' : World),
    fold_m (poll_document server self) ids st w = (Ok st', w') ->
    incl (map fst (fst st')) (ids ++ map fst (fst st)).
Proof.
  induction ids as [|id ids IH]; intros st st' w w'; simpl.
  - intros H. injection H as <- _. apply incl_refl.
  - unfold bind.
    destruct (poll_document server self st id w) as [[st1 | e] w1] eqn:E1;
      [| discriminate].
    intros E2. apply IH in E2. apply poll_document_keys in E1.
    intros k Hk. destruct (in_app_or _ _ _ (E2 k Hk)) as [Hi | H1].
    + right. apply in_or_app. now left.
    + destruct (E1 k H1) as [<- | H0]; [now left |].
      right. apply in_or_app. now right.
Qed.

Lemma wait_rounds_keys (ids : list pyval) (timeout poll_interval : Z)
    (start_time : Q) :
  forall (fuel : nat) (statuses statuses' : Statuses) (w w' : World),
    wait_rounds server fuel self ids timeout poll_interval start_time
      statuses w = (Ok statuses', w') ->
    incl (map fst statuses') (ids ++ map fst statuses).
Proof.
  induction fuel as [|fuel IH]; intros statuses statuses' w w';
    cbn [wait_rounds]; unfold bind at 1; unfold time_time at 1;
    destruct (Qlt_bool (now w - start_time) (inject_Z timeout));
    try (intros H; injection H as <- _; apply incl_appr, incl_refl).
  - discriminate.
  - unfold bind at 1.
    destruct (fold_m (poll_document server self) ids (statuses, true) w)
      as [[[st1 all_done] | e] w1] eqn:E1; [| discriminate].
    apply poll_round_keys in E1. cbn [fst] in E1.
    destruct all_done.
    + intros H. injection H as <- _. exact E1.
    + unfold bind, time_sleep. intros E2. apply IH in E2.
      intros k Hk. destruct (in_app_or _ _ _ (E2 k Hk)) as [Hi | H1].
      * apply in_or_app. now left.
      * exact (E1 k H1).
Qed.

End MonitoringKeys.

(** Whatever the server answers (errors, failures, bodies without a
    status), monitoring documents whose identifiers are strings with a
    positive polling interval raises nothing and returns within the
    rounds the timeout allows; the dict it returns has no key besides
    the identifiers it was given. *)
Theorem wait_for_ingestion_never_raises :
  forall (server : Server) (self : R2RClient) (ids : list pyval)
         (timeout poll_interval : Z) (w : World),
    Forall is_str ids ->
    0 < poll_interval ->
    exists (statuses : Statuses) (w' : World),
      wait_for_ingestion server self ids timeout poll_interval w
      = (Ok statuses, w')
      /\ forall k : pyval, In k (map fst statuses) -> In k ids.
Proof.
  intros server self ids timeout poll_interval w Hids Hpoll.
  destruct (wait_for_ingestion_returns server self ids timeout
              poll_interval w Hids Hpoll) as [st [w' E]].
  exists st, w'. split; [exact E |].
  unfold wait_for_ingestion, bind, time_time in E.
  apply wait_rounds_keys in E. intros k Hk.
  destruct (in_app_or _ _ _ (E k Hk)) as [Hi | []]. exact Hi.
Qed.

Lemma wait_for_ingestion_never_raises_witness :
  let server : Server := fun _ _ => Fails "connection refused" in
  exists (statuses : Statuses) (w' : World),
    wait_for_ingestion server Demo.self [PStr "doc-a"; PStr "doc-b"] 300 5
      initial_world
    = (Ok statuses, w')
    /\ forall k : pyval,
         In k (map fst statuses) -> In k [PStr "doc-a"; PStr "doc-b"].
Proof.
  intros server.
  apply (wait_for_ingestion_never_raises server Demo.self
           [PStr "doc-a"; PStr "doc-b"] 300 5 initial_world).
  - repeat constructor; eexists; reflexivity.
  - lia.
Defined.

(** ** Line statistics *)

Lemma count_line_accounts (st : FileStats) (line : string) :
  let st' := count_line st line in
  lines_total st' = lines_total st + 1
  /\ lines_blank st' + lines_comment st' + lines_code st'
     = lines_blank st + lines_comment st + lines_code st + 1
  /\ lines_blank st <= lines_blank st'
  /\ lines_comment st <= lines_comment st'
  /\ lines_code st <= lines_code st'.
Proof.
  unfold count_line.
  destruct (String.eqb (PyStr.strip line) "");
    [| destruct (PyStr.startswith "#" (PyStr.strip line)
                 || PyStr.startswith "//" (PyStr.strip line))];
    cbn [lines_total lines_blank lines_comment lines_code]; lia.
Qed.

Lemma fold_count_line_accounts (lines : list string) :
  forall st : FileStats,
    let st' := fold_left count_line lines st in
    lines_total st' = lines_total st + Z.of_nat (List.length lines)
    /\ lines_blank st' + lines_comment st' + lines_code st'
       = lines_blank st + lines_comment st + lines_code st
         + Z.of_nat (List.length lines)
    /\ lines_blank st <= lines_blank st'
    /\ lines_comment st <= lines_comment st'
    /\ lines_code st <= lines_code st'.
Proof.
  induction lines as [|line lines IH]; intros st; cbn [fold_left].
  - cbn [List.length]. lia.
  - destruct (count_line_accounts st line) as [H1 [H2 [H3 [H4 H5]]]].
    destruct (IH (count_line st line)) as [I1 [I2 [I3 [I4 I5]]]].
    cbv zeta in *. cbn [List.length]. rewrite Nat2Z.inj_succ. lia.
Qed.

(** The line statistics add up: every line of the file is counted once
    in [lines_total] and in exactly one of blank, comment and code, and
    no counter is negative; a file that cannot be opened gives zeros
    instead of an exception. *)
Theorem file_stats_add_up :
  forall content : option (list string),
    let stats := extract_file_stats content in
    lines_total stats
    = Z.of_nat (List.length match content with
                            | Some lines => lines
                            | None => []
                            end)
    /\ lines_total stats
       = lines_blank stats + lines_comment stats + lines_code stats
    /\ 0 <= lines_blank stats
    /\ 0 <= lines_comment stats
    /\ 0 <= lines_code stats.
Proof.
  intros [lines |]; cbv zeta; unfold extract_file_stats.
  - set (zero := {| lines_total := 0; lines_code := 0; lines_comment := 0;
                    lines_blank := 0 |}).
    destruct (fold_count_line_accounts lines zero)
      as [H1 [H2 [H3 [H4 H5]]]].
    cbv zeta in *. cbn [lines_total lines_blank lines_comment lines_code
                         zero] in *.
    unfold zero in *. cbn [lines_total lines_blank lines_comment lines_code]
      in *. lia.
  - cbn. lia.
Qed.

(** ** Module names *)

Lemma replace_char_removes (a b : ascii) (s : string) :
  Ascii.eqb b a = false ->
  PyText.contains a (PyText.replace_char a b s) = false.
Proof.
  intros Hab. induction s as [|x s IH]; [reflexivity |].
  cbn [PyText.replace_char PyText.contains]. rewrite IH, orb_false_r.
  destruct (Ascii.eqb x a) eqn:E; [exact Hab | exact E].
Qed.

Lemma lstrip_char_contains (c a : ascii) (s : string) :
  PyText.contains a s = false ->
  PyText.contains a (PyText.lstrip_char c s) = false.
Proof.
  induction s as [|x s IH]; [reflexivity |].
  cbn [PyText.lstrip_char]. intros H.
  destruct (Ascii.eqb x c); [| exact H].
  apply IH. cbn [PyText.contains] in H.
  now apply orb_false_iff in H.
Qed.

Lemma lstrip_char_head (c : ascii) (s : string) :
  PyStr.startswith (String c "") (PyText.lstrip_char c s) = false.
Proof.
  induction s as [|x s IH]; [reflexivity |].
  cbn [PyText.lstrip_char].
  destruct (Ascii.eqb x c) eqn:E; [exact IH |].
  cbn [PyStr.startswith]. rewrite Ascii.eqb_sym, E. reflexivity.
Qed.

(** A module name holds no path separator and does not begin with a
    dot, whatever the path and the repository root. *)
Theorem module_name_has_no_separator :
  forall (file_path : Path) (repo_path : list string) (module : string),
    extract_module_name file_path repo_path = Ok module ->
    PyText.contains "/" module = false
    /\ PyStr.startswith "." module = false.
Proof.
  intros file_path repo_path module. unfold extract_module_name.
  destruct (match relative_to file_path repo_path with
            | Some rel => (rel, false)
            | None => (parts file_path, true)
            end) as [rel_path absolute].
  destruct (with_suffix_empty rel_path) as [module_path | e];
    [| discriminate].
  intros H. injection H as <-. split.
  - apply lstrip_char_contains. now apply replace_char_removes.
  - apply lstrip_char_head.
Qed.

Lemma module_name_has_no_separator_witness :
  let file_path := {| parts := ["repo"; "src"; "services"; "auth.py"];
                      is_dir := false; is_symlink := false;
                      st_size := Some 10; can_open := true |} in
  PyText.contains "/" "src.services.auth" = false
  /\ PyStr.startswith "." "src.services.auth" = false.
Proof.
  intros file_path.
  apply (module_name_has_no_separator file_path ["repo"]).
  reflexivity.
Defined.

Lemma replace_char_join (l : list string) :
  components l ->
  PyText.replace_char "/" "." (PyStr.join "/" l) = PyStr.join "." l.
Proof.
  assert (Hid : forall s, PyText.contains "/" s = false ->
                  PyText.replace_char "/" "." s = s).
  { induction s as [|x s IH]; [reflexivity |].
    cbn [PyText.contains PyText.replace_char]. intros H.
    apply orb_false_iff in H. destruct H as [Hx Hs].
    now rewrite Hx, (IH Hs). }
  assert (Happ : forall s t,
             PyText.replace_char "/" "." (s ++ t)
             = (PyText.replace_char "/" "." s
                ++ PyText.replace_char "/" "." t)%string).
  { induction s as [|x s IH]; intros t; [reflexivity |].
    cbn [String.append PyText.replace_char]. now rewrite IH. }
  induction l as [|x l IH]; intros Hl; [reflexivity |].
  apply Forall_cons_iff in Hl. destruct Hl as [Hx Hl].
  destruct l as [|y l].
  - simpl. now apply Hid.
  - change (PyStr.join "/" (x :: y :: l))
      with (x ++ String "/" (PyStr.join "/" (y :: l)))%string.
    change (PyStr.join "." (x :: y :: l))
      with (x ++ String "." (PyStr.join "." (y :: l)))%string.
    rewrite Happ, (Hid x Hx). f_equal.
    cbn [PyText.replace_char]. change (Ascii.eqb "/" "/") with true.
    cbv iota. f_equal. now apply IH.
Qed.

Lemma take_contains (a : ascii) (n : nat) (s : string) :
  PyText.contains a s = false ->
  PyText.contains a (PyStr.take n s) = false.
Proof.
  revert s. induction n as [|n IH]; intros s H; [reflexivity |].
  destruct s as [|x s]; [reflexivity |].
  cbn [PyStr.take PyText.contains] in *.
  apply orb_false_iff in H. destruct H as [Hx Hs].
  now rewrite Hx, (IH s Hs).
Qed.

Lemma components_last (l : list string) :
  components l -> PyText.contains "/" (last l "") = false.
Proof.
  induction 1 as [|x l Hx _ IH]; [reflexivity |].
  destruct l as [|y l]; [exact Hx | exact IH].
Qed.

Lemma components_removelast (l : list string) :
  components l -> components (removelast l).
Proof.
  induction 1 as [|x l Hx Hl IH]; [constructor |].
  destruct l as [|y l]; [constructor |].
  change (removelast (x :: y :: l)) with (x :: removelast (y :: l)).
  constructor; [exact Hx | exact IH].
Qed.

(** For a file below the repository root whose components hold no
    separator, the module name is the components of the relative path
    joined by dots, the last one without its suffix, and without
    leading dots. *)
Theorem module_name_is_the_dotted_relative_path :
  forall (file_path : Path) (repo_path rel : list string),
    relative_to file_path repo_path = Some rel ->
    last rel "" <> ""%string ->
    components rel ->
    extract_module_name file_path repo_path
    = Ok (PyText.lstrip_char "."
            (PyStr.join "." (removelast rel ++ [stem_of (last rel "")]))).
Proof.
  intros file_path repo_path rel Hrel Hname Hc.
  unfold extract_module_name. rewrite Hrel.
  unfold with_suffix_empty.
  destruct (String.eqb_spec (last rel "") "") as [E | _];
    [now contradiction Hname |].
  assert (Hc' : components (removelast rel ++ [stem_of (last rel "")])).
  { apply Forall_app. split; [now apply components_removelast |].
    constructor; [| constructor].
    unfold stem_of. apply take_contains. now apply components_last. }
  unfold str_relative.
  destruct (removelast rel ++ [stem_of (last rel "")]) as [|x l] eqn:El.
  { destruct (removelast rel); discriminate. }
  now rewrite replace_char_join.
Qed.

Lemma module_name_is_the_dotted_relative_path_witness :
  let file_path := {| parts := ["repo"; "src"; "services"; "auth.py"];
                      is_dir := false; is_symlink := false;
                      st_size := Some 10; can_open := true |} in
  extract_module_name file_path ["repo"]
  = Ok (PyText.lstrip_char "."
          (PyStr.join "."
             (removelast ["src"; "services"; "auth.py"]
              ++ [stem_of (last ["src"; "services"; "auth.py"] "")]))).
Proof.
  intros file_path.
  apply (module_name_is_the_dotted_relative_path file_path ["repo"]
           ["src"; "services"; "auth.py"]).
  - reflexivity.
  - discriminate.
  - repeat constructor.
Defined.

(** ** Packages of the imports *)

Lemma insert_sorted_in (x y : string) (l : list string) :
  In y (PyText.insert_sorted x l) <-> y = x \/ In y l.
Proof.
  induction l as [|z l IH]; simpl.
  - intuition congruence.
  - destruct (String.compare x z) eqn:C; simpl.
    + apply String.compare_eq_iff in C. subst z. intuition congruence.
    + intuition congruence.
    + rewrite IH. intuition congruence.
Qed.

Lemma insert_sorted_sorted (x : string) (l : list string) :
  Sorted (fun a b => String.compare a b = Lt) l ->
  Sorted (fun a b => String.compare a b = Lt) (PyText.insert_sorted x l).
Proof.
  induction 1 as [|z l Hl IH Hz]; simpl.
  - repeat constructor.
  - destruct (String.compare x z) eqn:C.
    + now constructor.
    + constructor; [now constructor | now constructor].
    + constructor; [exact IH |].
      assert (Hzx : String.compare z x = Lt).
      { rewrite String.compare_antisym, C. reflexivity. }
      destruct l as [|y l]; simpl.
      * now constructor.
      * destruct (String.compare x y); constructor; try exact Hzx.
        all: now inversion Hz.
Qed.

Lemma split_head_no_separator (sep : ascii) (s : string) :
  Forall (fun x => PyText.contains sep x = false) (PyStr.split sep s).
Proof.
  induction s as [|c s IH]; simpl.
  - repeat constructor.
  - destruct (Ascii.eqb c sep) eqn:E.
    + constructor; [reflexivity | exact IH].
    + destruct (PyStr.split sep s) as [|h t].
      * constructor; [| constructor]. simpl. now rewrite E.
      * apply Forall_cons_iff in IH. destruct IH as [Hh Ht].
        constructor; [| exact Ht]. simpl. now rewrite E, Hh.
Qed.

Lemma package_of_no_dot (import_name : string) :
  PyText.contains "." (package_of import_name) = false.
Proof.
  unfold package_of.
  destruct (PyText.contains "." import_name) eqn:E; [| exact E].
  pose proof (split_head_no_separator "." import_name) as H.
  destruct (PyStr.split "." import_name) as [|h t]; [reflexivity |].
  now apply Forall_cons_iff in H.
Qed.

(** [extract_package_name] returns the top-level packages of the
    imports, each one once and in strictly increasing order: a name is
    in the result exactly when it is the first component of some
    import, and no name of the result holds a dot. *)
Theorem package_names_are_sorted_and_unique :
  forall imports : list string,
    let packages := extract_package_name imports in
    Sorted (fun a b => String.compare a b = Lt) packages
    /\ (forall p : string,
           In p packages
           <-> exists import_name : string,
                 In import_name imports /\ package_of import_name = p)
    /\ Forall (fun p => PyText.contains "." p = false) packages.
Proof.
  intros imports. cbv zeta. unfold extract_package_name, PyText.sorted_set.
  assert (Hin : forall p,
             In p (fold_right PyText.insert_sorted [] (map package_of imports))
             <-> exists i, In i imports /\ package_of i = p).
  { induction imports as [|i imports IH]; intros p; simpl.
    - split; [intros [] | intros [i [[] _]]].
    - rewrite insert_sorted_in, IH. split.
      + intros [-> | [j [Hj Hp]]]; [exists i; auto | exists j; auto].
      + intros [j [[<- | Hj] Hp]]; [left; congruence | right; exists j; auto]. }
  split; [| split].
  - clear Hin. induction imports as [|i imports IH]; simpl; [constructor |].
    apply insert_sorted_sorted, IH.
  - exact Hin.
  - apply Forall_forall. intros p Hp. apply Hin in Hp.
    destruct Hp as [i [_ <-]]. apply package_of_no_dot.
Qed.

(** ** Repository names *)

(** The repository name taken from a URL holds no separator.  It need
    not name a directory of its own: for the URL paths [/user/..],
    [/user/..git] and [/] it is [..], [.] and the empty string.  An SSH
    URL without a colon has no second part: the [IndexError] of
    [split(':')[1]] escapes. *)
Theorem repo_name_holds_no_separator :
  forall (urlparse_path : string -> string) (repo_url : string),
    (forall repo_name : string,
        _extract_repo_name urlparse_path repo_url = Some repo_name ->
        PyText.contains "/" repo_name = false)
    /\ (PyStr.startswith "git@" repo_url = true ->
        PyText.contains ":" repo_url = false ->
        _extract_repo_name urlparse_path repo_url = None)
    /\ (PyStr.startswith "git@" repo_url = false ->
        (urlparse_path repo_url = "/user/.."%string ->
         _extract_repo_name urlparse_path repo_url = Some ".."%string)
        /\ (urlparse_path repo_url = "/user/..git"%string ->
            _extract_repo_name urlparse_path repo_url = Some "."%string)
        /\ (urlparse_path repo_url = "/"%string ->
            _extract_repo_name urlparse_path repo_url = Some ""%string)).
Proof.
  intros urlparse_path repo_url. split; [| split].
  - intros repo_name. unfold _extract_repo_name.
    destruct (if PyStr.startswith "git@" repo_url
              then nth_error (PyStr.split ":" repo_url) 1
              else Some (urlparse_path repo_url)) as [path |];
      [| discriminate].
    cbv zeta.
    set (name := PyText.remove_all _ ".git" _).
    intros H. injection H as <-.
    destruct (PyText.contains "/" name) eqn:E; [| exact E].
    pose proof (split_head_no_separator "/" name) as Hs.
    induction Hs as [|x l Hx _ IH]; [reflexivity |].
    destruct l as [|y l]; [exact Hx | exact IH].
  - intros Hssh Hcolon. unfold _extract_repo_name. rewrite Hssh.
    now rewrite (split_no_separator ":" repo_url Hcolon).
  - intros Hhttp. unfold _extract_repo_name. rewrite Hhttp.
    repeat split; intros ->; reflexivity.
Qed.

Lemma repo_name_holds_no_separator_witness :
  PyText.contains "/" "repo" = false
  /\ _extract_repo_name (fun _ => "") "git@github.com/user/repo.git" = None
  /\ _extract_repo_name (fun _ => "/user/..") "https://github.com/user/.."
     = Some ".."%string
  /\ _extract_repo_name (fun _ => "/user/..git")
       "https://github.com/user/..git"
     = Some "."%string
  /\ _extract_repo_name (fun _ => "/") "https://github.com/"
     = Some ""%string.
Proof.
  split; [| split; [| split; [| split]]].
  - apply (proj1 (repo_name_holds_no_separator (fun _ => "")
                    "git@github.com:user/repo.git") "repo").
    reflexivity.
  - apply (proj1 (proj2 (repo_name_holds_no_separator (fun _ => "")
                           "git@github.com/user/repo.git")));
      reflexivity.
  - apply (proj1 (proj2 (proj2 (repo_name_holds_no_separator
                                  (fun _ => "/user/..")
                                  "https://github.com/user/..")) eq_refl)).
    reflexivity.
  - apply (proj1 (proj2 (proj2 (proj2 (repo_name_holds_no_separator
                                         (fun _ => "/user/..git")
                                         "https://github.com/user/..git"))
                                  eq_refl))).
    reflexivity.
  - apply (proj2 (proj2 (proj2 (proj2 (repo_name_holds_no_separator
                                         (fun _ => "/")
                                         "https://github.com/"))
                                  eq_refl))).
    reflexivity.
Defined.

(** ** The upload loop, whatever the uploads do *)

Section UploadAccounting.

Variable server : Server.
Variable build_metadata :
  list string -> Path -> string -> string -> string -> pyval -> result pyval.
Variable self : RepositoryLoader.
Variable file_filter : FileFilter.
Variables repo_url repo_name : string.
Variables commit_info collection_id : pyval.
Variable P : pyval -> Prop.

Let document_id (f : Path) : pyval :=
  PStr (generate_document_id repo_url (get_relative_path file_filter f)).

Let iteration : Path -> M Run unit :=
  upload_iteration server build_metadata self file_filter repo_url
    repo_name commit_info collection_id.

Let ends : Path -> Prop :=
  metadata_ends build_metadata file_filter repo_url repo_name commit_info.

Let returns_ids : Path -> Prop :=
  returns_ids_in P server (client self) collection_id document_id.

Lemma any_Exception_ends (e : exn) :
  e <> NonTermination -> any_Exception e = true.
Proof. destruct e; try reflexivity. intros H. now contradiction H. Qed.

(** One round ends without an exception.  It counts the file as failed,
    or records an identifier and counts the file as uploaded; in the
    second case it counts the file as failed as well when the
    identifier cannot be sliced for the progress line. *)
Lemma upload_iteration_accounts (f : Path) (r : Run) :
  ends f ->
  returns_ids f ->
  exists r' : Run,
    iteration f r = (Ok tt, r')
    /\ files_found (stats r') = files_found (stats r)
    /\ ((document_ids r' = document_ids r
         /\ files_uploaded (stats r') = files_uploaded (stats r)
         /\ files_failed (stats r') = files_failed (stats r) + 1)
        \/ exists v : pyval,
             P v
             /\ document_ids r' = document_ids r ++ [v]
             /\ files_uploaded (stats r') = files_uploaded (stats r) + 1
             /\ files_failed (stats r')
                = files_failed (stats r)
                  + if sliceable v then 0 else 1).
Proof.
  intros Hmd Hret.
  unfold ends, metadata_ends in Hmd.
  unfold iteration, upload_iteration, upload_file, try_except.
  unfold bind at 1. unfold lift at 1.
  destruct (build_metadata (repo_path file_filter) f
              (get_file_language file_filter f) repo_url repo_name
              commit_info) as [md | e] eqn:Emd.
  2: { rewrite (any_Exception_ends e).
       - eexists. split; [reflexivity |]. split; [reflexivity |].
         left. repeat split.
       - intros ->. now apply Hmd. }
  unfold bind at 1.
  destruct (upload_document server (client self) f md collection_id
              (document_id f) (world r)) as [[res | e] w1] eqn:Eup.
  2: { unfold document_id in Eup. rewrite (in_world_ok _ r _ _ Eup).
       rewrite (any_Exception_ends e).
       - eexists. split; [reflexivity |]. split; [reflexivity |].
         left. repeat split.
       - intros ->.
         exact (proj2 (steady_upload_document server (client self) f md
                         collection_id _ _ _ _ Eup) eq_refl). }
  pose proof (Hret md (world r) w1 res) as Hid.
  unfold document_id in Eup. rewrite (in_world_ok _ r _ _ Eup).
  unfold bind at 1. unfold lift at 1.
  destruct (Py.subscript res "document_id") as [v | e] eqn:Ev.
  2: { rewrite (any_Exception_ends e).
       - eexists. split; [reflexivity |]. split; [reflexivity |].
         left. repeat split.
       - intros ->. exact (subscript_total res "document_id" Ev). }
  specialize (Hid v Eup eq_refl).
  unfold bind at 1. unfold append_document_id at 1.
  unfold bind at 1. unfold update_stats at 1.
  unfold bind at 1. unfold lift at 1.
  destruct (Py.slice_to 8 v) as [prefix | e] eqn:Es.
  - eexists. split; [reflexivity |]. split; [reflexivity |].
    right. exists v. unfold sliceable. rewrite Es.
    cbn [stats document_ids files_uploaded files_failed
         incr_files_uploaded].
    repeat split; [exact Hid | lia].
  - rewrite (any_Exception_ends e).
    + eexists. split; [reflexivity |]. split; [reflexivity |].
      right. exists v. unfold sliceable. rewrite Es.
      cbn [stats document_ids files_uploaded files_failed
           incr_files_uploaded incr_files_failed].
      repeat split. exact Hid.
    + intros ->. exact (slice_to_total 8 v Es).
Qed.

(** The rounds of the loop *)
Lemma upload_loop_accounts (files : list Path) :
  Forall ends files ->
  Forall returns_ids files ->
  forall r : Run,
    exists (r' : Run) (new_ids : list pyval),
      for_each files iteration r = (Ok tt, r')
      /\ files_found (stats r') = files_found (stats r)
      /\ document_ids r' = document_ids r ++ new_ids
      /\ Forall P new_ids
      /\ (List.length new_ids <= List.length files)%nat
      /\ files_uploaded (stats r')
         = files_uploaded (stats r) + Z.of_nat (List.length new_ids)
      /\ files_failed (stats r') + Z.of_nat (List.length new_ids)
         = files_failed (stats r) + Z.of_nat (List.length files)
           + Z.of_nat (List.length
                         (filter (fun v => negb (sliceable v)) new_ids)).
Proof.
  induction files as [|f files IH]; intros Hmd Hret r.
  - exists r, []. simpl. rewrite app_nil_r.
    repeat split; try lia. constructor.
  - apply Forall_cons_iff in Hmd. destruct Hmd as [Hmd Hmds].
    apply Forall_cons_iff in Hret. destruct Hret as [Hret Hrets].
    destruct (upload_iteration_accounts f r Hmd Hret)
      as [r1 [E1 [F1 Hcase]]].
    destruct (IH Hmds Hrets r1)
      as [r2 [ids [E2 [F2 [D2 [P2 [L2 [U2 X2]]]]]]]].
    cbn [for_each]. rewrite (bind_ok _ _ _ _ _ E1).
    destruct Hcase as [[D1 [U1 X1]] | [v [Pv [D1 [U1 X1]]]]].
    + exists r2, ids. split; [exact E2 |].
      split; [congruence |]. split; [congruence |].
      split; [exact P2 |]. cbn [List.length].
      rewrite Nat2Z.inj_succ. split; [lia |]. split; lia.
    + exists r2, (v :: ids). split; [exact E2 |].
      split; [congruence |].
      split; [rewrite D2, D1, <- app_assoc; reflexivity |].
      split; [now constructor |].
      cbn [List.length filter]. rewrite !Nat2Z.inj_succ.
      split; [lia |]. split; [lia |].
      destruct (sliceable v); cbn [negb List.length];
        rewrite ?Nat2Z.inj_succ; lia.
Qed.

End UploadAccounting.

(** The upload loop never aborts and counts every file, whatever the
    uploads do: a round either counts its file as failed, or records the
    identifier the store returned and counts the file as uploaded.  So
    [files_uploaded] grows by the number of identifiers recorded, and
    [files_failed] by the number of the other files, plus one for every
    recorded identifier that the progress line cannot slice: such a file
    is counted as uploaded and as failed. *)
Theorem upload_loop_counts_every_file :
  forall (server : Server)
         (build_metadata :
            list string -> Path -> string -> string -> string -> pyval ->
            result pyval)
         (self : RepositoryLoader) (file_filter : FileFilter)
         (repo_url repo_name : string) (commit_info collection_id : pyval)
         (files : list Path) (r : Run),
    Forall (metadata_ends build_metadata file_filter repo_url repo_name
              commit_info) files ->
    exists (r' : Run) (new_ids : list pyval),
      for_each files
        (upload_iteration server build_metadata self file_filter repo_url
           repo_name commit_info collection_id) r
      = (Ok tt, r')
      /\ files_found (stats r') = files_found (stats r)
      /\ document_ids r' = document_ids r ++ new_ids
      /\ (List.length new_ids <= List.length files)%nat
      /\ files_uploaded (stats r')
         = files_uploaded (stats r) + Z.of_nat (List.length new_ids)
      /\ files_failed (stats r') + Z.of_nat (List.length new_ids)
         = files_failed (stats r) + Z.of_nat (List.length files)
           + Z.of_nat (List.length
                         (filter (fun v => negb (sliceable v)) new_ids)).
Proof.
  intros server build_metadata self file_filter repo_url repo_name
         commit_info collection_id files r Hmd.
  destruct (upload_loop_accounts server build_metadata self file_filter
              repo_url repo_name commit_info collection_id
              (fun _ => True) files Hmd) with (r := r)
    as [r' [ids [E [F [D [_ [L [U X]]]]]]]].
  - apply Forall_forall. intros f _ md w w' res id _ _. exact I.
  - exists r', ids. repeat split; assumption.
Qed.

Lemma upload_loop_counts_every_file_witness :
  let files := [Demo.file "a.py"; Demo.file "b.py"] in
  let file_filter :=
    FileFilter_default (checkout_tree (Demo.checkout ["a.py"; "b.py"]))
      ["repos"; "demo"] in
  let r := {| stats := {| stats_repo_url := Demo.repo_url;
                          files_found := 2; files_uploaded := 0;
                          files_failed := 0; stats_collection_id := PNone;
                          kg_entities := 0; kg_relationships := 0;
                          duration_seconds := 0 |};
              document_ids := []; world := initial_world |} in
  exists (r' : Run) (new_ids : list pyval),
    for_each files
      (upload_iteration
         (Demo.store [generate_document_id Demo.repo_url "a.py"])
         Demo.build_metadata (Demo.loader ["a.py"; "b.py"]) file_filter
         Demo.repo_url "demo" Demo.commit_info (PStr "c0ffee00")) r
    = (Ok tt, r')
    /\ files_found (stats r') = files_found (stats r)
    /\ document_ids r' = document_ids r ++ new_ids
    /\ (List.length new_ids <= List.length files)%nat
    /\ files_uploaded (stats r')
       = files_uploaded (stats r) + Z.of_nat (List.length new_ids)
    /\ files_failed (stats r') + Z.of_nat (List.length new_ids)
       = files_failed (stats r) + Z.of_nat (List.length files)
         + Z.of_nat (List.length
                       (filter (fun v => negb (sliceable v)) new_ids)).
Proof.
  intros files file_filter r.
  apply (upload_loop_counts_every_file
           (Demo.store [generate_document_id Demo.repo_url "a.py"])
           Demo.build_metadata (Demo.loader ["a.py"; "b.py"]) file_filter
           Demo.repo_url "demo" Demo.commit_info (PStr "c0ffee00") files r).
  repeat constructor; discriminate.
Defined.

(** ** Runs of [load_repository] *)

(** Whenever the first steps succeed (clone, commit information,
    collection) and the store's document identifiers are strings,
    [load_repository] returns its statistics, and every candidate file
    is counted exactly once: [files_found] is the number of candidates,
    and [files_uploaded + files_failed = files_found]. *)
Theorem load_repository_accounts_for_every_file :
  forall (server : Server)
         (build_metadata :
            list string -> Path -> string -> string -> string -> pyval ->
            result pyval)
         (self : RepositoryLoader) (repo_url : string)
         (collection_name branch : option string)
         (update_if_exists extract_kg : bool) (quality_mode : string)
         (verbose : bool) (w w1 w2 w3 : World) (checkout : Checkout)
         (commit_info hash_short message collection : pyval),
    let file_filter :=
      FileFilter_default (checkout_tree checkout)
        (checkout_path checkout) in
    let repo_name := last (checkout_path checkout) "" in
    let document_id := fun f : Path =>
      PStr (generate_document_id repo_url
              (get_relative_path file_filter f)) in
    let files := filter_files file_filter (checkout_tree checkout)
                   verbose in
    clone_repository (git self) repo_url branch update_if_exists w
    = (Ok checkout, w1) ->
    get_commit_info (git self) checkout w1 = (Ok commit_info, w2) ->
    Py.subscript commit_info "hash_short" = Ok hash_short ->
    Py.subscript commit_info "message" = Ok message ->
    create_collection server (client self)
      (default_collection_name collection_name repo_name)
      ("Code repository: " ++ repo_url) w2
    = (Ok collection, w3) ->
    Forall (metadata_ends build_metadata file_filter repo_url repo_name
              commit_info) files ->
    (forall collection_id : pyval,
        Py.subscript collection "id" = Ok collection_id ->
        Forall (returns_ids_in is_str server (client self) collection_id
                  document_id) files) ->
    exists (stats : Stats) (w' : World),
      load_repository server build_metadata self repo_url collection_name
        branch update_if_exists extract_kg quality_mode verbose w
      = (Ok stats, w')
      /\ files_found stats = Z.of_nat (List.length files)
      /\ files_uploaded stats + files_failed stats = files_found stats
      /\ 0 <= files_uploaded stats
      /\ 0 <= files_failed stats.
Proof.
  intros server build_metadata self repo_url collection_name branch
         update_if_exists extract_kg quality_mode verbose w w1 w2 w3
         checkout commit_info hash_short message collection
         file_filter repo_name document_id files
         Hclone Hcommit Hhash Hmessage Hcollection Hmd Hids.
  unfold load_repository.
  rewrite (bind_ok time_time _ w w (now w) eq_refl).
  unfold with_locals.
  set (r0 := {| stats := _; document_ids := []; world := w |}).
  (* STEP 1 *)
  rewrite (bind_ok _ _ _ _ _ (in_world_ok _ r0 _ _ Hclone)).
  set (r1 := {| stats := stats r0; document_ids := document_ids r0;
                world := w1 |}).
  rewrite (bind_ok _ _ _ _ _ (in_world_ok _ r1 _ _ Hcommit)).
  unfold lift at 1 2. rewrite Hhash, Hmessage.
  unfold bind at 1 2.
  (* STEP 2 *)
  fold file_filter. fold files.
  unfold bind at 1. unfold update_stats at 1.
  destruct files as [|f0 files'] eqn:Efiles.
  { eexists. eexists. split; [reflexivity |].
    cbn. repeat split; lia. }
  rewrite <- Efiles in *.
  assert (Hne : forall (X : Type) (a : X) (b : X),
             match files with [] => a | _ :: _ => b end = b).
  { intros X a b. now rewrite Efiles. }
  (* STEP 3 *)
  destruct (create_collection_id _ _ _ _ _ _ _ Hcollection)
    as [collection_id [prefix [Hid Hprefix]]].
  specialize (Hids collection_id Hid).
  fold repo_name.
  match goal with
  | |- context [bind (in_world (create_collection _ _ _ _)) _ ?r] =>
      set (r2 := r)
  end.
  rewrite (bind_ok _ _ _ _ _ (in_world_ok _ r2 _ _ Hcollection)).
  unfold lift at 1. rewrite Hid. unfold bind at 1.
  unfold bind at 1. unfold update_stats at 1.
  unfold lift at 1. rewrite Hprefix. unfold bind at 1.
  (* STEP 4 *)
  match goal with
  | |- context [bind (for_each _ ?body) _ ?r] =>
      set (iteration := body); set (r3 := r)
  end.
  destruct (upload_loop_accounts server build_metadata self file_filter
              repo_url repo_name commit_info collection_id is_str files
              Hmd Hids r3)
    as [r4 [ids [E4 [F4 [D4 [S4 [L4 [U4 X4]]]]]]]].
  subst iteration. rewrite (bind_ok _ _ _ _ _ E4).
  (* STEP 5 *)
  unfold bind at 1. unfold get_document_ids at 1.
  assert (I4 : Forall is_str (document_ids r4)).
  { rewrite D4. exact S4. }
  destruct (wait_for_ingestion_returns server (client self)
              (document_ids r4) 300 5 (world r4) I4 eq_refl)
    as [statuses [w5 E5]].
  rewrite (bind_ok _ _ _ _ _ (in_world_ok _ r4 _ _ E5)).
  (* STEP 6 *)
  match goal with
  | |- context [bind (if extract_kg then _ else _) _ ?r] => set (r5 := r)
  end.
  destruct (knowledge_graph_step server self collection_id extract_kg r5)
    as [r6 [E6 C6]].
  rewrite (bind_ok _ _ _ _ _ E6).
  (* SUMMARY *)
  eexists. eexists. split; [reflexivity |].
  unfold counts in C6. injection C6 as C6found C6up C6failed.
  cbn [stats files_found files_uploaded files_failed
       set_duration_seconds].
  rewrite C6found, C6up, C6failed. subst r5. cbn [stats].
  assert (Hsl : filter (fun v => negb (sliceable v)) ids = []).
  { apply filter_none. intros v Hv.
    rewrite Forall_forall in S4. destruct (S4 v Hv) as [s ->].
    reflexivity. }
  rewrite Hsl in X4. cbn [List.length] in X4.
  rewrite F4, U4. subst r3 r2 r1 r0.
  cbn [stats set_collection_id set_files_found
       files_found files_uploaded files_failed] in *.
  repeat split; lia.
Qed.

Lemma load_repository_accounts_for_every_file_witness :
  let names := ["a.py"; "b.py"; "c.py"] in
  let rejected := [generate_document_id Demo.repo_url "b.py"] in
  exists (stats : Stats) (w' : World),
    Demo.run names rejected = (Ok stats, w')
    /\ files_found stats
       = Z.of_nat (List.length
                     (filter_files
                        (FileFilter_default
                           (checkout_tree (Demo.checkout names))
                           (checkout_path (Demo.checkout names)))
                        (checkout_tree (Demo.checkout names)) false))
    /\ files_uploaded stats + files_failed stats = files_found stats
    /\ 0 <= files_uploaded stats
    /\ 0 <= files_failed stats.
Proof.
  intros names rejected. unfold Demo.run.
  refine (load_repository_accounts_for_every_file (Demo.store rejected)
            Demo.build_metadata (Demo.loader names) Demo.repo_url
            None None false false "high" false
            initial_world initial_world initial_world
            (sent (list_collections_request Demo.self) initial_world)
            (Demo.checkout names) Demo.commit_info
            (PStr "01234567") (PStr "initial")
            (PDict [("name", PStr "repo-demo");
                    ("id", PStr "c0ffee00-0000-4000-8000-000000000000")])
            eq_refl eq_refl eq_refl eq_refl _ _ _).
  - vm_compute. reflexivity.
  - apply Forall_forall. intros f _. discriminate.
  - intros collection_id Hid. injection Hid as <-.
    apply Forall_forall. intros f Hf md w w' res id Hup Hsub.
    vm_compute in Hf.
    destruct Hf as [<- | [<- | [<- | []]]];
      vm_compute in Hup;
      first [ discriminate Hup
            | injection Hup as <- <-; vm_compute in Hsub;
              injection Hsub as <-; eexists; reflexivity ].
Defined.

(** A repository without candidate files ends the run at once:
    [load_repository] returns the statistics it started with (all
    counters zero, no collection) and contacts the store not at all. *)
Theorem no_candidate_files_ends_the_run :
  forall (server : Server)
         (build_metadata :
            list string -> Path -> string -> string -> string -> pyval ->
            result pyval)
         (self : RepositoryLoader) (repo_url : string)
         (collection_name branch : option string)
         (update_if_exists extract_kg : bool) (quality_mode : string)
         (verbose : bool) (w w1 w2 : World) (checkout : Checkout)
         (commit_info hash_short message : pyval),
    clone_repository (git self) repo_url branch update_if_exists w
    = (Ok checkout, w1) ->
    get_commit_info (git self) checkout w1 = (Ok commit_info, w2) ->
    Py.subscript commit_info "hash_short" = Ok hash_short ->
    Py.subscript commit_info "message" = Ok message ->
    filter_files
      (FileFilter_default (checkout_tree checkout) (checkout_path checkout))
      (checkout_tree checkout) verbose = [] ->
    load_repository server build_metadata self repo_url collection_name
      branch update_if_exists extract_kg quality_mode verbose w
    = (Ok {| stats_repo_url := repo_url; files_found := 0;
             files_uploaded := 0; files_failed := 0;
             stats_collection_id := PNone; kg_entities := 0;
             kg_relationships := 0; duration_seconds := 0 |},
       w2).
Proof.
  intros server build_metadata self repo_url collection_name branch
         update_if_exists extract_kg quality_mode verbose w w1 w2
         checkout commit_info hash_short message
         Hclone Hcommit Hhash Hmessage Hfiles.
  unfold load_repository.
  rewrite (bind_ok time_time _ w w (now w) eq_refl).
  unfold with_locals.
  set (r0 := {| stats := _; document_ids := []; world := w |}).
  rewrite (bind_ok _ _ _ _ _ (in_world_ok _ r0 _ _ Hclone)).
  set (r1 := {| stats := stats r0; document_ids := document_ids r0;
                world := w1 |}).
  rewrite (bind_ok _ _ _ _ _ (in_world_ok _ r1 _ _ Hcommit)).
  unfold lift at 1 2. rewrite Hhash, Hmessage.
  unfold bind at 1 2.
  rewrite Hfiles. reflexivity.
Qed.

Lemma no_candidate_files_ends_the_run_witness :
  Demo.run ["LICENSE"; "archive.zip"] []
  = (Ok {| stats_repo_url := Demo.repo_url; files_found := 0;
           files_uploaded := 0; files_failed := 0;
           stats_collection_id := PNone; kg_entities := 0;
           kg_relationships := 0; duration_seconds := 0 |},
     initial_world).
Proof.
  unfold Demo.run.
  refine (no_candidate_files_ends_the_run (Demo.store [])
            Demo.build_metadata (Demo.loader ["LICENSE"; "archive.zip"])
            Demo.repo_url None None false false "high" false
            initial_world initial_world initial_world
            (Demo.checkout ["LICENSE"; "archive.zip"]) Demo.commit_info
            (PStr "01234567") (PStr "initial")
            eq_refl eq_refl eq_refl eq_refl _).
  vm_compute. reflexivity.
Defined.

(** A failure to set up the collection is fatal: when there are
    candidate files and [create_collection] raises, [load_repository]
    raises the same exception, and no file is uploaded. *)
Theorem collection_failure_aborts_the_run :
  forall (server : Server)
         (build_metadata :
            list string -> Path -> string -> string -> string -> pyval ->
            result pyval)
         (self : RepositoryLoader) (repo_url : string)
         (collection_name branch : option string)
         (update_if_exists extract_kg : bool) (quality_mode : string)
         (verbose : bool) (w w1 w2 w3 : World) (checkout : Checkout)
         (commit_info hash_short message : pyval) (e : exn),
    clone_repository (git self) repo_url branch update_if_exists w
    = (Ok checkout, w1) ->
    get_commit_info (git self) checkout w1 = (Ok commit_info, w2) ->
    Py.subscript commit_info "hash_short" = Ok hash_short ->
    Py.subscript commit_info "message" = Ok message ->
    filter_files
      (FileFilter_default (checkout_tree checkout) (checkout_path checkout))
      (checkout_tree checkout) verbose <> [] ->
    create_collection server (client self)
      (default_collection_name collection_name
         (last (checkout_path checkout) ""))
      ("Code repository: " ++ repo_url) w2
    = (Raise e, w3) ->
    load_repository server build_metadata self repo_url collection_name
      branch update_if_exists extract_kg quality_mode verbose w
    = (Raise e, w3).
Proof.
  intros server build_metadata self repo_url collection_name branch
         update_if_exists extract_kg quality_mode verbose w w1 w2 w3
         checkout commit_info hash_short message e
         Hclone Hcommit Hhash Hmessage Hfiles Hcollection.
  unfold load_repository.
  rewrite (bind_ok time_time _ w w (now w) eq_refl).
  unfold with_locals.
  set (r0 := {| stats := _; document_ids := []; world := w |}).
  rewrite (bind_ok _ _ _ _ _ (in_world_ok _ r0 _ _ Hclone)).
  set (r1 := {| stats := stats r0; document_ids := document_ids r0;
                world := w1 |}).
  rewrite (bind_ok _ _ _ _ _ (in_world_ok _ r1 _ _ Hcommit)).
  unfold lift at 1 2. rewrite Hhash, Hmessage.
  unfold bind at 1 2.
  unfold bind at 1. unfold update_stats at 1.
  destruct (filter_files _ (checkout_tree checkout) verbose) as [|f files];
    [now contradiction Hfiles |].
  match goal with
  | |- context [bind (in_world (create_collection _ _ _ _)) _ ?r] =>
      set (r2 := r)
  end.
  unfold bind at 1.
  rewrite (in_world_ok _ r2 _ _ Hcollection). reflexivity.
Qed.

Lemma collection_failure_aborts_the_run_witness :
  let server : Server :=
    fun _ _ => Responds {| status_code := 403; text := "forbidden";
                           json := None |} in
  load_repository server Demo.build_metadata (Demo.loader ["a.py"])
    Demo.repo_url None None false false "high" false initial_world
  = (Raise (R2RClientError (client_error_message 403 "forbidden")),
     sent (list_collections_request Demo.self) initial_world).
Proof.
  intros server.
  refine (collection_failure_aborts_the_run server
            Demo.build_metadata (Demo.loader ["a.py"])
            Demo.repo_url None None false false "high" false
            initial_world initial_world initial_world _
            (Demo.checkout ["a.py"]) Demo.commit_info
            (PStr "01234567") (PStr "initial") _
            eq_refl eq_refl eq_refl eq_refl _ _).
  - vm_compute. discriminate.
  - vm_compute. reflexivity.
Defined.

(** ** The form of a document identifier *)

Lemma hexdigit_in_alphabet (x : Z) :
  In (UUID.hexdigit (x mod 16)) hex_alphabet.
Proof.
  pose proof (Z.mod_pos_bound x 16 ltac:(lia)) as H.
  set (d := x mod 16) in *.
  assert (Hd : In d [0; 1; 2; 3; 4; 5; 6; 7; 8; 9; 10; 11; 12; 13; 14; 15]).
  { simpl. lia. }
  clearbody d. simpl in Hd.
  repeat (destruct Hd as [<- | Hd]; [vm_compute; tauto |]).
  destruct Hd.
Qed.

Lemma nibble (x k : Z) : Z.shiftr x k mod 16 = Z.land (Z.shiftr x k) 15.
Proof.
  change 16 with (2 ^ 4). rewrite <- Z.land_ones by lia. reflexivity.
Qed.

(** Bits 76 to 79 hold the version. *)
Lemma version_nibble (int : Z) :
  Z.shiftr (UUID.with_version int 5) 76 mod 16 = 5.
Proof.
  rewrite nibble. unfold UUID.with_version. cbv zeta.
  rewrite Z.shiftr_lor, Z.land_lor_distr_l.
  rewrite Z.shiftr_land, <- Z.land_assoc.
  change (Z.land (Z.shiftr (Z.lnot (Z.shiftl 0xf000 64)) 76) 15) with 0.
  rewrite Z.land_0_r. reflexivity.
Qed.

(** Bits 62 and 63 hold the variant, binary 10. *)
Lemma variant_nibble (int : Z) :
  In (Z.shiftr (UUID.with_version int 5) 60 mod 16) [8; 9; 10; 11].
Proof.
  rewrite nibble. unfold UUID.with_version. cbv zeta.
  rewrite Z.shiftr_lor, Z.land_lor_distr_l.
  change (Z.land (Z.shiftr (Z.shiftl 5 76) 60) 15) with 0.
  rewrite Z.lor_0_r.
  rewrite Z.shiftr_land, <- Z.land_assoc.
  change (Z.land (Z.shiftr (Z.lnot (Z.shiftl 0xf000 64)) 60) 15) with 15.
  rewrite Z.shiftr_lor, Z.land_lor_distr_l.
  change (Z.land (Z.shiftr (Z.shiftl 0x8000 48) 60) 15) with 8.
  rewrite Z.shiftr_land, <- Z.land_assoc.
  change (Z.land (Z.shiftr (Z.lnot (Z.shiftl 0xc000 48)) 60) 15) with 3.
  change 3 with (Z.ones 2). rewrite Z.land_ones by lia.
  pose proof (Z.mod_pos_bound (Z.shiftr int 60) (2 ^ 2) ltac:(lia)) as H.
  set (d := Z.shiftr int 60 mod 2 ^ 2) in *.
  assert (Hd : In d [0; 1; 2; 3]) by (simpl; lia).
  clearbody d. simpl in Hd.
  repeat (destruct Hd as [<- | Hd]; [vm_compute; tauto |]).
  destruct Hd.
Qed.

Lemma to_str_format (v : Z) :
  String.length (UUID.to_str v) = 36%nat
  /\ (forall i : nat, In i [8; 13; 18; 23]%nat ->
                      String.get i (UUID.to_str v) = Some "-"%char)
  /\ String.get 14 (UUID.to_str v)
     = Some (UUID.hexdigit (Z.shiftr v 76 mod 16))
  /\ String.get 19 (UUID.to_str v)
     = Some (UUID.hexdigit (Z.shiftr v 60 mod 16))
  /\ Forall (fun c => In c hex_alphabet \/ c = "-"%char)
       (list_ascii_of_string (UUID.to_str v)).
Proof.
  unfold UUID.to_str.
  cbn -[Z.shiftr Z.modulo UUID.hexdigit hex_alphabet].
  split; [reflexivity |].
  split; [intros i [<- | [<- | [<- | [<- | []]]]]; reflexivity |].
  split; [reflexivity |]. split; [reflexivity |].
  repeat (constructor;
          [first [left; apply hexdigit_in_alphabet | right; reflexivity] |]).
  constructor.
Qed.

(** Every document identifier is a well-formed version-5 UUID string,
    whatever the repository URL and the path: 36 characters, lowercase
    hexadecimal digits in groups of 8-4-4-4-12 separated by dashes, the
    version digit 5, and the variant digit 8, 9, a or b. *)
Theorem document_id_is_a_version_5_uuid :
  forall repo_url file_path : string,
    let id := generate_document_id repo_url file_path in
    String.length id = 36%nat
    /\ (forall i : nat, In i [8; 13; 18; 23]%nat ->
                        String.get i id = Some "-"%char)
    /\ String.get 14 id = Some "5"%char
    /\ (exists c : ascii,
           String.get 19 id = Some c /\ In c ["8"; "9"; "a"; "b"]%char)
    /\ Forall (fun c => In c hex_alphabet \/ c = "-"%char)
         (list_ascii_of_string id).
Proof.
  intros repo_url file_path. cbv zeta. unfold generate_document_id.
  set (key := (repo_url ++ ":" ++ file_path)%string).
  destruct (to_str_format (UUID.uuid5 UUID.NAMESPACE_DNS key))
    as [Hlen [Hdash [Hversion [Hvariant Hchars]]]].
  split; [exact Hlen |]. split; [exact Hdash |].
  split; [| split; [| exact Hchars]].
  - rewrite Hversion. unfold UUID.uuid5. now rewrite version_nibble.
  - eexists. split; [exact Hvariant |].
    unfold UUID.uuid5.
    pose proof (variant_nibble
                  (SHA1.from_bytes_big
                     (UUID.hash16 UUID.NAMESPACE_DNS key))) as Hv.
    simpl in Hv.
    destruct Hv as [<- | [<- | [<- | [<- | []]]]]; vm_compute; tauto.
Qed.
